(** * ci-overview: CI check overview for open pull requests

    A shallow embedding of the configuration resolver, the status
    classifier, the table layout and the text renderer of
    [src/ci_overview] ([overview.py], [checks.py], [pull_requests.py],
    [terminal.py]), with the properties of the specification proved or
    refuted on it.

    Conventions.  Python [dict]s with string keys are [gmap string _];
    [dict.update] and [|] are right-biased unions.  Python [str] is
    [string]; [int] is [Z] and [//] is [Z.div] (both floor).  A raised
    exception is the left summand of [result].  A function that performs
    GraphQL requests returns the list of requests it sent next to its
    result. *)

From stdpp Require Import gmap strings list fin_maps.
From Stdlib Require Import ZArith String Ascii Permutation Sorted Lia DecimalString.
From Stdlib Require DecimalFacts DecimalPos.

Open Scope string_scope.
Open Scope list_scope.
Open Scope Z_scope.

(** ** Python primitives *)

Module Py.

(** The exceptions the modelled code can raise. *)
Inductive exn : Type :=
| ValueError (msg : string)
| KeyError (key : string)
| IndexError
| ZeroDivisionError.

Definition result (A : Type) : Type := (exn + A)%type.
Definition Ok {A : Type} (a : A) : result A := inr a.
Definition Raise {A : Type} (e : exn) : result A := inl e.

Definition bind {A B : Type} (r : result A) (k : A -> result B) : result B :=
  match r with
  | inl e => inl e
  | inr a => k a
  end.

(** A [for] loop whose body may raise: the state is threaded from left to
    right and the first exception ends the loop. *)
Fixpoint for_each {A S : Type} (body : S -> A -> result S) (xs : list A)
         (s : S) : result S :=
  match xs with
  | [] => Ok s
  | x :: xs' => bind (body s x) (for_each body xs')
  end.

(** [d[key]] on a dict: [KeyError] when the key is absent. *)
Definition getitem {V : Type} (d : gmap string V) (key : string) : result V :=
  match d !! key with
  | Some v => Ok v
  | None => Raise (KeyError key)
  end.

(** [d.update(other)]: every key of [other] is (re)bound in [d]. *)
Definition update {V : Type} (d other : gmap string V) : gmap string V :=
  other ∪ d.

(** [s.partition(sep)] for a one-character separator: the text before the
    first occurrence, the separator itself, and the text after it; when the
    separator does not occur, the whole string and two empty strings. *)
Fixpoint partition (sep : ascii) (s : string) : string * string * string :=
  match s with
  | EmptyString => ("", "", "")
  | String c rest =>
      if Ascii.eqb c sep then ("", String sep "", rest)
      else let '(before, found, after) := partition sep rest in
           (String c before, found, after)
  end.

(** Truth value of a string ([not s] is [negb (truthy s)]). *)
Definition truthy (s : string) : bool :=
  match s with
  | EmptyString => false
  | String _ _ => true
  end.

(** [s.startswith(p)] *)
Definition startswith (s p : string) : bool := String.prefix p s.

(** [a > b] on strings: lexicographic on code units. *)
Definition str_gt (a b : string) : bool := String.ltb b a.

End Py.

Notation "'try!' x ':=' r 'in' k" := (Py.bind r (fun x => k))
  (at level 10, x name, r at level 100, k at level 200).

(** ** Status classification: [get_check_statuses]

    [overview.py] (lines 76-104) and [pull_requests.py] (lines 66-94) carry
    the same function text; one embedding serves both. *)

Inductive State : Type := EXPECTED | ERROR | FAILURE | PENDING | SUCCESS.

Global Instance State_eq_dec : EqDecision State.
Proof. solve_decision. Defined.

(** A status context as reported for a commit. *)
Record Context : Type := mkContext {
  ctx_context : string;
  ctx_state : State;
  ctx_createdAt : string;
  ctx_targetUrl : option string
}.

(** [CheckStatus] / [Check] ([TypedDict], [total=False]): every key beyond
    the state and the creation time may be absent. *)
Record CheckStatus : Type := mkCheckStatus {
  state : State;
  createdAt : string;
  context : option string;
  targetUrl : option string;
  repo : option string;
  pr : option Z;
  commit_sha : option string;
  ci_name : option string
}.

Record Commit : Type := mkCommit {
  oid : string;
  status : option (list Context)   (* [commit['status']], possibly [None] *)
}.

Record Pull : Type := mkPull {
  number : Z;
  title : string;
  isDraft : bool;
  commits : list Commit            (* [pull['commits']['nodes']] *)
}.

(** One executed query: [repoOwner], [repoName], [baseBranch]. *)
Definition Request : Type := (string * string * string)%type.

(** The GraphQL client: the pull request nodes it answers a query with. *)
Definition Client : Type := Request -> list Pull.

Abbreviation Statuses := (gmap string (list CheckStatus)).

Section Classifier.

(** [NOW.strftime(TIMEFORMAT)], fixed when the module is loaded.
    [pull_requests.py] uses [TIMEFORMAT] without defining it ([overview.py]
    and [checks.py] define it), so the formatted time is a parameter. *)
Variable now : string.

(** [{c['context']: c for c in contexts}]: a later context of the same
    name replaces an earlier one. *)
Definition contexts_dict (cs : list Context) : gmap string Context :=
  fold_left (fun d c => <[ctx_context c := c]> d) cs ∅.

(** [{'context': check, 'state': 'EXPECTED', 'createdAt': now}] *)
Definition fallback (check : string) : Context :=
  mkContext check EXPECTED now None.

(** [c | {'repo': .., 'pr': .., 'commit_sha': .., 'ci_name': ..}] *)
Definition with_pr (c : Context) (repo_ : string) (pr_ : Z)
           (sha ci : string) : CheckStatus :=
  mkCheckStatus (ctx_state c) (ctx_createdAt c) (Some (ctx_context c))
                (ctx_targetUrl c) (Some repo_) (Some pr_) (Some sha) (Some ci).

(** [statuses[check].append(x)] on a [defaultdict(list)] *)
Definition append_status (statuses : Statuses) (check : string)
           (x : CheckStatus) : Statuses :=
  <[check := default [] (statuses !! check) ++ [x]]> statuses.

(** The test that skips a pull request (the [continue] of the loop). *)
Definition skipped (pull : Pull) : bool :=
  isDraft pull || Py.startswith (title pull) "[WIP]".

(** The body of the inner loop [for check in checks]. *)
Definition classify_check (repo_ : string) (names_table : gmap string string)
           (pull : Pull) (commit : Commit) (contexts : gmap string Context)
           (statuses : Statuses) (check : string) : Py.result Statuses :=
  try! ci := Py.getitem names_table check in
  Py.Ok (append_status statuses check
           (with_pr (default (fallback check) (contexts !! check))
                    repo_ (number pull) (oid commit) ci)).

(** The body of the outer loop [for pull in ...]. *)
Definition classify_pull (repo_ : string) (checks : list string)
           (names_table : gmap string string)
           (statuses : Statuses) (pull : Pull) : Py.result Statuses :=
  if skipped pull then Py.Ok statuses
  else
    try! commit := match commits pull with
                   | [] => Py.Raise Py.IndexError
                   | c :: _ => Py.Ok c
                   end in
    let contexts := match status commit with
                    | Some cs => contexts_dict cs
                    | None => ∅
                    end in
    Py.for_each (classify_check repo_ names_table pull commit contexts)
                checks statuses.

Definition get_check_statuses (client : Client) (repo_ branch : string)
           (checks : list string) (names_table : gmap string string)
  : list Request * Py.result Statuses :=
  let '(owner, is_valid, repo_name) := Py.partition "/" repo_ in
  if negb (Py.truthy is_valid)
  then ([], Py.Raise (Py.ValueError "repository name must contain a slash"))
  else
    let request := (owner, repo_name, branch) in
    let response := client request in
    ([request],
     Py.for_each (classify_pull repo_ checks names_table) response ∅).

End Classifier.

(** ** Configuration resolution *)

(** File names shared by both resolvers. *)
Definition DEFAULTENV : string := "DEFAULTS.env".

(** A path below the definitions directory, one component per level. *)
Definition Path : Type := list string.

(** [s.endswith(suffix)] *)
Definition endswith (s suffix : string) : bool :=
  (String.length suffix <=? String.length s)%nat
  && String.eqb (substring (String.length s - String.length suffix)
                           (String.length suffix) s) suffix.

(** [s.removesuffix(suffix)] *)
Definition removesuffix (s suffix : string) : string :=
  if endswith s suffix && Py.truthy suffix
  then substring 0 (String.length s - String.length suffix) s
  else s.

(** Truth value of a list. *)
Definition nonempty {A : Type} (l : list A) : bool :=
  match l with
  | [] => false
  | _ :: _ => true
  end.

(** [x in l] on a list of strings. *)
Definition contains (l : list string) (x : string) : bool :=
  existsb (String.eqb x) l.

(** ** Table layout shared by [overview.py] and [terminal.py] *)

Definition INDENT : string := "  ".
Definition SEPARATOR : string := "  ".

(** [len(s)] as a Python integer. *)
Definition len (s : string) : Z := Z.of_nat (String.length s).

(** [(terminal_width - 2*len(INDENT) + len(SEPARATOR)) //
     (len('#') + prnum_len + len(SEPARATOR))]
    ([overview.py] lines 148-149, [terminal.py] lines 40-41). *)
Definition items_per_row (terminal_width prnum_len : Z) : Z :=
  (terminal_width - 2 * len INDENT + len SEPARATOR)
  / (len "#" + prnum_len + len SEPARATOR).

(** [enumerate(l)] *)
Fixpoint enumerate_from {A : Type} (i : Z) (l : list A) : list (Z * A) :=
  match l with
  | [] => []
  | x :: l' => (i, x) :: enumerate_from (i + 1) l'
  end.

Definition enumerate {A : Type} (l : list A) : list (Z * A) :=
  enumerate_from 0 l.

(** [itertools.groupby(l, key)]: the maximal runs of neighbours with equal
    keys, each with its key. *)
Fixpoint groupby {A K : Type} `{EqDecision K} (key : A -> K) (l : list A)
  : list (K * list A) :=
  match l with
  | [] => []
  | x :: l' =>
      match groupby key l' with
      | (k, run) :: groups =>
          if decide (key x = k) then (k, x :: run) :: groups
          else (key x, [x]) :: (k, run) :: groups
      | [] => [(key x, [x])]
      end
  end.

(** The rows the [for _, row in it.groupby(enumerate(..), key=lambda tpl:
    tpl[0] // items_per_row)] loop visits.  The key of the first element is
    computed before any row is handed out, so a zero [items_per_row] raises
    before anything is printed; for an empty list no key is computed. *)
Definition table_rows {A : Type} (per_row : Z) (l : list A)
  : Py.result (list (list A)) :=
  match l with
  | [] => Py.Ok []
  | _ :: _ =>
      if per_row =? 0 then Py.Raise Py.ZeroDivisionError
      else Py.Ok (map (fun group => map snd (snd group))
                      (groupby (fun tpl => fst tpl / per_row) (enumerate l)))
  end.

(** [l.sort(key=lambda c: c['createdAt'], reverse=True)]: the stable sort,
    newest first; among equal keys the earlier element stays earlier. *)
Fixpoint insert_desc (x : CheckStatus) (l : list CheckStatus) : list CheckStatus :=
  match l with
  | [] => [x]
  | y :: l' =>
      if String.ltb (createdAt x) (createdAt y) then y :: insert_desc x l'
      else x :: y :: l'
  end.

Definition sort_desc (l : list CheckStatus) : list CheckStatus :=
  foldr insert_desc [] l.

(** [str(n)] for an integer. *)
Definition str_of_int (n : Z) : string := NilZero.string_of_int (Z.to_int n).

(** [' ' * n] *)
Fixpoint spaces (n : nat) : string :=
  match n with
  | O => ""
  | S n' => String " " (spaces n')
  end.

(** ['{:Nd}'.format(n)]: the decimal numeral, right-aligned in [N]
    columns. *)
Definition format_d (width : Z) (n : Z) : string :=
  let digits := str_of_int n in
  spaces (Z.to_nat width - String.length digits) +:+ digits.

(** The escape character ['\033']. *)
Definition ESC : string := String "027"%char "".

(** The local resolver and the renderer of [overview.py]. *)
Module Overview.

(** The directory tree below [defs_dir]: the files in the order the
    directory listing yields them, each with what [parse_env_file] returns
    for it. *)
Definition Tree : Type := list (Path * gmap string string).

(** [os.path.exists(p)] and [parse_env_file(p)] in one lookup. *)
Fixpoint read_file (tree : Tree) (p : Path) : option (gmap string string) :=
  match tree with
  | [] => None
  | (q, vars) :: tree' =>
      if decide (q = p) then Some vars else read_file tree' p
  end.

(** The glob wildcard [*] matches any name that does not start with a
    dot. *)
Definition glob_star (name : string) : bool :=
  negb (String.prefix "." name).

(** [glob.glob(os.path.join(defs_dir, '*', '*', '*.env'))], relative to
    [defs_dir] and already split at the path separator. *)
Definition glob_env (tree : Tree) : list (string * string * string) :=
  flat_map (fun entry =>
              match fst entry with
              | [role; docker; env] =>
                  if glob_star role && glob_star docker
                     && glob_star env && endswith env ".env"
                  then [(role, docker, env)]
                  else []
              | _ => []
              end) tree.

(** Lines 126-131: the four files whose variables make up one check, the
    least specific first; a file that does not exist is passed over. *)
Definition env_paths (role docker env : string) : list Path :=
  [ [DEFAULTENV]; [role; DEFAULTENV]; [role; docker; DEFAULTENV];
    [role; docker; env] ].

Definition resolve_check (tree : Tree) (role docker env : string)
  : gmap string string :=
  fold_left (fun check envpath =>
               match read_file tree envpath with
               | Some vars => Py.update check vars
               | None => check
               end)
            (env_paths role docker env) ∅.

(** [all_checks] and [name_table], the two results of the resolver. *)
Definition Catalog : Type :=
  (gmap (string * string) (list string) * gmap string string)%type.

(** The body of the loop over the globbed paths (lines 118-139). *)
Definition resolve_entry (tree : Tree) (roles containers repos checks : list string)
           (acc : Catalog) (entry : string * string * string)
  : Py.result Catalog :=
  let '(role, docker, env) := entry in
  let '(all_checks, name_table) := acc in
  if String.eqb env DEFAULTENV then Py.Ok acc
  else if nonempty roles && negb (contains roles role) then Py.Ok acc
  else if nonempty containers && negb (contains containers docker) then Py.Ok acc
  else
    let check := resolve_check tree role docker env in
    try! repo_ := Py.getitem check "PR_REPO" in
    try! branch := Py.getitem check "PR_BRANCH" in
    try! name := Py.getitem check "CHECK_NAME" in
    if nonempty repos && negb (contains repos repo_) then Py.Ok acc
    else if nonempty checks && negb (contains checks name) then Py.Ok acc
    else
      try! ci := Py.getitem check "CI_NAME" in
      Py.Ok (<[(repo_, branch) :=
                 default [] (all_checks !! (repo_, branch)) ++ [name]]> all_checks,
             <[name := ci]> name_table).

Definition get_all_checks (tree : Tree) (roles containers repos checks : list string)
  : Py.result Catalog :=
  Py.for_each (resolve_entry tree roles containers repos checks)
              (glob_env tree) (∅, ∅).

(** *** Rendering (lines 143-216) *)

Section Renderer.

(** [(NOW - timedelta(days=recent_days)).strftime(TIMEFORMAT)] *)
Variable recent_cutoff : Z -> string.

(** Lines 167-175: the result page, for a finished check whose record
    has all four keys. *)
Definition result_url (status_ : CheckStatus) : option string :=
  match state status_ with
  | SUCCESS | FAILURE | ERROR =>
      match repo status_, pr status_, commit_sha status_, ci_name status_ with
      | Some r, Some n, Some sha, Some ci =>
          Some (String.concat "/"
                  [ "https://ali-ci.cern.ch/alice-build-logs"; r;
                    str_of_int n; sha; ci; "pretty.html" ])
      | _, _, _, _ => None
      end
  | EXPECTED | PENDING => None
  end.

(** Lines 179-185: the colour table. *)
Definition colour (s : State) : string :=
  match s with
  | PENDING => "33"    (* yellow *)
  | EXPECTED => "35"   (* magenta *)
  | SUCCESS => "32"    (* green *)
  | FAILURE => "31"    (* red *)
  | ERROR => "31;1"    (* bold red *)
  end.

Definition format_status (status_ : CheckStatus) (text : string)
           (recent_days : Z) : string :=
  let ansi_escaped := "" in
  let url := result_url status_ in
  let ansi_escaped :=
    match url with
    | Some u => ansi_escaped +:+ ESC +:+ "]8;;" +:+ u +:+ ESC +:+ "\"
    | None => ansi_escaped
    end in
  let ansi_escaped := ansi_escaped +:+ ESC +:+ "[" +:+ colour (state status_) in
  let ansi_escaped :=
    if Py.str_gt (createdAt status_) (recent_cutoff recent_days)
    then ansi_escaped +:+ ";7"
    else ansi_escaped in
  let ansi_escaped := ansi_escaped +:+ "m" +:+ text in
  let ansi_escaped :=
    match url with
    | Some _ => ansi_escaped +:+ ESC +:+ "]8;;" +:+ ESC +:+ "\"
    | None => ansi_escaped
    end in
  ansi_escaped +:+ ESC +:+ "[0m".

Definition format_table_row (statuses_and_text : list (CheckStatus * string))
           (recent_days : Z) : string :=
  INDENT +:+ INDENT +:+
  String.concat SEPARATOR
    (map (fun st => format_status (fst st) (snd st) recent_days)
         statuses_and_text).

(** [max(c['pr'] for c in pr_statuses)] *)
Definition max_pr (pr_statuses : list CheckStatus) : Py.result Z :=
  try! numbers := Py.for_each
                    (fun seen c =>
                       match pr c with
                       | Some n => Py.Ok (seen ++ [n])
                       | None => Py.Raise (Py.KeyError "pr")
                       end) pr_statuses [] in
  match numbers with
  | [] => Py.Raise (Py.ValueError "max() arg is an empty sequence")
  | n :: rest => Py.Ok (fold_left Z.max rest n)
  end.

(** [1 + math.floor(math.log10(n))]: the number of decimal digits of a
    positive [n].  The logarithm of the source is a floating-point one; it
    gives the number of digits for the numbers below [10^14], and one
    digit too many for [10^15 - 1]. *)
Definition digits (n : Z) : Py.result Z :=
  match n with
  | Zpos p => Py.Ok (Z.of_nat (Decimal.nb_digits (Pos.to_uint p)))
  | _ => Py.Raise (Py.ValueError "math domain error")
  end.

(** [output_check_table]: the list as the call leaves it (it is sorted
    in place before anything else happens), and the lines printed. *)
Definition output_check_table (terminal_width : Z)
           (pr_statuses : list CheckStatus) (recent_days : Z)
  : list CheckStatus * Py.result (list string) :=
  let pr_statuses := sort_desc pr_statuses in
  (pr_statuses,
   try! largest := max_pr pr_statuses in
   try! prnum_len := digits largest in
   let per_row := items_per_row terminal_width prnum_len in
   try! rows := table_rows per_row pr_statuses in
   Py.for_each
     (fun printed row =>
        try! cells := Py.for_each
                        (fun cells status_ =>
                           match pr status_ with
                           | Some n =>
                               Py.Ok (cells ++ [(status_, "#" +:+ format_d prnum_len n)])
                           | None => Py.Raise (Py.KeyError "pr")
                           end) row [] in
        Py.Ok (printed ++ [format_table_row cells recent_days]))
     rows []).

End Renderer.

End Overview.

(** The remote resolver of [checks.py]. *)
Module Checks.

(** [Check]: a generic check, as parsed from a [.env] file. *)
Record Check : Type := mkCheck {
  short_name : string;
  name : string;
  repository : string;
  branch : string
}.

(** What [process_gql_directory] yields: the path of every file split at
    the separator, with its parsed variables. *)
Definition EnvFiles : Type := list (Path * gmap string string).

(** [path[-1]] *)
Definition last_component (path : Path) : Py.result string :=
  match last path with
  | Some c => Py.Ok c
  | None => Py.Raise Py.IndexError
  end.

(** [path[:-1]] *)
Definition parent (path : Path) : Path := removelast path.

(** Lines 104-105: the dict comprehension that collects the defaults
    files under the path of their directory. *)
Definition collect_defaults (env_files : EnvFiles)
  : Py.result (gmap Path (gmap string string)) :=
  Py.for_each (fun defaults entry =>
                 try! file := last_component (fst entry) in
                 if String.eqb file "DEFAULTS.env"
                 then Py.Ok (<[parent (fst entry) := snd entry]> defaults)
                 else Py.Ok defaults)
              env_files ∅.

(** Lines 112-116: the defaults of the three levels, then the variables of
    the file itself. *)
Definition apply_defaults (defaults : gmap Path (gmap string string))
           (role container : string) (variables : gmap string string)
  : gmap string string :=
  let check := ∅ in
  let check := Py.update check (default ∅ (defaults !! [])) in
  let check := Py.update check (default ∅ (defaults !! [role])) in
  let check := Py.update check (default ∅ (defaults !! [role; container])) in
  Py.update check variables.

(** The body of the loop over the files (lines 107-122). *)
Definition resolve_entry (defaults : gmap Path (gmap string string))
           (checks : list Check) (entry : Path * gmap string string)
  : Py.result (list Check) :=
  let '(path, variables) := entry in
  try! file := last_component path in
  if String.eqb file "DEFAULTS.env" then Py.Ok checks
  else
    match path with
    | [role; container; filename] =>
        let check := apply_defaults defaults role container variables in
        try! name_ := Py.getitem check "CHECK_NAME" in
        try! repo_ := Py.getitem check "PR_REPO" in
        try! branch_ := Py.getitem check "PR_BRANCH" in
        Py.Ok (checks ++ [mkCheck (removesuffix filename ".env")
                                  name_ repo_ branch_])
    | _ => Py.Raise (Py.ValueError "unpack")
    end.

(** Lines 104-123 of [get_all_checks]: what the function does with the
    list [env_files] once line 100 has bound it.  The function itself,
    with the query and the call of the directory walk in front of these
    lines, is [ChecksTree.get_all_checks] below. *)
Definition resolve_env_files (env_files : EnvFiles) : Py.result (list Check) :=
  try! defaults := collect_defaults env_files in
  Py.for_each (resolve_entry defaults) env_files [].

End Checks.

(** The text renderer of [terminal.py] with [get_status_url] of
    [pull_requests.py]. *)
Module Terminal.

(** [get_status_url]: the target of the status itself, else the page of
    the pull request, else nothing. *)
Definition get_status_url (status_ : CheckStatus) : option string :=
  match targetUrl status_ with
  | Some (String c u) => Some (String c u)
  | _ =>
      match repo status_, pr status_ with
      | Some r, Some n =>
          Some ("https://github.com/" +:+ r +:+ "/pull/" +:+ str_of_int n)
      | _, _ => None
      end
  end.

(** Lines 67-73: the colour table of [TextOutput.format_status]. *)
Definition colour (s : State) : string :=
  match s with
  | PENDING => "33"     (* yellow *)
  | EXPECTED => "90"    (* gray (bright black) *)
  | SUCCESS => "32"     (* green *)
  | ERROR => "31"       (* red *)
  | FAILURE => "31;1"   (* bold red *)
  end.

Section TextOutput.

(** [self.recent_cutoff], an attribute that is set outside [terminal.py]. *)
Variable recent_cutoff : string.

Definition format_status (status_ : CheckStatus) (text : string) : string :=
  let ansi_escaped := "" in
  let url := get_status_url status_ in
  let ansi_escaped :=
    match url with
    | Some (String c u) =>
        ansi_escaped +:+ ESC +:+ "]8;;" +:+ String c u +:+ ESC +:+ "\"
    | _ => ansi_escaped
    end in
  let ansi_escaped := ansi_escaped +:+ ESC +:+ "[" +:+ colour (state status_) in
  let ansi_escaped :=
    if Py.str_gt (createdAt status_) recent_cutoff
    then ansi_escaped +:+ ";7"
    else ansi_escaped in
  let ansi_escaped := ansi_escaped +:+ "m" +:+ text in
  let ansi_escaped :=
    match url with
    | Some (String _ _) => ansi_escaped +:+ ESC +:+ "]8;;" +:+ ESC +:+ "\"
    | _ => ansi_escaped
    end in
  ansi_escaped +:+ ESC +:+ "[0m".

End TextOutput.

End Terminal.

(** ** Vocabulary of the statements *)

(** The characters of a string. *)
Definition chars (s : string) : list ascii := list_ascii_of_string s.

(** The pull requests a call of [get_check_statuses] fetches. *)
Definition fetched (client : Client) (repo_ branch : string) : list Pull :=
  let '(owner, _, repo_name) := Py.partition "/" repo_ in
  client (owner, repo_name, branch).

(** The pull requests that are classified: neither draft nor [[WIP]]. *)
Definition eligible (pulls : list Pull) : list Pull :=
  List.filter (fun pull => negb (skipped pull)) pulls.

(** The commit the classifier reads, [pull['commits']['nodes'][0]]. *)
Definition head_commit (pull : Pull) : Commit :=
  hd (mkCommit "" None) (commits pull).

(** The contexts reported for that commit. *)
Definition reported (pull : Pull) : list Context :=
  match status (head_commit pull) with
  | Some cs => cs
  | None => []
  end.

(** The contexts of a commit that carry exactly the name of the check. *)
Definition matching (check : string) (cs : list Context) : list Context :=
  List.filter (fun c => String.eqb (ctx_context c) check) cs.

(** The record of one pull request for one check: the last reported context
    of that name, or the synthetic one. *)
Definition status_record (now repo_ : string) (names_table : gmap string string)
           (pull : Pull) (check : string) : CheckStatus :=
  with_pr (default (fallback now check) (last (matching check (reported pull))))
          repo_ (number pull) (oid (head_commit pull))
          (default "" (names_table !! check)).

(** [statuses[check]] *)
Definition records (statuses : Statuses) (check : string) : list CheckStatus :=
  default [] (statuses !! check).

(** The number of records over all checks. *)
Definition total_records (statuses : Statuses) : nat :=
  map_fold (fun _ l n => (List.length l + n)%nat) 0%nat statuses.

(** The records of a pull request among those of a check. *)
Definition records_of (statuses : Statuses) (check : string) (n : Z)
  : list CheckStatus :=
  List.filter (fun st => bool_decide (pr st = Some n)) (records statuses check).

(** "Exactly one record for every classified pull request and every
    requested check." *)
Definition one_record_each (pulls : list Pull) (checks : list string)
           (statuses : Statuses) : Prop :=
  forall pull check,
    In pull (eligible pulls) -> In check checks ->
    List.length (records_of statuses check (number pull)) = 1%nat.

(** The value of a key in a stack of layers, the most specific layer
    first: the first layer that defines the key decides. *)
Fixpoint first_defined (layers : list (gmap string string)) (key : string)
  : option string :=
  match layers with
  | [] => None
  | layer :: rest =>
      match layer !! key with
      | Some v => Some v
      | None => first_defined rest key
      end
  end.

(** The variables a level contributes to a check of the local tree: those
    of its file, none when the file is missing. *)
Definition level (tree : Overview.Tree) (p : Path) : gmap string string :=
  default ∅ (Overview.read_file tree p).

(** The variables a level of defaults contributes in the remote listing. *)
Definition level_of (defaults : gmap Path (gmap string string)) (p : Path)
  : gmap string string :=
  default ∅ (defaults !! p).

(** The keys every check must define, and those the local resolver reads. *)
Definition required_keys : list string := ["CHECK_NAME"; "PR_REPO"; "PR_BRANCH"].
Definition keys_read : list string :=
  ["PR_REPO"; "PR_BRANCH"; "CHECK_NAME"; "CI_NAME"].

(** A check file of the local tree that the role and container filters let
    through. *)
Definition selected (tree : Overview.Tree) (roles containers : list string)
           (entry : string * string * string) : Prop :=
  In entry (Overview.glob_env tree)
  /\ snd entry <> DEFAULTENV
  /\ (roles = [] \/ In (fst (fst entry)) roles)
  /\ (containers = [] \/ In (snd (fst entry)) containers).

(** "The catalog holds every check file that has its required keys": what
    best-effort resolution would return. *)
Definition resolves_complete_checks (tree : Overview.Tree)
           (result : Py.result Overview.Catalog) : Prop :=
  exists all_checks name_table,
    result = Py.Ok (all_checks, name_table)
    /\ forall role docker env repo_ branch name_ ci,
        selected tree [] [] (role, docker, env) ->
        Overview.resolve_check tree role docker env !! "PR_REPO" = Some repo_ ->
        Overview.resolve_check tree role docker env !! "PR_BRANCH" = Some branch ->
        Overview.resolve_check tree role docker env !! "CHECK_NAME" = Some name_ ->
        Overview.resolve_check tree role docker env !! "CI_NAME" = Some ci ->
        In name_ (default [] (all_checks !! (repo_, branch))).

(** [a] is not older than [b]: the order the table is sorted by. *)
Definition newest_first (a b : CheckStatus) : Prop :=
  String.ltb (createdAt a) (createdAt b) = false.

(** The records created at a given time. *)
Definition created_at (t : string) (l : list CheckStatus) : list CheckStatus :=
  List.filter (fun c => String.eqb (createdAt c) t) l.

(** The escape sequences that open and close the hyperlink of a cell. *)
Definition link_open (url : option string) : string :=
  match url with
  | Some u => ESC +:+ "]8;;" +:+ u +:+ ESC +:+ "\"
  | None => ""
  end.

Definition link_close (url : option string) : string :=
  match url with
  | Some _ => ESC +:+ "]8;;" +:+ ESC +:+ "\"
  | None => ""
  end.

(** A cell of the table: the text with the colour parameters [code], in
    reverse video when [reverse] is set, linked to [url] when there is
    one. *)
Definition cell (url : option string) (code : string) (reverse : bool)
           (text : string) : string :=
  link_open url +:+ ESC +:+ "[" +:+ code +:+ (if reverse then ";7" else "")
  +:+ "m" +:+ text +:+ link_close url +:+ ESC +:+ "[0m".

(** What the colour parameters mean on a terminal. *)
Inductive Hue : Type := Grey | Yellow | Green | Red | Magenta.

Record Style : Type := mkStyle { hue : option Hue; bold : bool }.

(** [s.split(sep)] *)
Fixpoint split (sep : ascii) (s : string) : list string :=
  match s with
  | EmptyString => [""]
  | String c rest =>
      if Ascii.eqb c sep then "" :: split sep rest
      else match split sep rest with
           | field :: fields => String c field :: fields
           | [] => [String c ""]
           end
  end.

(** One parameter of "select graphic rendition": 1 is bold, 31 to 35 set
    the foreground colour, 90 is bright black. *)
Definition sgr_param (style : Style) (param : string) : option Style :=
  if String.eqb param "1" then Some (mkStyle (hue style) true)
  else if String.eqb param "31" then Some (mkStyle (Some Red) (bold style))
  else if String.eqb param "32" then Some (mkStyle (Some Green) (bold style))
  else if String.eqb param "33" then Some (mkStyle (Some Yellow) (bold style))
  else if String.eqb param "35" then Some (mkStyle (Some Magenta) (bold style))
  else if String.eqb param "90" then Some (mkStyle (Some Grey) (bold style))
  else None.

Definition style_of (code : string) : option Style :=
  fold_left (fun acc param =>
               match acc with
               | Some style => sgr_param style param
               | None => None
               end)
            (split ";" code) (Some (mkStyle None false)).

(** The colour table of the specification. *)
Definition specified_style (s : State) : Style :=
  match s with
  | EXPECTED => mkStyle (Some Grey) false
  | PENDING => mkStyle (Some Yellow) false
  | SUCCESS => mkStyle (Some Green) false
  | FAILURE => mkStyle (Some Red) true
  | ERROR => mkStyle (Some Red) false
  end.

(** The colour table of the stand-alone script [overview.py]. *)
Definition script_style (s : State) : Style :=
  match s with
  | EXPECTED => mkStyle (Some Magenta) false
  | PENDING => mkStyle (Some Yellow) false
  | SUCCESS => mkStyle (Some Green) false
  | FAILURE => mkStyle (Some Red) false
  | ERROR => mkStyle (Some Red) true
  end.

(** A point in time as [datetime] has it, to the second. *)
Record DateTime : Type := mkDateTime {
  year : Z; month : Z; day : Z;
  hour : Z; minute : Z; second : Z
}.

(** The fields every [datetime] of four-digit year satisfies. *)
Definition well_formed (t : DateTime) : Prop :=
  1000 <= year t < 10000 /\ 1 <= month t <= 12 /\ 1 <= day t <= 31
  /\ 0 <= hour t < 24 /\ 0 <= minute t < 60 /\ 0 <= second t < 60.

(** The decimal digit [d]. *)
Definition digit (d : Z) : ascii := ascii_of_nat (Z.to_nat (48 + d)).

(** [n] in [width] decimal digits, padded with zeros. *)
Fixpoint zero_padded (width : nat) (n : Z) : string :=
  match width with
  | O => ""
  | S width' =>
      String (digit (n / 10 ^ Z.of_nat width'))
             (zero_padded width' (n mod 10 ^ Z.of_nat width'))
  end.

(** [t.strftime('%Y-%m-%dT%H:%M:%SZ')] *)
Definition strftime (t : DateTime) : string :=
  zero_padded 4 (year t) +:+ "-" +:+ zero_padded 2 (month t) +:+ "-"
  +:+ zero_padded 2 (day t) +:+ "T" +:+ zero_padded 2 (hour t) +:+ ":"
  +:+ zero_padded 2 (minute t) +:+ ":" +:+ zero_padded 2 (second t) +:+ "Z".

(** The order of two comparisons, the first deciding unless it is a tie. *)
Definition then_compare (first rest : comparison) : comparison :=
  match first with
  | Eq => rest
  | _ => first
  end.

(** The order of two points in time. *)
Definition compare_time (a b : DateTime) : comparison :=
  then_compare (year a ?= year b)
    (then_compare (month a ?= month b)
       (then_compare (day a ?= day b)
          (then_compare (hour a ?= hour b)
             (then_compare (minute a ?= minute b)
                           (second a ?= second b))))).

(** [a] is strictly newer than [b]. *)
Definition newer (a b : DateTime) : Prop := compare_time b a = Lt.

(** A globbed file yields the check [name_] of [repo_] and [branch]: it is
    not a defaults file, the role and container filters let it through, its
    merged variables name the three, and the repository and check filters
    let those through.  An empty filter lets everything through. *)
Definition admits (tree : Overview.Tree) (roles containers repos checks : list string)
           (entry : string * string * string) (repo_ branch name_ : string)
  : Prop :=
  let '(role, docker, env) := entry in
  env <> DEFAULTENV
  /\ (roles = [] \/ In role roles)
  /\ (containers = [] \/ In docker containers)
  /\ Overview.resolve_check tree role docker env !! "PR_REPO" = Some repo_
  /\ Overview.resolve_check tree role docker env !! "PR_BRANCH" = Some branch
  /\ Overview.resolve_check tree role docker env !! "CHECK_NAME" = Some name_
  /\ (repos = [] \/ In repo_ repos)
  /\ (checks = [] \/ In name_ checks).

(** [all_checks[key]] *)
Definition checks_of (all_checks : gmap (string * string) (list string))
           (key : string * string) : list string :=
  default [] (all_checks !! key).

(** Every check of the catalog has an internal name in the name table. *)
Definition names_cover (catalog : Overview.Catalog) : Prop :=
  forall key name_, In name_ (checks_of (fst catalog) key) ->
                    is_Some (snd catalog !! name_).

(** A list cut into consecutive pieces of [n] items, the last one possibly
    shorter; [fuel] bounds the number of pieces. *)
Fixpoint chunks_fuel {A : Type} (fuel n : nat) (l : list A) : list (list A) :=
  match fuel with
  | O => []
  | S fuel' =>
      match l with
      | [] => []
      | _ :: _ => firstn n l :: chunks_fuel fuel' n (skipn n l)
      end
  end.

Definition chunks {A : Type} (n : nat) (l : list A) : list (list A) :=
  chunks_fuel (List.length l) n l.

(** The width of the labels of a table, [prnum_len]; zero when the script
    raises before it has one. *)
Definition label_width (pr_statuses : list CheckStatus) : Z :=
  match Overview.max_pr pr_statuses with
  | inr largest =>
      match Overview.digits largest with
      | inr width => width
      | inl _ => 0
      end
  | inl _ => 0
  end.

(** The statuses of a row with their labels. *)
Definition labelled (width : Z) (row : list CheckStatus)
  : list (CheckStatus * string) :=
  map (fun status_ => (status_, "#" +:+ format_d width (default 0 (pr status_))))
      row.

(** The pull request number of a status that has one. *)
Definition pr_number (c : CheckStatus) : Z := default 0 (pr c).

(** ** The file parser and the directory walk of [checks.py] *)

Module ChecksTree.

(** What the walk can raise besides the exceptions of [Py]. *)
Inductive exn : Type :=
| AssertionError (msg : string)
| TypeError (msg : string)
| Raised (e : Py.exn).

Definition result (A : Type) : Type := (exn + A)%type.

(** The body of the loop of [parse_env_file] (lines 68-70): a token with an
    equals sign binds the text before the first one to the text after
    it. *)
Definition assign (result : gmap string string) (token : string)
  : gmap string string :=
  let '(var, is_assignment, value) := Py.partition "=" token in
  if Py.truthy is_assignment then <[var := value]> result else result.

(** A blob or a tree of the queried repository; an entry of a tree is a
    path with its object. *)
Inductive GitObject : Type :=
| Blob (text : string) (isTruncated : bool)
| Tree (entries : list Entry)
with Entry : Type :=
| mkEntry (path : string) (object : GitObject).

Definition path (entry : Entry) : string :=
  match entry with
  | mkEntry p _ => p
  end.

Definition object (entry : Entry) : GitObject :=
  match entry with
  | mkEntry _ o => o
  end.

(** [s.strip(c)] for one character *)
Fixpoint lstrip (c : ascii) (s : string) : string :=
  match s with
  | EmptyString => ""
  | String d rest => if Ascii.eqb d c then lstrip c rest else s
  end.

Definition reverse (s : string) : string :=
  string_of_list_ascii (rev (list_ascii_of_string s)).

Definition strip (c : ascii) (s : string) : string :=
  reverse (lstrip c (reverse (lstrip c s))).

(** [s.removeprefix(p)] *)
Definition removeprefix (s p : string) : string :=
  if String.prefix p s
  then substring (String.length p) (String.length s - String.length p) s
  else s.

Section Walk.

(** [shlex.split(contents, comments=False)]: the shell words of a file, or
    the [ValueError] of an open quotation. *)
Variable shlex_split : string -> Py.result (list string).

(** [parse_env_file] (lines 65-71) *)
Definition parse_env_file (contents : string) : Py.result (gmap string string) :=
  try! tokens := shlex_split contents in
  Py.Ok (fold_left assign tokens ∅).

(** The body of the loop of [process_gql_directory] (lines 77-86).  The
    recursive call of line 86 passes one argument to a function of two, so
    reaching a tree raises [TypeError]. *)
Definition process_entry (common_path : string)
           (yielded : list (Path * gmap string string))
           (entry : Entry)
  : result (list (Path * gmap string string)) :=
  match object entry with
  | Blob text isTruncated =>
      if isTruncated
      then inl (AssertionError ("got truncated object " +:+ path entry))
      else match parse_env_file text with
           | inl e => inl (Raised e)
           | inr variables =>
               inr (yielded
                    ++ [(split "/" (removeprefix (path entry) common_path),
                         variables)])
           end
  | Tree _ =>
      inl (TypeError "process_gql_directory() missing 1 required positional argument: 'common_path'")
  end.

Fixpoint process_entries (common_path : string)
         (entries : list Entry)
         (yielded : list (Path * gmap string string))
  : result (list (Path * gmap string string)) :=
  match entries with
  | [] => inr yielded
  | entry :: entries' =>
      match process_entry common_path yielded entry with
      | inl e => inl e
      | inr yielded' => process_entries common_path entries' yielded'
      end
  end.

(** [list(process_gql_directory(directory, common_path))] for a directory
    whose object is a tree with the given entries. *)
Definition process_gql_directory (entries : list Entry)
           (common_path : string) : result (list (Path * gmap string string)) :=
  let common_path := strip "/" common_path +:+ "/" in
  process_entries common_path entries [].

End Walk.

(** The variables of the query of lines 100-103. *)
Record Query : Type := mkQuery {
  repoOwner : string;
  repoName : string;
  object_ : string
}.

(** [client.execute(CHECK_DEFS_GRAPHQL, ..)['data']['repository']]: the
    entries of the queried directory, or the exception of the request. *)
Definition GqlClient : Type := Query -> result (list Entry).

(** [process_gql_directory(directory)], the call with the directory alone
    of lines 86 and 100.  The function has two parameters and no default
    for [common_path], so binding the arguments raises [TypeError] before
    any of its body runs, whatever the directory. *)
Definition process_gql_directory_alone (directory : list Entry)
  : result Checks.EnvFiles :=
  inl (TypeError "process_gql_directory() missing 1 required positional argument: 'common_path'").

(** [get_all_checks] (lines 89-123), with the queries it has sent.  The
    arguments of the call of line 100 are evaluated first, so the query is
    sent before the call fails. *)
Definition get_all_checks (client : GqlClient)
           (defs_repo defs_branch defs_dir : string)
  : list Query * result (list Checks.Check) :=
  let '(owner, have_sep, repo_) := Py.partition "/" defs_repo in
  if negb (Py.truthy have_sep)
  then ([], inl (Raised (Py.ValueError "repo not in ORG/REPO syntax")))
  else
    let query :=
      mkQuery owner repo_ (defs_branch +:+ ":" +:+ strip "/" defs_dir) in
    ([query],
     match client query with
     | inl e => inl e
     | inr directory =>
         match process_gql_directory_alone directory with
         | inl e => inl e
         | inr env_files =>
             match Checks.resolve_env_files env_files with
             | inl e => inl (Raised e)
             | inr checks => inr checks
             end
         end
     end).

End ChecksTree.

(** The listed files that are checks: those not named [DEFAULTS.env]. *)
Definition is_defaults (p : Path) : bool :=
  match last p with
  | Some file => String.eqb file "DEFAULTS.env"
  | None => false
  end.

Definition check_files (listing : Checks.EnvFiles) : Checks.EnvFiles :=
  List.filter (fun entry => negb (is_defaults (fst entry))) listing.

(** The check the remote resolver makes of a listed file. *)
Definition check_of (defaults : gmap Path (gmap string string))
           (entry : Path * gmap string string) (check : Checks.Check) : Prop :=
  exists role container filename,
    fst entry = [role; container; filename]
    /\ Checks.short_name check = removesuffix filename ".env"
    /\ (forall base, filename = base +:+ ".env" -> Checks.short_name check = base)
    /\ Checks.apply_defaults defaults role container (snd entry) !! "CHECK_NAME"
       = Some (Checks.name check)
    /\ Checks.apply_defaults defaults role container (snd entry) !! "PR_REPO"
       = Some (Checks.repository check)
    /\ Checks.apply_defaults defaults role container (snd entry) !! "PR_BRANCH"
       = Some (Checks.branch check).

(** A file of a listed directory that the walk can hand on: a blob that is
    not truncated and whose text splits into shell words. *)
Definition intact_file (shlex_split : string -> Py.result (list string))
           (entry : ChecksTree.Entry) : Prop :=
  exists text tokens,
    ChecksTree.object entry = ChecksTree.Blob text false
    /\ shlex_split text = Py.Ok tokens.

(** ** The main loop of [overview.py] *)

Module Script.

(** [format_repo_header] (lines 197-199) *)
Definition format_repo_header (repo_ branch : string) : string :=
  ESC +:+ "[4;1m" +:+ repo_ +:+ ESC +:+ "[0m  " +:+ ESC +:+ "[3m(" +:+ branch
  +:+ ")" +:+ ESC +:+ "[0m".

(** [format_check_header] (lines 202-204) *)
Definition format_check_header (check_name : string) : string :=
  INDENT +:+ ESC +:+ "[4m" +:+ check_name +:+ ESC +:+ "[0m".

(** [format_empty_table] (lines 214-216) *)
Definition format_empty_table : string :=
  INDENT +:+ INDENT +:+ ESC +:+ "[3;90m(no open non-draft PRs here)" +:+ ESC
  +:+ "[0m".

(** [sorted(l)] on strings *)
Fixpoint insert_asc (x : string) (l : list string) : list string :=
  match l with
  | [] => [x]
  | y :: l' => if String.ltb y x then y :: insert_asc x l' else x :: y :: l'
  end.

Definition sorted (l : list string) : list string := foldr insert_asc [] l.

Section Main.

Variable recent_cutoff : Z -> string.
Variable terminal_width : Z.
Variable now : string.

(** What has been printed, the statuses as the table calls have left them,
    and the exception that ended the run, if one did. *)
Record Run : Type := mkRun {
  printed : list string;
  statuses_left : Statuses;
  raised : option Py.exn
}.

(** The body of the loop over the sorted checks (lines 233-238). *)
Definition print_check (recent_days : Z) (run : Run) (check : string) : Run :=
  match raised run with
  | Some _ => run
  | None =>
      let printed := printed run ++ [format_check_header check] in
      match default [] (statuses_left run !! check) with
      | [] =>
          mkRun (printed ++ [format_empty_table; ""]) (statuses_left run) None
      | status_ :: rest =>
          let '(sorted_list, result) :=
            Overview.output_check_table recent_cutoff terminal_width
                                        (status_ :: rest) recent_days in
          let statuses := <[check := sorted_list]> (statuses_left run) in
          match result with
          | inr lines => mkRun (printed ++ lines ++ [""]) statuses None
          | inl e => mkRun printed statuses (Some e)
          end
      end
  end.

(** The body of the loop over the repositories (lines 230-238): the header,
    the request, and one block per check. *)
Definition print_repo (client : Client) (recent_days : Z)
           (names : gmap string string) (repo_ branch : string)
           (checks : list string) : list Request * Run :=
  let header := [format_repo_header repo_ branch] in
  let '(requests, result) :=
    get_check_statuses now client repo_ branch checks names in
  match result with
  | inl e => (requests, mkRun header ∅ (Some e))
  | inr statuses =>
      (requests,
       fold_left (print_check recent_days) (sorted checks)
                 (mkRun header statuses None))
  end.

End Main.

End Script.

(** ** The HTML renderer and the server of [http.py] *)

Module Http.

(** The double quote character. *)
Definition QUOTE : string := String "034"%char "".

(** [status['state']] as it is written into the document. *)
Definition state_name (s : State) : string :=
  match s with
  | EXPECTED => "EXPECTED"
  | ERROR => "ERROR"
  | FAILURE => "FAILURE"
  | PENDING => "PENDING"
  | SUCCESS => "SUCCESS"
  end.

Section HtmlOutput.

(** [self.recent_cutoff], an attribute that is set outside [http.py]. *)
Variable recent_cutoff : string.

(** [HtmlOutput.format_status] (lines 110-120), with [get_status_url] of
    [pull_requests.py]. *)
Definition format_status (status_ : CheckStatus) (text : string) : string :=
  let text :=
    match Terminal.get_status_url status_ with
    | Some (String c u) =>
        "<a href=" +:+ QUOTE +:+ String c u +:+ QUOTE +:+ ">" +:+ text +:+ "</a>"
    | _ => text
    end in
  let date :=
    if Py.str_gt (createdAt status_) recent_cutoff then "recent" else "old" in
  "<div class=" +:+ QUOTE +:+ "status " +:+ state_name (state status_) +:+ " "
  +:+ date +:+ QUOTE +:+ " title=" +:+ QUOTE +:+ createdAt status_ +:+ QUOTE
  +:+ ">" +:+ text +:+ "</div>".

End HtmlOutput.

(** The module globals: the two pages and the exit event. *)
Record Server : Type := mkServer {
  html_page : string;
  metrics_page : string;
  exit_event : bool
}.

(** [generate_html] and [generate_metrics] (lines 127-132) return the page
    that is current when they are called. *)
Definition generate_html (server : Server) : string := html_page server.
Definition generate_metrics (server : Server) : string := metrics_page server.

(** One refresh: the two assignments of lines 142-143 and 145-146. *)
Definition refresh (server : Server) : Server :=
  let server := mkServer (html_page server) (generate_metrics server)
                         (exit_event server) in
  mkServer (generate_html server) (metrics_page server) (exit_event server).

(** The loop [while not exit_event.wait(60)], for the results the waits
    have: it refreshes after every wait that times out and ends at the
    first that finds the event set. *)
Fixpoint refresh_loop (waits : list bool) (server : Server) : Server :=
  match waits with
  | [] => server
  | true :: _ => mkServer (html_page server) (metrics_page server) true
  | false :: waits' => refresh_loop waits' (refresh server)
  end.

(** [regenerate_output] (lines 135-146); [make_client] of [api_client.py]
    exits when the environment has no [GITHUB_TOKEN]. *)
Definition regenerate_output (environ : gmap string string) (waits : list bool)
           (server : Server) : Server :=
  match environ !! "GITHUB_TOKEN" with
  | None => mkServer (html_page server) (metrics_page server) true
  | Some _ => refresh_loop waits (refresh server)
  end.

(** What a request handler sends itself: the status, the two headers and
    the bytes written to the connection. *)
Record Response : Type := mkResponse {
  code : Z;
  content_type : option string;
  content_length : option Z;
  written : string
}.

(** [do_HEAD] followed by the writes of [do_GET] (lines 153-175). *)
Definition do_GET (server : Server) (path : string) : Response :=
  if String.eqb path "/"
  then mkResponse 200 (Some "text/html; charset=utf-8")
                  (Some (len (html_page server))) (html_page server)
  else if String.eqb path "/metrics"
  then mkResponse 200 (Some "text/plain; charset=utf-8")
                  (Some (len (metrics_page server))) (metrics_page server)
  else mkResponse 404 None None "".

End Http.

(** A cell of the HTML table. *)
Definition html_cell (url : option string) (s : State) (recent : bool)
           (created text : string) : string :=
  "<div class=" +:+ Http.QUOTE +:+ "status " +:+ Http.state_name s +:+ " "
  +:+ (if recent then "recent" else "old") +:+ Http.QUOTE +:+ " title="
  +:+ Http.QUOTE +:+ created +:+ Http.QUOTE +:+ ">"
  +:+ match url with
      | Some u => "<a href=" +:+ Http.QUOTE +:+ u +:+ Http.QUOTE +:+ ">"
                  +:+ text +:+ "</a>"
      | None => text
      end
  +:+ "</div>".

(** The defaults files of a directory in a listing. *)
Definition defaults_of (listing : Checks.EnvFiles) (dir : Path)
  : list (gmap string string) :=
  map snd (List.filter (fun entry =>
                          bool_decide (fst entry = dir ++ ["DEFAULTS.env"]))
                       listing).

(** ** The threads of the service of [http.py], statement by statement *)

Module Service.

(** The statement of [regenerate_output] (lines 135-146) that the
    background thread of [main] executes next. *)
Inductive Pc : Type :=
| MakeClient      (* line 138: client = make_client() *)
| AssignMetrics   (* lines 142 and 145: metrics_page = generate_metrics(client) *)
| AssignHtml      (* lines 143 and 146: html_page = generate_html(client) *)
| Wait            (* line 144: exit_event.wait(60) *)
| Returned.

(** The background thread: its next statement, and the results that the
    waits still to come will have. *)
Record Background : Type := mkBackground {
  pc : Pc;
  waits : list bool
}.

(** A request thread of the [ThreadingHTTPServer] that handles a GET
    request: the request has come in, [do_HEAD] has run (line 169), the
    handler has returned. *)
Inductive Handler : Type :=
| Received (path : string)
| HeadSent (path : string) (head : Http.Response)
| Responded (response : Http.Response).

(** The module globals, shared by all threads, and the threads. *)
Record Config : Type := mkConfig {
  globals : Http.Server;
  background : Background;
  handlers : list Handler
}.

(** The thread that runs next; [BackgroundUpdate] is the thread named
    [background-update], [Request i] the thread of the request [i]. *)
Inductive Thread : Type :=
| BackgroundUpdate
| Request (i : nat).

(** [do_HEAD] (lines 153-165): the status and the headers, with the length
    of the page that the global names when [do_HEAD] runs. *)
Definition do_HEAD (globals : Http.Server) (path : string) : Http.Response :=
  if String.eqb path "/"
  then Http.mkResponse 200 (Some "text/html; charset=utf-8")
                       (Some (len (Http.html_page globals))) ""
  else if String.eqb path "/metrics"
  then Http.mkResponse 200 (Some "text/plain; charset=utf-8")
                       (Some (len (Http.metrics_page globals))) ""
  else Http.mkResponse 404 None None "".

(** Lines 170-175 of [do_GET], after [do_HEAD]: the write of the page that
    the global names when the write runs. *)
Definition write_page (globals : Http.Server) (path : string)
           (head : Http.Response) : Http.Response :=
  if String.eqb path "/"
  then Http.mkResponse (Http.code head) (Http.content_type head)
                       (Http.content_length head)
                       (Http.written head +:+ Http.html_page globals)
  else if String.eqb path "/metrics"
  then Http.mkResponse (Http.code head) (Http.content_type head)
                       (Http.content_length head)
                       (Http.written head +:+ Http.metrics_page globals)
  else head.

(** One step of a request thread: [do_HEAD], then the write. *)
Definition handler_step (globals : Http.Server) (h : Handler) : Handler :=
  match h with
  | Received path => HeadSent path (do_HEAD globals path)
  | HeadSent path head => Responded (write_page globals path head)
  | Responded response => Responded response
  end.

Section Threads.

(** [os.environ] *)
Variable environ : gmap string string.

(** What the calls [generate_html(client)] and [generate_metrics(client)]
    return for the module globals at the time of the call.  Only the
    background thread assigns the globals, so a call and the assignment
    of its result are taken as one step.  In [http.py] the two functions
    are [Http.generate_html] and [Http.generate_metrics]. *)
Variable generate_html : Http.Server -> string.
Variable generate_metrics : Http.Server -> string.

(** One statement of [regenerate_output].  A wait whose result is not
    given has not returned yet. *)
Definition background_step (globals : Http.Server) (b : Background)
  : Http.Server * Background :=
  match pc b with
  | MakeClient =>
      match environ !! "GITHUB_TOKEN" with
      | None =>
          (Http.mkServer (Http.html_page globals) (Http.metrics_page globals)
                         true,
           mkBackground Returned (waits b))
      | Some _ => (globals, mkBackground AssignMetrics (waits b))
      end
  | AssignMetrics =>
      (Http.mkServer (Http.html_page globals) (generate_metrics globals)
                     (Http.exit_event globals),
       mkBackground AssignHtml (waits b))
  | AssignHtml =>
      (Http.mkServer (generate_html globals) (Http.metrics_page globals)
                     (Http.exit_event globals),
       mkBackground Wait (waits b))
  | Wait =>
      match waits b with
      | [] => (globals, b)
      | true :: waits' =>
          (Http.mkServer (Http.html_page globals) (Http.metrics_page globals)
                         true,
           mkBackground Returned waits')
      | false :: waits' => (globals, mkBackground AssignMetrics waits')
      end
  | Returned => (globals, b)
  end.

(** One step of the thread that is scheduled. *)
Definition step (c : Config) (t : Thread) : Config :=
  match t with
  | BackgroundUpdate =>
      let '(globals', b) := background_step (globals c) (background c) in
      mkConfig globals' b (handlers c)
  | Request i =>
      mkConfig (globals c) (background c)
               (alter (handler_step (globals c)) i (handlers c))
  end.

(** The threads run in the order of a schedule. *)
Definition run (schedule : list Thread) (c : Config) : Config :=
  fold_left step schedule c.

(** The module globals after [n] statements of the background thread. *)
Definition statement (gb : Http.Server * Background)
  : Http.Server * Background :=
  background_step (fst gb) (snd gb).

Definition published (n : nat) (c : Config) : Http.Server :=
  fst (Nat.iter n statement (globals c, background c)).

End Threads.

End Service.






(** ** Example inputs *)

(** Three pull requests: one marked [[WIP]] in front, one with the marker
    inside the title, one draft. *)
Definition wip_pull : Pull :=
  mkPull 1 "[WIP] fix bug" false [mkCommit "a1" None].

Definition open_pull : Pull :=
  mkPull 2 "fix [WIP] bug" false
         [mkCommit "b2" (Some [mkContext "build" SUCCESS "2024-05-01T10:00:00Z" None])].

Definition draft_pull : Pull := mkPull 3 "tidy up" true [].

Definition example_client : Client := fun _ => [wip_pull; open_pull; draft_pull].

Definition example_names : gmap string string :=
  {[ "build" := "build-ci"; "test" := "test-ci" ]}.

(** The statuses a call returns, empty when it raises. *)
Definition returned (r : list Request * Py.result Statuses) : Statuses :=
  match snd r with
  | inr statuses => statuses
  | inl _ => ∅
  end.

Definition example_statuses : Statuses :=
  returned (get_check_statuses "2024-05-02T00:00:00Z" example_client
                               "acme/widgets" "main" ["build"; "test"]
                               example_names).

(** The same call with the check [build] requested twice. *)
Definition doubled_statuses : Statuses :=
  returned (get_check_statuses "2024-05-02T00:00:00Z" example_client
                               "acme/widgets" "main" ["build"; "build"]
                               example_names).

(** The tree of the end-to-end scenario, and the same tree with a second
    check file that defines no [CHECK_NAME]. *)
Definition scenario_tree : Overview.Tree :=
  [ (["DEFAULTS.env"], {[ "PR_REPO" := "acme/widgets" ]});
    (["build"; "gcc"; "unit.env"],
     {[ "CHECK_NAME" := "unit-gcc"; "CI_NAME" := "unit-gcc-ci";
        "PR_BRANCH" := "main" ]}) ].

Definition broken_tree : Overview.Tree :=
  scenario_tree
  ++ [ (["build"; "gcc"; "lint.env"],
        {[ "CI_NAME" := "lint-gcc-ci"; "PR_BRANCH" := "main" ]}) ].

(** The same two trees as lists of files with their variables, the form
    in which lines 104-123 of [checks.py] take them. *)
Definition scenario_listing : Checks.EnvFiles := scenario_tree.

Definition broken_listing : Checks.EnvFiles := broken_tree.

(** Two classified statuses, the older one first. *)
Definition older_status : CheckStatus :=
  mkCheckStatus SUCCESS "2024-05-01T10:00:00Z" (Some "build") None
                (Some "acme/widgets") (Some 7) (Some "a1") (Some "build-ci").

Definition newer_status : CheckStatus :=
  mkCheckStatus FAILURE "2024-05-01T12:00:00Z" (Some "build") None
                (Some "acme/widgets") (Some 12) (Some "b2") (Some "build-ci").

(** The cutoff of the examples, whatever the number of days. *)
Definition example_cutoff : Z -> string := fun _ => "2024-05-01T11:00:00Z".

(** A cutoff and the same instant one second later. *)
Definition cutoff_time : DateTime := mkDateTime 2024 5 1 11 0 0.
Definition second_later : DateTime := mkDateTime 2024 5 1 11 0 1.

(** A client whose pull requests are all passed over. *)
Definition quiet_client : Client := fun _ => [wip_pull; draft_pull].

(** Splitting at single spaces, for texts without quotations. *)
Definition space_split (contents : string) : Py.result (list string) :=
  Py.Ok (split " " contents).

(** A directory with one file, and the same with a subdirectory. *)
Definition flat_directory : list ChecksTree.Entry :=
  [ ChecksTree.mkEntry "ci/repo-config/DEFAULTS.env"
                       (ChecksTree.Blob "PR_REPO=acme/widgets" false) ].

Definition nested_directory : list ChecksTree.Entry :=
  flat_directory
  ++ [ ChecksTree.mkEntry "ci/repo-config/build"
         (ChecksTree.Tree
            [ ChecksTree.mkEntry "ci/repo-config/build/DEFAULTS.env"
                                 (ChecksTree.Blob "PR_BRANCH=main" false) ]) ].

(** A client that answers every query with the flat directory. *)
Definition flat_client : ChecksTree.GqlClient :=
  fun _ => inr flat_directory.

(** The module globals of [http.py] when it is loaded. *)
Definition initial_server : Http.Server :=
  Http.mkServer "<!doctype html><body><h2>Generating, please wait...</h2></body>"
                ("# Generating, please wait..." +:+ String "010"%char "")
                false.





(** * Properties *)

(** ** The error monad and the string primitives *)

Lemma for_each_app {A S : Type} (body : S -> A -> Py.result S) xs ys s :
  Py.for_each body (xs ++ ys) s
  = Py.bind (Py.for_each body xs s) (Py.for_each body ys).
Proof.
  revert s. induction xs as [|x xs IH]; intros s; simpl; [reflexivity|].
  destruct (body s x) as [e|s']; simpl; [reflexivity|apply IH].
Qed.

Lemma for_each_raise {A S : Type} (body : S -> A -> Py.result S) xs s e :
  Py.for_each body xs s = inl e ->
  exists s' x, In x xs /\ body s' x = inl e.
Proof.
  revert s. induction xs as [|x xs IH]; intros s; simpl; [discriminate|].
  destruct (body s x) as [e'|s'] eqn:Hx; simpl.
  - intros [= ->]. exists s, x. split; [now left|assumption].
  - intros H. destruct (IH _ H) as (s'' & y & Hin & Hy).
    exists s'', y. split; [now right|assumption].
Qed.

Lemma partition_absent sep s :
  ~ In sep (chars s) -> Py.partition sep s = (s, "", "").
Proof.
  induction s as [|c s IH]; simpl; [reflexivity|]. intros Hno.
  destruct (Ascii.eqb_spec c sep) as [->|Hne].
  - exfalso. apply Hno. now left.
  - rewrite IH; [reflexivity|]. intros Hin. apply Hno. now right.
Qed.

Lemma partition_present sep s :
  In sep (chars s) ->
  exists before after,
    Py.partition sep s = (before, String sep "", after)
    /\ s = before +:+ String sep after
    /\ ~ In sep (chars before).
Proof.
  induction s as [|c s IH]; simpl; [intros []|]. intros Hin.
  destruct (Ascii.eqb_spec c sep) as [->|Hne].
  - exists "", s. repeat split. intros [].
  - destruct Hin as [Heq|Hin]; [congruence|].
    destruct (IH Hin) as (before & after & Hp & Hs & Hno).
    exists (String c before), after. rewrite Hp. repeat split.
    + simpl. now rewrite Hs.
    + simpl. intros [Heq|Hin']; [congruence|contradiction].
Qed.

Lemma prefix_spec p s :
  String.prefix p s = true <-> exists rest, s = p +:+ rest.
Proof.
  revert s. induction p as [|c p IH]; intros s.
  - split; [intros _; now exists s|now destruct s].
  - destruct s as [|d s]; simpl.
    + split; [discriminate|]. intros [rest Hrest]. discriminate.
    + destruct (ascii_dec c d) as [->|Hne].
      * rewrite IH. split; intros [rest Hrest]; exists rest.
        -- simpl. now rewrite Hrest.
        -- simpl in Hrest. now injection Hrest.
      * split; [discriminate|]. intros [rest Hrest].
        simpl in Hrest. injection Hrest as Hcd _. congruence.
Qed.

(** ** The classifier *)

Lemma records_append statuses check x k :
  records (append_status statuses check x) k
  = if decide (check = k) then records statuses check ++ [x]
    else records statuses k.
Proof.
  unfold records, append_status. rewrite lookup_insert.
  destruct (decide (check = k)); reflexivity.
Qed.

Lemma total_records_append statuses check x :
  total_records (append_status statuses check x) = S (total_records statuses).
Proof.
  unfold total_records, append_status.
  destruct (statuses !! check) as [l|] eqn:Hl; simpl.
  - rewrite (map_fold_delete_L _ _ check l statuses); [|intros; lia|assumption].
    rewrite <- (insert_delete_eq statuses check).
    rewrite map_fold_insert_L; [|intros; lia|apply lookup_delete_eq].
    rewrite length_app. simpl. lia.
  - rewrite map_fold_insert_L; [reflexivity|intros; lia|assumption].
Qed.

Lemma contexts_dict_snoc cs c :
  contexts_dict (cs ++ [c]) = <[ctx_context c := c]> (contexts_dict cs).
Proof. unfold contexts_dict. now rewrite fold_left_app. Qed.

Lemma contexts_dict_lookup cs k :
  contexts_dict cs !! k = last (matching k cs).
Proof.
  induction cs as [|c cs IH] using rev_ind; [reflexivity|].
  rewrite contexts_dict_snoc. unfold matching. rewrite List.filter_app. simpl.
  destruct (String.eqb_spec (ctx_context c) k) as [->|Hne].
  - rewrite lookup_insert_eq. now rewrite last_snoc.
  - rewrite lookup_insert_ne by assumption. now rewrite app_nil_r.
Qed.

Section ClassifierFacts.

Variables (now repo_ : string) (names_table : gmap string string).

(** The inner loop appends, for the check [k], one record per occurrence
    of [k] in the list of checks. *)
Lemma classify_checks_inv pull commit contexts checks st st' :
  Py.for_each (classify_check now repo_ names_table pull commit contexts)
              checks st = Py.Ok st' ->
  (forall k, records st' k
             = records st k
               ++ repeat (with_pr (default (fallback now k) (contexts !! k))
                                  repo_ (number pull) (oid commit)
                                  (default "" (names_table !! k)))
                         (count_occ string_dec checks k))
  /\ total_records st' = (total_records st + List.length checks)%nat.
Proof.
  revert st. induction checks as [|c checks IH]; intros st; simpl.
  - intros [= <-]. split; [intros k; now rewrite app_nil_r|lia].
  - unfold classify_check at 1. unfold Py.getitem.
    destruct (names_table !! c) as [ci|] eqn:Hci; simpl; [|discriminate].
    intros H. destruct (IH _ H) as [Hrec Htot]. split.
    + intros k. rewrite Hrec, records_append.
      destruct (string_dec c k) as [->|Hne].
      * rewrite decide_True by reflexivity. rewrite Hci. simpl.
        now rewrite <- app_assoc.
      * now rewrite decide_False by assumption.
    + rewrite Htot, total_records_append. lia.
Qed.

Lemma classify_checks_total pull commit contexts checks st :
  (forall c, In c checks -> is_Some (names_table !! c)) ->
  exists st',
    Py.for_each (classify_check now repo_ names_table pull commit contexts)
                checks st = Py.Ok st'.
Proof.
  revert st. induction checks as [|c checks IH]; intros st Hnames; simpl.
  - now exists st.
  - unfold classify_check at 1. unfold Py.getitem.
    destruct (Hnames c (or_introl eq_refl)) as [ci ->]. simpl.
    apply IH. intros c' Hc'. apply Hnames. now right.
Qed.

(** One pull request contributes nothing when it is skipped and otherwise
    its [status_record] for every occurrence of a check. *)
Lemma classify_pull_inv checks st pull st' :
  classify_pull now repo_ checks names_table st pull = Py.Ok st' ->
  (forall k, records st' k
             = records st k
               ++ (if skipped pull then []
                   else repeat (status_record now repo_ names_table pull k)
                               (count_occ string_dec checks k)))
  /\ total_records st'
     = (total_records st
        + (if skipped pull then 0 else List.length checks))%nat.
Proof.
  unfold classify_pull. destruct (skipped pull).
  - intros [= <-]. split; [intros k; now rewrite app_nil_r|lia].
  - destruct (commits pull) as [|commit rest] eqn:Hc; simpl; [discriminate|].
    intros H. apply classify_checks_inv in H. destruct H as [Hrec Htot].
    split; [|assumption]. intros k. rewrite Hrec. f_equal. f_equal.
    unfold status_record, reported, head_commit. rewrite Hc. simpl.
    destruct (status commit) as [cs|]; simpl.
    + now rewrite contexts_dict_lookup.
    + reflexivity.
Qed.

Lemma classify_pulls_inv checks pulls st st' :
  Py.for_each (classify_pull now repo_ checks names_table) pulls st = Py.Ok st' ->
  (forall k, records st' k
             = records st k
               ++ flat_map (fun pull =>
                              repeat (status_record now repo_ names_table pull k)
                                     (count_occ string_dec checks k))
                           (eligible pulls))
  /\ total_records st'
     = (total_records st
        + List.length (eligible pulls) * List.length checks)%nat.
Proof.
  revert st. induction pulls as [|pull pulls IH]; intros st; simpl.
  - intros [= <-]. split; [intros k; now rewrite app_nil_r|lia].
  - destruct (classify_pull now repo_ checks names_table st pull)
      as [e|st1] eqn:H1; simpl; [discriminate|].
    intros H. destruct (IH _ H) as [Hrec Htot].
    destruct (classify_pull_inv _ _ _ _ H1) as [Hrec1 Htot1].
    split.
    + intros k. rewrite Hrec, Hrec1. rewrite <- app_assoc. f_equal.
      destruct (skipped pull); reflexivity.
    + rewrite Htot, Htot1. destruct (skipped pull); simpl; lia.
Qed.

Lemma classify_pulls_total checks pulls st :
  (forall c, In c checks -> is_Some (names_table !! c)) ->
  (forall pull, In pull (eligible pulls) -> commits pull <> []) ->
  exists st',
    Py.for_each (classify_pull now repo_ checks names_table) pulls st = Py.Ok st'.
Proof.
  intros Hnames. revert st.
  induction pulls as [|pull pulls IH]; intros st Hcommits; simpl.
  - now exists st.
  - assert (Hrest : forall p, In p (eligible pulls) -> commits p <> []).
    { intros p Hp. apply Hcommits. simpl.
      destruct (negb (skipped pull)); [now right|assumption]. }
    unfold classify_pull at 1. destruct (skipped pull) eqn:Hskip; simpl.
    + now apply IH.
    + destruct (commits pull) as [|commit rest] eqn:Hc.
      * exfalso. apply (Hcommits pull); [|assumption].
        simpl. rewrite Hskip. now left.
      * simpl.
        destruct (classify_checks_total pull commit
                    (match status commit with
                     | Some cs => contexts_dict cs
                     | None => ∅
                     end) checks st Hnames) as [st1 ->].
        simpl. now apply IH.
Qed.

(** The loop over the pull requests raises no [ValueError]. *)
Lemma classify_pulls_no_ValueError checks pulls st msg :
  Py.for_each (classify_pull now repo_ checks names_table) pulls st
  <> Py.Raise (Py.ValueError msg).
Proof.
  intros H. apply for_each_raise in H. destruct H as (s1 & pull & _ & H).
  unfold classify_pull in H. destruct (skipped pull); [discriminate|].
  destruct (commits pull) as [|commit rest]; simpl in H; [discriminate|].
  apply for_each_raise in H. destruct H as (s2 & c & _ & H).
  unfold classify_check, Py.getitem in H.
  destruct (names_table !! c); simpl in H; discriminate.
Qed.

End ClassifierFacts.

Lemma NoDup_map_In_eq {A B : Type} (f : A -> B) (l : list A) x y :
  List.NoDup (map f l) -> In x l -> In y l -> f x = f y -> x = y.
Proof.
  induction l as [|a l IH]; simpl; [intros _ []|].
  intros Hnd Hx Hy Hf. apply NoDup_cons_iff in Hnd. destruct Hnd as [Hna Hnd].
  destruct Hx as [<-|Hx], Hy as [<-|Hy]; try reflexivity.
  - exfalso. apply Hna. rewrite Hf. now apply in_map.
  - exfalso. apply Hna. rewrite <- Hf. now apply in_map.
  - now apply IH.
Qed.

Lemma filter_same_key_length {A : Type} (f : A -> Z) (l : list A) x :
  List.NoDup (map f l) -> In x l ->
  List.length (List.filter (fun y => bool_decide (Some (f y) = Some (f x))) l) = 1%nat.
Proof.
  induction l as [|a l IH]; simpl; [intros _ []|].
  intros Hnd Hx. apply NoDup_cons_iff in Hnd. destruct Hnd as [Hna Hnd].
  destruct Hx as [->|Hx].
  - rewrite bool_decide_eq_true_2 by reflexivity. simpl. f_equal.
    apply length_zero_iff_nil.
    destruct (List.filter _ l) as [|z zs] eqn:Hz; [reflexivity|].
    exfalso. assert (Hin : In z (List.filter
               (fun y => bool_decide (Some (f y) = Some (f x))) l))
      by (rewrite Hz; now left).
    apply filter_In in Hin. destruct Hin as [Hzl Heq].
    apply bool_decide_eq_true_1 in Heq. injection Heq as Heq.
    apply Hna. rewrite <- Heq. now apply in_map.
  - rewrite bool_decide_eq_false_2.
    + now apply IH.
    + intros [= Heq]. apply Hna. rewrite Heq. now apply in_map.
Qed.

Lemma skipped_spec pull :
  skipped pull = true
  <-> isDraft pull = true \/ exists rest, title pull = "[WIP]" +:+ rest.
Proof.
  unfold skipped, Py.startswith. rewrite orb_true_iff, prefix_spec. reflexivity.
Qed.

Lemma eligible_In pulls pull :
  In pull (eligible pulls) <-> In pull pulls /\ skipped pull = false.
Proof.
  unfold eligible. rewrite filter_In, negb_true_iff. reflexivity.
Qed.

(** What a call does once the separator has been found. *)
Lemma get_check_statuses_valid now client repo_ branch checks names_table :
  In "/"%char (chars repo_) ->
  exists owner repo_name,
    repo_ = owner +:+ "/" +:+ repo_name
    /\ ~ In "/"%char (chars owner)
    /\ fetched client repo_ branch = client (owner, repo_name, branch)
    /\ get_check_statuses now client repo_ branch checks names_table
       = ([(owner, repo_name, branch)],
          Py.for_each (classify_pull now repo_ checks names_table)
                      (fetched client repo_ branch) ∅).
Proof.
  intros Hin. destruct (partition_present _ _ Hin) as (owner & after & Hp & Hs & Hno).
  exists owner, after. unfold get_check_statuses, fetched. rewrite Hp. simpl.
  repeat split; assumption.
Qed.

Lemma get_check_statuses_invalid now client repo_ branch checks names_table :
  ~ In "/"%char (chars repo_) ->
  get_check_statuses now client repo_ branch checks names_table
  = ([], Py.Raise (Py.ValueError "repository name must contain a slash")).
Proof.
  intros Hno. unfold get_check_statuses.
  now rewrite (partition_absent _ _ Hno).
Qed.

(** A successful call has classified the fetched pull requests. *)
Lemma get_check_statuses_Ok now client repo_ branch checks names_table statuses :
  snd (get_check_statuses now client repo_ branch checks names_table)
  = Py.Ok statuses ->
  Py.for_each (classify_pull now repo_ checks names_table)
              (fetched client repo_ branch) ∅ = Py.Ok statuses.
Proof.
  intros H. destruct (in_dec ascii_dec "/"%char (chars repo_)) as [Hin|Hno].
  - destruct (get_check_statuses_valid now client repo_ branch checks
                names_table Hin) as (o & r & _ & _ & _ & Hrun).
    now rewrite Hrun in H.
  - rewrite get_check_statuses_invalid in H by assumption. discriminate.
Qed.

(** C10.  A repository argument without a slash makes [get_check_statuses]
    raise [ValueError] with no request sent and no status produced; with a
    slash the error is not raised, and the one request sent names the text
    before the first slash as the owner and the rest as the repository. *)
Theorem get_check_statuses_slash now client repo_ branch checks names_table :
  (~ In "/"%char (chars repo_) ->
   get_check_statuses now client repo_ branch checks names_table
   = ([], Py.Raise (Py.ValueError "repository name must contain a slash")))
  /\ (In "/"%char (chars repo_) ->
      exists owner repo_name,
        repo_ = owner +:+ "/" +:+ repo_name
        /\ ~ In "/"%char (chars owner)
        /\ fst (get_check_statuses now client repo_ branch checks names_table)
           = [(owner, repo_name, branch)]
        /\ forall msg,
            snd (get_check_statuses now client repo_ branch checks names_table)
            <> Py.Raise (Py.ValueError msg)).
Proof.
  split.
  - apply get_check_statuses_invalid.
  - intros Hin.
    destruct (get_check_statuses_valid now client repo_ branch checks
                names_table Hin) as (o & r & Hs & Hno & _ & Hrun).
    exists o, r. rewrite Hrun. simpl. repeat split; try assumption.
    intros msg. apply classify_pulls_no_ValueError.
Qed.

Lemma get_check_statuses_slash_witness :
  get_check_statuses "2024-05-02T00:00:00Z" example_client "widgets" "main"
                     ["build"] example_names
  = ([], Py.Raise (Py.ValueError "repository name must contain a slash"))
  /\ exists owner repo_name,
      "acme/widgets/core" = owner +:+ "/" +:+ repo_name
      /\ ~ In "/"%char (chars owner)
      /\ fst (get_check_statuses "2024-05-02T00:00:00Z" example_client
                "acme/widgets/core" "main" ["build"] example_names)
         = [(owner, repo_name, "main")]
      /\ forall msg,
          snd (get_check_statuses "2024-05-02T00:00:00Z" example_client
                 "acme/widgets/core" "main" ["build"] example_names)
          <> Py.Raise (Py.ValueError msg).
Proof.
  split.
  - apply (proj1 (get_check_statuses_slash "2024-05-02T00:00:00Z"
                    example_client "widgets" "main" ["build"] example_names)).
    simpl. intuition discriminate.
  - apply (proj2 (get_check_statuses_slash "2024-05-02T00:00:00Z"
                    example_client "acme/widgets/core" "main" ["build"]
                    example_names)).
    simpl. do 4 right. left. reflexivity.
Defined.

(** C5.  Among the fetched pull requests (whose numbers are distinct), with
    at least one check requested, a pull request has no record under any
    check exactly when its draft flag is set or its title starts with the
    characters [[WIP]]. *)
Theorem draft_and_wip_excluded now client repo_ branch checks names_table
        statuses pull :
  snd (get_check_statuses now client repo_ branch checks names_table)
  = Py.Ok statuses ->
  In pull (fetched client repo_ branch) ->
  List.NoDup (map number (fetched client repo_ branch)) ->
  checks <> [] ->
  (forall check st, In st (records statuses check) -> pr st <> Some (number pull))
  <-> (isDraft pull = true \/ exists rest, title pull = "[WIP]" +:+ rest).
Proof.
  intros Hok Hin Hnd Hchecks. apply get_check_statuses_Ok in Hok.
  apply classify_pulls_inv in Hok. destruct Hok as [Hrec _].
  rewrite <- skipped_spec. split.
  - intros Hnone. destruct (skipped pull) eqn:Hskip; [reflexivity|]. exfalso.
    destruct checks as [|c checks']; [contradiction|].
    apply (Hnone c (status_record now repo_ names_table pull c)); [|reflexivity].
    rewrite Hrec. simpl. apply in_flat_map. exists pull. split.
    + apply eligible_In. now split.
    + simpl. destruct (string_dec c c); [now left|contradiction].
  - intros Hskip check st Hst Hpr. rewrite Hrec in Hst. simpl in Hst.
    apply in_flat_map in Hst. destruct Hst as (pull' & Hel & Hrep).
    apply repeat_spec in Hrep. subst st. simpl in Hpr. injection Hpr as Hnum.
    apply eligible_In in Hel. destruct Hel as [Hin' Hskip'].
    assert (pull' = pull) by (eapply NoDup_map_In_eq; eassumption).
    congruence.
Qed.

Lemma draft_and_wip_excluded_witness :
  (forall check st, In st (records example_statuses check) -> pr st <> Some 1)
  <-> (isDraft wip_pull = true
       \/ exists rest, title wip_pull = "[WIP]" +:+ rest).
Proof.
  apply (draft_and_wip_excluded "2024-05-02T00:00:00Z" example_client
           "acme/widgets" "main" ["build"; "test"] example_names
           example_statuses wip_pull).
  - reflexivity.
  - left. reflexivity.
  - vm_compute. repeat constructor; simpl; intuition discriminate.
  - discriminate.
Defined.

Lemma status_record_fallback now repo_ names_table pull check :
  matching check (reported pull) = [] ->
  state (status_record now repo_ names_table pull check) = EXPECTED
  /\ createdAt (status_record now repo_ names_table pull check) = now.
Proof. unfold status_record. intros ->. simpl. now split. Qed.

Lemma status_record_reported now repo_ names_table pull check c :
  last (matching check (reported pull)) = Some c ->
  In c (reported pull) /\ ctx_context c = check
  /\ state (status_record now repo_ names_table pull check) = ctx_state c
  /\ createdAt (status_record now repo_ names_table pull check) = ctx_createdAt c.
Proof.
  intros Hlast. unfold status_record. rewrite Hlast. simpl.
  assert (Hin : In c (matching check (reported pull))).
  { apply list_elem_of_In. apply last_Some_elem_of. exact Hlast. }
  apply filter_In in Hin. destruct Hin as [Hin Heq].
  apply String.eqb_eq in Heq. repeat split; assumption.
Qed.

Lemma records_of_number now repo_ names_table check n (pulls : list Pull) :
  List.length
    (List.filter (fun st => bool_decide (pr st = Some n))
       (flat_map (fun pull => [status_record now repo_ names_table pull check])
                 pulls))
  = List.length
      (List.filter (fun pull => bool_decide (Some (number pull) = Some n)) pulls).
Proof.
  induction pulls as [|p ps IH]; [reflexivity|]. simpl.
  destruct (bool_decide (Some (number p) = Some n)); simpl; now rewrite IH.
Qed.

(** The pull request with the marker inside its title is classified. *)
Example marker_inside_title_is_classified :
  skipped wip_pull = true /\ skipped open_pull = false
  /\ map pr (records example_statuses "build") = [Some 2].
Proof. repeat split. Qed.

(** C2, as the code has it.  When the repository argument has a slash, the
    name table knows every requested check and every classified pull
    request has a commit, the call returns; under a check it holds, in the
    order of the pull requests, the [status_record] of every classified
    pull request once per occurrence of the check in the requested list;
    the records number [|pull requests| * |checks|]; with no check
    requested twice and distinct pull request numbers there is exactly one
    record per pair.  The record is the last reported context of exactly
    that name, and without one it has state [EXPECTED] and the generation
    time. *)
Theorem classification_records now client repo_ branch checks names_table :
  In "/"%char (chars repo_) ->
  (forall check, In check checks -> is_Some (names_table !! check)) ->
  (forall pull, In pull (eligible (fetched client repo_ branch)) ->
                commits pull <> []) ->
  exists statuses,
    snd (get_check_statuses now client repo_ branch checks names_table)
    = Py.Ok statuses
    /\ (forall check,
           records statuses check
           = flat_map (fun pull =>
                         repeat (status_record now repo_ names_table pull check)
                                (count_occ string_dec checks check))
                      (eligible (fetched client repo_ branch)))
    /\ total_records statuses
       = (List.length (eligible (fetched client repo_ branch))
          * List.length checks)%nat
    /\ (List.NoDup checks ->
        List.NoDup (map number (eligible (fetched client repo_ branch))) ->
        one_record_each (fetched client repo_ branch) checks statuses)
    /\ (forall pull check,
           (matching check (reported pull) = [] ->
            state (status_record now repo_ names_table pull check) = EXPECTED
            /\ createdAt (status_record now repo_ names_table pull check) = now)
           /\ (forall c,
                  last (matching check (reported pull)) = Some c ->
                  In c (reported pull) /\ ctx_context c = check
                  /\ state (status_record now repo_ names_table pull check)
                     = ctx_state c
                  /\ createdAt (status_record now repo_ names_table pull check)
                     = ctx_createdAt c)).
Proof.
  intros Hslash Hnames Hcommits.
  destruct (get_check_statuses_valid now client repo_ branch checks
              names_table Hslash) as (o & r & _ & _ & _ & Hrun).
  destruct (classify_pulls_total now repo_ names_table checks
              (fetched client repo_ branch) ∅ Hnames Hcommits) as [statuses Hok].
  exists statuses. rewrite Hrun. cbn [snd]. split; [assumption|].
  apply classify_pulls_inv in Hok. destruct Hok as [Hrec Htot].
  assert (Hrec' : forall check,
             records statuses check
             = flat_map (fun pull =>
                           repeat (status_record now repo_ names_table pull check)
                                  (count_occ string_dec checks check))
                        (eligible (fetched client repo_ branch))).
  { intros check. rewrite Hrec. reflexivity. }
  split; [exact Hrec'|]. split.
  { rewrite Htot. unfold total_records. rewrite map_fold_empty. lia. }
  split.
  - intros Hnd Hnum pull check Hpull Hcheck.
    unfold records_of. rewrite Hrec'.
    rewrite (proj1 (NoDup_count_occ' string_dec checks) Hnd check Hcheck).
    simpl. rewrite records_of_number.
    now apply filter_same_key_length.
  - intros pull check. split.
    + apply status_record_fallback.
    + apply status_record_reported.
Qed.

Lemma classification_records_witness :
  exists statuses,
    snd (get_check_statuses "2024-05-02T00:00:00Z" example_client
           "acme/widgets" "main" ["build"; "test"] example_names)
    = Py.Ok statuses
    /\ total_records statuses = 2%nat.
Proof.
  destruct (classification_records "2024-05-02T00:00:00Z" example_client
              "acme/widgets" "main" ["build"; "test"] example_names)
    as (statuses & Hok & _ & Htot & _).
  - vm_compute. do 4 right. left. reflexivity.
  - intros check [<-|[<-|[]]]; eexists; reflexivity.
  - intros pull [<-|[]]. discriminate.
  - exists statuses. split; [exact Hok|exact Htot].
Defined.

(** C2 as stated fails: with the check [build] requested twice, the one
    classified pull request has two records under [build]. *)
Lemma duplicated_check_counterexample :
  snd (get_check_statuses "2024-05-02T00:00:00Z" example_client
         "acme/widgets" "main" ["build"; "build"] example_names)
  = Py.Ok doubled_statuses
  /\ ~ one_record_each (fetched example_client "acme/widgets" "main")
                       ["build"; "build"] doubled_statuses.
Proof.
  split; [reflexivity|]. intros H.
  specialize (H open_pull "build").
  assert (Hlen : List.length (records_of doubled_statuses "build" (number open_pull))
                 = 2%nat) by reflexivity.
  rewrite Hlen in H. discriminate H.
  - left. reflexivity.
  - left. reflexivity.
Qed.

(** ** Configuration resolution *)

Lemma update_lookup (d other : gmap string string) key :
  Py.update d other !! key
  = match other !! key with
    | Some v => Some v
    | None => d !! key
    end.
Proof.
  unfold Py.update. rewrite lookup_union.
  destruct (other !! key), (d !! key); reflexivity.
Qed.

Lemma resolve_check_layers tree role docker env :
  Overview.resolve_check tree role docker env
  = Py.update (Py.update (Py.update (Py.update ∅ (level tree [DEFAULTENV]))
                                    (level tree [role; DEFAULTENV]))
                         (level tree [role; docker; DEFAULTENV]))
              (level tree [role; docker; env]).
Proof.
  unfold Overview.resolve_check, Overview.env_paths, level. simpl.
  assert (Hnone : forall d : gmap string string, d = Py.update d ∅).
  { intros d. unfold Py.update. now rewrite (left_id_L ∅ (∪)). }
  destruct (Overview.read_file tree [DEFAULTENV]);
    destruct (Overview.read_file tree [role; DEFAULTENV]);
    destruct (Overview.read_file tree [role; docker; DEFAULTENV]);
    destruct (Overview.read_file tree [role; docker; env]);
    simpl; rewrite <- ?Hnone; reflexivity.
Qed.

(** The scenario of the specification: a root [DEFAULTS.env] with the
    repository and one check file below [build/gcc]. *)
Example scenario_resolves_locally :
  Overview.get_all_checks scenario_tree [] [] [] []
  = Py.Ok ({[ ("acme/widgets", "main") := ["unit-gcc"] ]},
           {[ "unit-gcc" := "unit-gcc-ci" ]}).
Proof. reflexivity. Qed.

Example scenario_resolves_remotely :
  Checks.resolve_env_files scenario_listing
  = Py.Ok [Checks.mkCheck "unit" "unit-gcc" "acme/widgets" "main"].
Proof. reflexivity. Qed.

(** C1.  The variables of a check are the right-biased union of the root
    defaults, the role defaults, the role and container defaults and the
    file of the check, a missing file contributing nothing: every key has
    the value of the most specific level that defines it.  This holds for
    the local resolver ([overview.py]) and for the remote one
    ([checks.py]). *)
Theorem merged_configuration :
  (forall tree role docker env key,
      Overview.resolve_check tree role docker env !! key
      = first_defined [ level tree [role; docker; env];
                        level tree [role; docker; DEFAULTENV];
                        level tree [role; DEFAULTENV];
                        level tree [DEFAULTENV] ] key)
  /\ (forall defaults role container variables key,
         Checks.apply_defaults defaults role container variables !! key
         = first_defined [ variables;
                           level_of defaults [role; container];
                           level_of defaults [role];
                           level_of defaults [] ] key).
Proof.
  split.
  - intros tree role docker env key. rewrite resolve_check_layers.
    rewrite !update_lookup. simpl. rewrite lookup_empty.
    destruct (level tree [role; docker; env] !! key); [reflexivity|].
    destruct (level tree [role; docker; DEFAULTENV] !! key); [reflexivity|].
    destruct (level tree [role; DEFAULTENV] !! key); [reflexivity|].
    destruct (level tree [DEFAULTENV] !! key); reflexivity.
  - intros defaults role container variables key.
    unfold Checks.apply_defaults. rewrite !update_lookup. simpl.
    rewrite lookup_empty.
    change (default ∅ (defaults !! [role; container]))
      with (level_of defaults [role; container]).
    change (default ∅ (defaults !! [role])) with (level_of defaults [role]).
    change (default ∅ (defaults !! [])) with (level_of defaults []).
    destruct (variables !! key); [reflexivity|].
    destruct (level_of defaults [role; container] !! key); [reflexivity|].
    destruct (level_of defaults [role] !! key); [reflexivity|].
    destruct (level_of defaults [] !! key); reflexivity.
Qed.

(** An element whose loop body always raises stops the loop, unless an
    earlier element has stopped it already. *)
Lemma for_each_raises_at {A S : Type} (P : Py.exn -> Prop)
      (body : S -> A -> Py.result S) xs x s :
  In x xs ->
  (forall s', exists e, body s' x = inl e /\ P e) ->
  (forall s' y e, body s' y = inl e -> P e) ->
  exists e, Py.for_each body xs s = inl e /\ P e.
Proof.
  intros Hin Hx Hall. revert s.
  induction xs as [|y xs IH]; intros s; [destruct Hin|]. simpl.
  destruct (body s y) as [e|s'] eqn:Hy; simpl.
  - exists e. split; [reflexivity|]. eapply Hall. exact Hy.
  - destruct Hin as [->|Hin].
    + destruct (Hx s) as (e & He & _). congruence.
    + now apply IH.
Qed.

Lemma contains_spec l x : contains l x = true <-> In x l.
Proof.
  unfold contains. rewrite existsb_exists. split.
  - intros (y & Hy & Heq). apply String.eqb_eq in Heq. now subst.
  - intros Hin. exists x. split; [assumption|apply String.eqb_refl].
Qed.

Lemma filter_passes l x :
  l = [] \/ In x l -> nonempty l && negb (contains l x) = false.
Proof.
  intros [->|Hin]; [reflexivity|].
  apply contains_spec in Hin. rewrite Hin. apply andb_false_r.
Qed.

Lemma getitem_raises {V : Type} (d : gmap string V) key e :
  Py.getitem d key = inl e -> e = Py.KeyError key /\ d !! key = None.
Proof.
  unfold Py.getitem. destruct (d !! key); [discriminate|].
  intros [= <-]. now split.
Qed.

(** The local resolver raises nothing but the [KeyError] of a key it
    reads. *)
Lemma overview_entry_raises tree roles containers repos checks acc entry e :
  Overview.resolve_entry tree roles containers repos checks acc entry = inl e ->
  exists key, In key keys_read /\ e = Py.KeyError key.
Proof.
  destruct entry as [[role docker] env], acc as [all_checks name_table].
  unfold Overview.resolve_entry.
  destruct (String.eqb env DEFAULTENV); [discriminate|].
  destruct (nonempty roles && negb (contains roles role)); [discriminate|].
  destruct (nonempty containers && negb (contains containers docker));
    [discriminate|].
  set (check := Overview.resolve_check tree role docker env).
  destruct (Py.getitem check "PR_REPO") as [e1|repo_] eqn:H1; simpl.
  { intros [= <-]. apply getitem_raises in H1. destruct H1 as [-> _].
    exists "PR_REPO". split; [simpl; tauto|reflexivity]. }
  destruct (Py.getitem check "PR_BRANCH") as [e2|branch] eqn:H2; simpl.
  { intros [= <-]. apply getitem_raises in H2. destruct H2 as [-> _].
    exists "PR_BRANCH". split; [simpl; tauto|reflexivity]. }
  destruct (Py.getitem check "CHECK_NAME") as [e3|name_] eqn:H3; simpl.
  { intros [= <-]. apply getitem_raises in H3. destruct H3 as [-> _].
    exists "CHECK_NAME". split; [simpl; tauto|reflexivity]. }
  destruct (nonempty repos && negb (contains repos repo_)); [discriminate|].
  destruct (nonempty checks && negb (contains checks name_)); [discriminate|].
  destruct (Py.getitem check "CI_NAME") as [e4|ci] eqn:H4; simpl; [|discriminate].
  intros [= <-]. apply getitem_raises in H4. destruct H4 as [-> _].
  exists "CI_NAME". split; [simpl; tauto|reflexivity].
Qed.

(** A selected check file without one of the required keys makes the loop
    body raise, whatever has been collected so far. *)
Lemma overview_entry_incomplete tree roles containers repos checks acc
      role docker env key :
  selected tree roles containers (role, docker, env) ->
  In key required_keys ->
  Overview.resolve_check tree role docker env !! key = None ->
  exists e,
    Overview.resolve_entry tree roles containers repos checks acc
                           (role, docker, env) = inl e
    /\ exists key', In key' keys_read /\ e = Py.KeyError key'.
Proof.
  intros (_ & Henv & Hroles & Hcontainers) Hkey Hnone.
  cbn [fst snd] in Henv, Hroles, Hcontainers.
  destruct (Overview.resolve_entry tree roles containers repos checks acc
              (role, docker, env)) as [e|acc'] eqn:Hrun.
  { exists e. split; [reflexivity|]. eapply overview_entry_raises. exact Hrun. }
  exfalso. destruct acc as [all_checks name_table].
  unfold Overview.resolve_entry in Hrun.
  apply String.eqb_neq in Henv. rewrite Henv in Hrun.
  rewrite (filter_passes _ _ Hroles), (filter_passes _ _ Hcontainers) in Hrun.
  unfold Py.getitem in Hrun.
  destruct Hkey as [<-|[<-|[<-|[]]]]; rewrite Hnone in Hrun;
    repeat (simpl in Hrun;
            match type of Hrun with
            | context [match ?d !! ?k with _ => _ end] =>
                destruct (d !! k); try discriminate
            end);
    simpl in Hrun; discriminate Hrun.
Qed.

Lemma checks_entry_incomplete defaults checks role container filename
      variables key :
  filename <> "DEFAULTS.env" ->
  In key required_keys ->
  Checks.apply_defaults defaults role container variables !! key = None ->
  exists e,
    Checks.resolve_entry defaults checks ([role; container; filename], variables)
    = inl e.
Proof.
  intros Hname Hkey Hnone. unfold Checks.resolve_entry. simpl.
  apply String.eqb_neq in Hname. rewrite Hname. unfold Py.getitem.
  destruct Hkey as [<-|[<-|[<-|[]]]]; rewrite Hnone;
    repeat (simpl;
            match goal with
            | |- context [match ?d !! ?k with _ => _ end] => destruct (d !! k)
            end);
    simpl; eexists; reflexivity.
Qed.

(** The remote resolver returns for no input: without a slash in the
    repository it raises before the query, and with one the call of line
    100 raises unless the query has raised before it. *)
Lemma remote_resolver_raises client defs_repo defs_branch defs_dir :
  exists e,
    snd (ChecksTree.get_all_checks client defs_repo defs_branch defs_dir)
    = inl e.
Proof.
  unfold ChecksTree.get_all_checks.
  destruct (Py.partition "/" defs_repo) as [[owner have_sep] repo_].
  destruct (negb (Py.truthy have_sep)); cbn [snd]; [eexists; reflexivity|].
  destruct (client _) as [e|directory]; eexists; reflexivity.
Qed.

(** C4, as the code has it.  A check file that lacks [CHECK_NAME],
    [PR_REPO] or [PR_BRANCH] after merging ends the whole resolution: the
    local resolver raises the [KeyError] of a key it reads and returns no
    catalog, and lines 104-123 of the remote resolver raise as well for
    every list of files with such a check file.  The remote resolver as a
    whole returns no catalog for any input, as line 100 of [checks.py]
    calls the directory walk without its second argument. *)
Theorem incomplete_check_aborts :
  (forall tree roles containers repos checks role docker env key,
      selected tree roles containers (role, docker, env) ->
      In key required_keys ->
      Overview.resolve_check tree role docker env !! key = None ->
      exists key',
        In key' keys_read
        /\ Overview.get_all_checks tree roles containers repos checks
           = Py.Raise (Py.KeyError key'))
  /\ (forall env_files role container filename variables key,
         In ([role; container; filename], variables) env_files ->
         filename <> "DEFAULTS.env" ->
         In key required_keys ->
         (forall defaults,
             Checks.collect_defaults env_files = Py.Ok defaults ->
             Checks.apply_defaults defaults role container variables !! key
             = None) ->
         exists e, Checks.resolve_env_files env_files = Py.Raise e)
  /\ (forall client defs_repo defs_branch defs_dir,
         exists e,
           snd (ChecksTree.get_all_checks client defs_repo defs_branch defs_dir)
           = inl e).
Proof.
  split; [|split].
  - intros tree roles containers repos checks role docker env key Hsel Hkey Hnone.
    unfold Overview.get_all_checks.
    destruct (for_each_raises_at
                (fun e => exists key', In key' keys_read /\ e = Py.KeyError key')
                (Overview.resolve_entry tree roles containers repos checks)
                (Overview.glob_env tree) (role, docker, env) (∅, ∅))
      as (e & Hrun & key' & Hin & ->).
    + apply Hsel.
    + intros acc. eapply overview_entry_incomplete; eassumption.
    + intros acc entry e. apply overview_entry_raises.
    + exists key'. now split.
  - intros env_files role container filename variables key
           Hin Hname Hkey Hnone.
    unfold Checks.resolve_env_files.
    destruct (Checks.collect_defaults env_files) as [e|defaults] eqn:Hd;
      simpl; [eexists; reflexivity|].
    destruct (for_each_raises_at (fun _ => True)
                (Checks.resolve_entry defaults) env_files
                ([role; container; filename], variables) [])
      as (e & Hrun & _).
    + assumption.
    + intros acc.
      destruct (checks_entry_incomplete defaults acc role container filename
                  variables key Hname Hkey (Hnone defaults eq_refl)) as [e He].
      exists e. now split.
    + trivial.
    + exists e. exact Hrun.
  - apply remote_resolver_raises.
Qed.

Lemma incomplete_check_aborts_witness :
  exists key',
    In key' keys_read
    /\ Overview.get_all_checks broken_tree [] [] [] [] = Py.Raise (Py.KeyError key').
Proof.
  apply (proj1 incomplete_check_aborts broken_tree [] [] [] []
               "build" "gcc" "lint.env" "CHECK_NAME").
  - unfold selected. simpl. repeat split.
    + right. left. reflexivity.
    + discriminate.
    + now left.
    + now left.
  - left. reflexivity.
  - reflexivity.
Defined.

Example broken_listing_raises :
  Checks.resolve_env_files broken_listing
  = Py.Raise (Py.KeyError "CHECK_NAME").
Proof. reflexivity. Qed.

(** C4 as stated fails: the tree of the scenario with one more check file
    that has no [CHECK_NAME] resolves to no catalog at all, so the complete
    check [unit-gcc] is lost with it. *)
Lemma broken_tree_counterexample :
  Overview.get_all_checks broken_tree [] [] [] []
  = Py.Raise (Py.KeyError "CHECK_NAME")
  /\ ~ resolves_complete_checks broken_tree
         (Overview.get_all_checks broken_tree [] [] [] []).
Proof.
  assert (Hrun : Overview.get_all_checks broken_tree [] [] [] []
                 = Py.Raise (Py.KeyError "CHECK_NAME")) by reflexivity.
  split; [exact Hrun|]. rewrite Hrun.
  intros (all_checks & name_table & Hok & _). discriminate Hok.
Qed.

(** ** Table layout *)

Lemma items_per_row_eq terminal_width prnum_len :
  items_per_row terminal_width prnum_len
  = (terminal_width - 2) / (prnum_len + 3).
Proof.
  unfold items_per_row, len, INDENT, SEPARATOR. simpl.
  f_equal; lia.
Qed.

Lemma groupby_concat {A K : Type} `{EqDecision K} (key : A -> K) l :
  List.concat (map snd (groupby key l)) = l.
Proof.
  induction l as [|x l IH]; [reflexivity|]. simpl.
  destruct (groupby key l) as [|[k run] groups]; simpl in *.
  - now rewrite <- IH.
  - destruct (decide (key x = k)); simpl; now rewrite IH.
Qed.

Lemma groupby_runs {A K : Type} `{EqDecision K} (key : A -> K) l :
  Forall (fun group => snd group <> []
                       /\ Forall (fun x => key x = fst group) (snd group))
         (groupby key l).
Proof.
  induction l as [|x l IH]; [constructor|]. simpl.
  destruct (groupby key l) as [|[k run] groups]; simpl in *.
  - constructor; [|constructor]. split; [discriminate|]. now constructor.
  - inversion IH as [|g gs [Hne Hrun] Hrest]; subst. simpl in *.
    destruct (decide (key x = k)) as [Hk|Hk].
    + constructor; [|assumption]. simpl. split; [discriminate|].
      now constructor.
    + constructor; [|now constructor]. simpl. split; [discriminate|].
      now constructor.
Qed.

(** A segment of an enumerated list is an enumerated list. *)
Lemma enumerate_from_app {A : Type} (i : Z) (l1 l2 : list A) :
  enumerate_from i (l1 ++ l2)
  = enumerate_from i l1 ++ enumerate_from (i + Z.of_nat (List.length l1)) l2.
Proof.
  revert i. induction l1 as [|x l1 IH]; intros i; simpl.
  - f_equal. lia.
  - rewrite IH. do 3 f_equal. lia.
Qed.

Lemma enumerate_from_map_snd {A : Type} (i : Z) (l : list A) :
  map snd (enumerate_from i l) = l.
Proof.
  revert i. induction l as [|x l IH]; intros i; simpl; [reflexivity|].
  now rewrite IH.
Qed.

Lemma enumerate_from_length {A : Type} (i : Z) (l : list A) :
  List.length (enumerate_from i l) = List.length l.
Proof.
  revert i. induction l as [|x l IH]; intros i; simpl; [reflexivity|].
  now rewrite IH.
Qed.

Lemma enumerate_segment {A : Type} (i : Z) (l : list A) a b c :
  enumerate_from i l = a ++ b ++ c ->
  b = enumerate_from (i + Z.of_nat (List.length a)) (map snd b).
Proof.
  intros H.
  assert (Hl : l = map snd a ++ map snd b ++ map snd c).
  { rewrite <- (enumerate_from_map_snd i l), H. now rewrite !map_app. }
  rewrite Hl in H. rewrite !enumerate_from_app in H.
  apply app_inj_1 in H.
  2:{ now rewrite enumerate_from_length, length_map. }
  destruct H as [_ H]. apply app_inj_1 in H.
  2:{ now rewrite enumerate_from_length, length_map. }
  destruct H as [H _]. rewrite length_map in H. now symmetry.
Qed.

(** Numbered neighbours that share the quotient by a positive [n] are at
    most [n]. *)
Lemma same_quotient_length {A : Type} (n j k : Z) (l : list A) :
  0 < n ->
  Forall (fun tpl => fst tpl / n = k) (enumerate_from j l) ->
  Z.of_nat (List.length l) <= n.
Proof.
  intros Hn Hall. destruct l as [|x l]; [simpl; lia|].
  assert (Hfirst : j / n = k).
  { exact (Forall_inv Hall). }
  assert (Hlast : (j + Z.of_nat (List.length l)) / n = k).
  { destruct (exists_last (l := x :: l) ltac:(discriminate)) as (l0 & y & Hy).
    rewrite Hy in Hall. rewrite enumerate_from_app in Hall.
    apply Forall_app in Hall. destruct Hall as [_ Hall].
    pose proof (Forall_inv Hall) as Hq. simpl in Hq.
    assert (Hlen : List.length (x :: l) = List.length (l0 ++ [y]))
      by now rewrite Hy.
    rewrite length_app in Hlen. simpl in Hlen.
    replace (Z.of_nat (List.length l)) with (Z.of_nat (List.length l0)) by lia.
    exact Hq. }
  pose proof (Z.div_mod j n ltac:(lia)) as Hj.
  pose proof (Z.mod_pos_bound j n Hn) as Hjb.
  pose proof (Z.div_mod (j + Z.of_nat (List.length l)) n ltac:(lia)) as Hl.
  pose proof (Z.mod_pos_bound (j + Z.of_nat (List.length l)) n Hn) as Hlb.
  rewrite Hfirst in Hj. rewrite Hlast in Hl.
  simpl List.length. lia.
Qed.

(** With a positive number of items per row the rows are the list cut into
    pieces of at least one and at most that many items. *)
Lemma table_rows_positive {A : Type} (per_row : Z) (l : list A) :
  0 < per_row ->
  exists rows,
    table_rows per_row l = Py.Ok rows
    /\ List.concat rows = l
    /\ Forall (fun row => 1 <= Z.of_nat (List.length row) <= per_row) rows.
Proof.
  intros Hpos. unfold table_rows. destruct l as [|x l].
  { exists []. repeat split. constructor. }
  destruct (Z.eqb_spec per_row 0) as [->|_]; [lia|].
  set (key := fun tpl : Z * A => fst tpl / per_row).
  set (numbered := enumerate (x :: l)).
  eexists. split; [reflexivity|]. split.
  - rewrite <- (enumerate_from_map_snd 0 (x :: l)).
    fold (enumerate (x :: l)). fold numbered.
    rewrite <- (groupby_concat key numbered) at 2.
    generalize (groupby key numbered). intros groups.
    induction groups as [|g gs IH]; [reflexivity|]. simpl.
    now rewrite map_app, IH.
  - apply List.Forall_forall. intros row Hrow. apply in_map_iff in Hrow.
    destruct Hrow as ([k run] & <- & Hin). simpl.
    pose proof (groupby_runs key numbered) as Hruns.
    rewrite List.Forall_forall in Hruns. destruct (Hruns _ Hin) as [Hne Hkeys].
    simpl in Hne, Hkeys. rewrite length_map. split.
    + destruct run; [contradiction|simpl; lia].
    + apply in_split in Hin. destruct Hin as (before & after & Hsplit).
      pose proof (groupby_concat key numbered) as Hcat.
      rewrite Hsplit, map_app, concat_app in Hcat. simpl in Hcat.
      unfold numbered, enumerate in Hcat. symmetry in Hcat.
      apply enumerate_segment in Hcat. rewrite Hcat in Hkeys.
      apply same_quotient_length in Hkeys; [|assumption].
      now rewrite length_map in Hkeys.
Qed.

(** C3, as the code has it.  For a label of non-negative width, the number
    of items per row is at least one exactly when the display is at least
    five columns wider than the label; then the layout raises nothing and
    cuts the list into rows of at least one and at most that many items. *)
Theorem items_per_row_bound display_width label_width :
  0 <= label_width ->
  (1 <= items_per_row display_width label_width
   <-> label_width + 5 <= display_width)
  /\ (label_width + 5 <= display_width ->
      forall (A : Type) (l : list A),
      exists rows,
        table_rows (items_per_row display_width label_width) l = Py.Ok rows
        /\ List.concat rows = l
        /\ Forall (fun row =>
                     1 <= Z.of_nat (List.length row)
                       <= items_per_row display_width label_width) rows).
Proof.
  intros Hlabel.
  assert (Hiff : 1 <= items_per_row display_width label_width
                 <-> label_width + 5 <= display_width).
  { rewrite items_per_row_eq. split.
    - intros Hone.
      destruct (Z_lt_le_dec (display_width - 2) (label_width + 3)) as [Hlt|Hle];
        [|lia].
      assert ((display_width - 2) / (label_width + 3) < 1)
        by (apply Z.div_lt_upper_bound; lia).
      lia.
    - intros Hwide. apply Z.div_le_lower_bound; lia. }
  split; [exact Hiff|].
  intros Hwide A l. apply table_rows_positive.
  apply Hiff in Hwide. lia.
Qed.

Lemma items_per_row_bound_witness :
  (1 <= items_per_row 80 2 <-> 2 + 5 <= 80)
  /\ (2 + 5 <= 80 ->
      forall (A : Type) (l : list A),
      exists rows,
        table_rows (items_per_row 80 2) l = Py.Ok rows
        /\ List.concat rows = l
        /\ Forall (fun row =>
                     1 <= Z.of_nat (List.length row) <= items_per_row 80 2) rows).
Proof.
  apply (items_per_row_bound 80 2). lia.
Defined.

(** C3 as stated fails: on a display of width 0 the number of items per row
    is negative, and on one of width 3 it is zero, so that laying out a
    list raises [ZeroDivisionError]. *)
Lemma narrow_display_counterexample :
  items_per_row 0 1 = -1
  /\ items_per_row 3 1 = 0
  /\ table_rows (items_per_row 3 1) [wip_pull] = Py.Raise Py.ZeroDivisionError
  /\ ~ (forall display_width label_width,
           1 <= items_per_row display_width label_width).
Proof.
  repeat split. intros H. specialize (H 0 1). vm_compute in H. now apply H.
Qed.

(** ** Sorting in place *)

Lemma ltb_asym a b : String.ltb a b = true -> String.ltb b a = false.
Proof.
  unfold String.ltb. rewrite (String.compare_antisym a b).
  destruct (String.compare b a); simpl; congruence.
Qed.

Lemma ltb_irrefl a : String.ltb a a = false.
Proof.
  destruct (String.ltb a a) eqn:H; [|reflexivity].
  pose proof (ltb_asym _ _ H). congruence.
Qed.

Lemma insert_desc_perm x l : Permutation (x :: l) (insert_desc x l).
Proof.
  induction l as [|y l IH]; simpl; [reflexivity|].
  destruct (String.ltb (createdAt x) (createdAt y)); [|reflexivity].
  rewrite perm_swap. now apply perm_skip.
Qed.

Lemma sort_desc_perm l : Permutation l (sort_desc l).
Proof.
  induction l as [|x l IH]; simpl; [reflexivity|].
  rewrite <- insert_desc_perm. now apply perm_skip.
Qed.

Lemma insert_desc_sorted x l :
  Sorted newest_first l -> Sorted newest_first (insert_desc x l).
Proof.
  induction l as [|y l IH]; simpl; intros Hs.
  - repeat constructor.
  - destruct (String.ltb (createdAt x) (createdAt y)) eqn:Hxy.
    + apply Sorted_inv in Hs. destruct Hs as [Hs Hhd].
      constructor; [now apply IH|].
      destruct l as [|z l]; simpl.
      * constructor. now apply ltb_asym.
      * destruct (String.ltb (createdAt x) (createdAt z)).
        -- constructor. now apply HdRel_inv in Hhd.
        -- constructor. now apply ltb_asym.
    + constructor; [assumption|]. now constructor.
Qed.

Lemma sort_desc_sorted l : Sorted newest_first (sort_desc l).
Proof.
  induction l as [|x l IH]; simpl; [constructor|].
  now apply insert_desc_sorted.
Qed.

Lemma sort_desc_id l : Sorted newest_first l -> sort_desc l = l.
Proof.
  induction l as [|x l IH]; intros Hs; [reflexivity|]. simpl.
  apply Sorted_inv in Hs. destruct Hs as [Hs Hhd]. rewrite (IH Hs).
  destruct l as [|y l]; [reflexivity|]. simpl.
  apply HdRel_inv in Hhd. unfold newest_first in Hhd. now rewrite Hhd.
Qed.

(** The sort is stable: records of one creation time keep their order. *)
Lemma insert_desc_created_at t x l :
  created_at t (insert_desc x l) = created_at t (x :: l).
Proof.
  induction l as [|y l IH]; [reflexivity|]. simpl.
  destruct (String.ltb (createdAt x) (createdAt y)) eqn:Hxy; [|reflexivity].
  unfold created_at in *. simpl in *. rewrite IH.
  destruct (String.eqb_spec (createdAt x) t) as [Hx|Hx];
    destruct (String.eqb_spec (createdAt y) t) as [Hy|Hy]; try reflexivity.
  rewrite Hx, Hy, ltb_irrefl in Hxy. discriminate.
Qed.

Lemma sort_desc_created_at t l : created_at t (sort_desc l) = created_at t l.
Proof.
  induction l as [|x l IH]; [reflexivity|]. simpl.
  rewrite insert_desc_created_at. unfold created_at in *. simpl.
  now rewrite IH.
Qed.

(** C8, as the code has it.  The table operation sorts the list of the
    caller in place: after the call the list holds the same records, the
    newest first, records of one creation time in their former order; it
    is the list passed in exactly when that was sorted already; and a
    second call on it prints the same lines and leaves it as it is. *)
Theorem output_check_table_sorts recent_cutoff terminal_width pr_statuses
        recent_days :
  let after :=
    fst (Overview.output_check_table recent_cutoff terminal_width pr_statuses
                                     recent_days) in
  Permutation pr_statuses after
  /\ Sorted newest_first after
  /\ (forall t, created_at t after = created_at t pr_statuses)
  /\ (after = pr_statuses <-> Sorted newest_first pr_statuses)
  /\ Overview.output_check_table recent_cutoff terminal_width after recent_days
     = Overview.output_check_table recent_cutoff terminal_width pr_statuses
                                   recent_days.
Proof.
  unfold Overview.output_check_table. cbn [fst].
  split; [apply sort_desc_perm|].
  split; [apply sort_desc_sorted|].
  split; [intros t; apply sort_desc_created_at|].
  split.
  - split.
    + intros <-. apply sort_desc_sorted.
    + apply sort_desc_id.
  - now rewrite (sort_desc_id _ (sort_desc_sorted pr_statuses)).
Qed.

(** C8 as stated fails: a list with the older record first comes back
    reordered. *)
Lemma in_place_sort_counterexample :
  fst (Overview.output_check_table example_cutoff 80
         [older_status; newer_status] 1)
  = [newer_status; older_status]
  /\ ~ (forall pr_statuses,
           fst (Overview.output_check_table example_cutoff 80 pr_statuses 1)
           = pr_statuses).
Proof.
  split; [reflexivity|]. intros H.
  specialize (H [older_status; newer_status]). discriminate H.
Qed.

(** ** The text renderers *)

Lemma append_nil_l (a : string) : "" +:+ a = a.
Proof. reflexivity. Qed.

Lemma append_cons c (a b : string) : String c a +:+ b = String c (a +:+ b).
Proof. reflexivity. Qed.

Lemma append_assoc (a b c : string) : (a +:+ b) +:+ c = a +:+ b +:+ c.
Proof.
  induction a as [|x a IH]; [reflexivity|].
  rewrite !append_cons. now rewrite IH.
Qed.

Lemma append_cancel_l (a b c : string) : a +:+ b = a +:+ c -> b = c.
Proof.
  induction a as [|x a IH]; [trivial|]. rewrite !append_cons.
  intros H. injection H as H. now apply IH.
Qed.

Lemma length_append (a b : string) :
  String.length (a +:+ b) = (String.length a + String.length b)%nat.
Proof.
  induction a as [|c a IH]; [reflexivity|]. rewrite append_cons. simpl.
  now rewrite IH.
Qed.

(** Appends are brought into one shape: nested to the right, with the
    characters of the literals in front. *)
Ltac normalise_append :=
  repeat (rewrite append_assoc || rewrite append_cons || rewrite append_nil_l).

(** A cell in reverse video is never the same cell without it. *)
Lemma cell_reverse_differs url code text :
  cell url code true text <> cell url code false text.
Proof.
  unfold cell. intros H.
  apply append_cancel_l in H. apply append_cancel_l in H.
  apply append_cancel_l in H. apply append_cancel_l in H.
  rewrite !append_cons in H. discriminate H.
Qed.

Lemma terminal_format_status_cell cutoff st text :
  Terminal.format_status cutoff st text
  = cell (Terminal.get_status_url st) (Terminal.colour (state st))
         (Py.str_gt (createdAt st) cutoff) text.
Proof.
  unfold Terminal.format_status, cell, link_open, link_close.
  assert (Hurl : forall u, Terminal.get_status_url st = Some u -> u <> "").
  { unfold Terminal.get_status_url. intros u.
    destruct (targetUrl st) as [[|c t]|], (repo st), (pr st);
      intros [= <-]; discriminate. }
  destruct (Terminal.get_status_url st) as [[|c u]|].
  - now destruct (Hurl "" eq_refl).
  - destruct (Py.str_gt (createdAt st) cutoff);
      unfold ESC; normalise_append; reflexivity.
  - destruct (Py.str_gt (createdAt st) cutoff);
      unfold ESC; normalise_append; reflexivity.
Qed.

Lemma overview_format_status_cell recent_cutoff st text recent_days :
  Overview.format_status recent_cutoff st text recent_days
  = cell (Overview.result_url st) (Overview.colour (state st))
         (Py.str_gt (createdAt st) (recent_cutoff recent_days)) text.
Proof.
  unfold Overview.format_status, cell, link_open, link_close.
  destruct (Overview.result_url st) as [u|];
    destruct (Py.str_gt (createdAt st) (recent_cutoff recent_days));
    unfold ESC; normalise_append; reflexivity.
Qed.

(** C6, as the code has it.  Both text renderers colour a cell by a fixed
    total function of the state.  In [TextOutput] of [terminal.py] it is
    the table of the specification: [EXPECTED] grey, [PENDING] yellow,
    [SUCCESS] green, [FAILURE] bold red, [ERROR] red.  In the script
    [overview.py] it is [EXPECTED] magenta, [PENDING] yellow, [SUCCESS]
    green, [FAILURE] red, [ERROR] bold red. *)
Theorem text_colour_table :
  (forall cutoff st text,
      Terminal.format_status cutoff st text
      = cell (Terminal.get_status_url st) (Terminal.colour (state st))
             (Py.str_gt (createdAt st) cutoff) text)
  /\ (forall s, style_of (Terminal.colour s) = Some (specified_style s))
  /\ (forall recent_cutoff st text recent_days,
         Overview.format_status recent_cutoff st text recent_days
         = cell (Overview.result_url st) (Overview.colour (state st))
                (Py.str_gt (createdAt st) (recent_cutoff recent_days)) text)
  /\ (forall s, style_of (Overview.colour s) = Some (script_style s)).
Proof.
  split; [exact terminal_format_status_cell|].
  split; [intros []; reflexivity|].
  split; [exact overview_format_status_cell|].
  intros []; reflexivity.
Qed.

(** C6 as stated fails for the script: a [FAILURE] is shown in red that is
    not bold, and an [ERROR] in bold red. *)
Lemma script_colour_counterexample :
  style_of (Overview.colour FAILURE) = Some (mkStyle (Some Red) false)
  /\ style_of (Overview.colour ERROR) = Some (mkStyle (Some Red) true)
  /\ ~ (forall s, style_of (Overview.colour s) = Some (specified_style s)).
Proof.
  repeat split. intros H. specialize (H FAILURE). discriminate H.
Qed.

(** *** Recency *)

Lemma str_gt_compare a b :
  Py.str_gt a b = true <-> String.compare b a = Lt.
Proof.
  unfold Py.str_gt, String.ltb.
  destruct (String.compare b a); split; congruence.
Qed.

Lemma str_gt_irrefl a : Py.str_gt a a = false.
Proof. apply ltb_irrefl. Qed.

Lemma then_compare_Eq c : then_compare c Eq = c.
Proof. now destruct c. Qed.

Lemma compare_cons a b s t :
  String.compare (String a s) (String b t)
  = then_compare (Ascii.compare a b) (String.compare s t).
Proof. simpl. now destruct (Ascii.compare a b). Qed.

Lemma compare_same_head c s t :
  String.compare (String c s) (String c t) = String.compare s t.
Proof.
  rewrite compare_cons. unfold Ascii.compare. now rewrite N.compare_refl.
Qed.

Lemma compare_digit d e :
  0 <= d < 10 -> 0 <= e < 10 -> Ascii.compare (digit d) (digit e) = (d ?= e).
Proof.
  intros Hd He. unfold Ascii.compare, digit.
  rewrite N2Nat.inj_compare.
  change (N.to_nat (N_of_ascii ?a)) with (nat_of_ascii a).
  rewrite !nat_ascii_embedding by lia.
  rewrite Z2Nat.inj_compare by lia.
  apply Z.add_compare_mono_l.
Qed.

(** Comparing two numbers is comparing their quotients and, on a tie, their
    remainders. *)
Lemma compare_div_mod n m b :
  0 < b ->
  (n ?= m) = then_compare (n / b ?= m / b) (n mod b ?= m mod b).
Proof.
  intros Hb.
  pose proof (Z.div_mod n b ltac:(lia)) as Hn.
  pose proof (Z.div_mod m b ltac:(lia)) as Hm.
  pose proof (Z.mod_pos_bound n b Hb) as Hnb.
  pose proof (Z.mod_pos_bound m b Hb) as Hmb.
  destruct (Z.compare_spec (n / b) (m / b)) as [Hq|Hq|Hq]; simpl.
  - destruct (Z.compare_spec (n mod b) (m mod b)) as [Hr|Hr|Hr].
    + apply Z.compare_eq_iff. congruence.
    + apply Z.compare_lt_iff. rewrite Hn, Hm, Hq. lia.
    + apply Z.compare_gt_iff. rewrite Hn, Hm, Hq. lia.
  - apply Z.compare_lt_iff. nia.
  - apply Z.compare_gt_iff. nia.
Qed.

(** Numerals of one width compare like the numbers they denote. *)
Lemma zero_padded_compare width n m s t :
  0 <= n < 10 ^ Z.of_nat width -> 0 <= m < 10 ^ Z.of_nat width ->
  String.compare (zero_padded width n +:+ s) (zero_padded width m +:+ t)
  = then_compare (n ?= m) (String.compare s t).
Proof.
  revert n m. induction width as [|width IH]; intros n m Hn Hm.
  - simpl in *. assert (n = 0) as -> by lia. assert (m = 0) as -> by lia.
    reflexivity.
  - rewrite Nat2Z.inj_succ, Z.pow_succ_r in Hn, Hm by lia.
    assert (Hpow : 0 < 10 ^ Z.of_nat width) by (apply Z.pow_pos_nonneg; lia).
    cbn [zero_padded]. rewrite !append_cons, compare_cons.
    pose proof (Z.mod_pos_bound n _ Hpow). pose proof (Z.mod_pos_bound m _ Hpow).
    rewrite IH by assumption.
    rewrite compare_digit.
    + rewrite (compare_div_mod n m _ Hpow).
      destruct (n / 10 ^ Z.of_nat width ?= m / 10 ^ Z.of_nat width),
               (n mod 10 ^ Z.of_nat width ?= m mod 10 ^ Z.of_nat width);
        reflexivity.
    + split; [apply Z.div_pos; lia|apply Z.div_lt_upper_bound; lia].
    + split; [apply Z.div_pos; lia|apply Z.div_lt_upper_bound; lia].
Qed.

(** Time stamps in the format of the overview compare like the points in
    time they denote. *)
Lemma strftime_compare a b :
  well_formed a -> well_formed b ->
  String.compare (strftime a) (strftime b) = compare_time a b.
Proof.
  intros (Hy & Hmo & Hd & Hh & Hmi & Hs) (Hy' & Hmo' & Hd' & Hh' & Hmi' & Hs').
  unfold strftime, compare_time. rewrite !append_cons, !append_nil_l.
  rewrite (zero_padded_compare 4) by (simpl; lia). f_equal.
  rewrite compare_same_head.
  rewrite (zero_padded_compare 2) by (simpl; lia). f_equal.
  rewrite compare_same_head.
  rewrite (zero_padded_compare 2) by (simpl; lia). f_equal.
  rewrite compare_same_head.
  rewrite (zero_padded_compare 2) by (simpl; lia). f_equal.
  rewrite compare_same_head.
  rewrite (zero_padded_compare 2) by (simpl; lia). f_equal.
  rewrite compare_same_head.
  rewrite (zero_padded_compare 2) by (simpl; lia).
  apply then_compare_Eq.
Qed.

(** C7.  Both text renderers put a cell in reverse video exactly when the
    creation time of the status is greater than the cutoff in the order of
    strings; a creation time equal to the cutoff is not marked.  For time
    stamps in the format of the overview that order is the order of time:
    the status is marked exactly when it is strictly newer than the
    cutoff. *)
Theorem recent_is_strictly_newer :
  (forall cutoff st text,
      (Terminal.format_status cutoff st text
       = cell (Terminal.get_status_url st) (Terminal.colour (state st)) true text
       <-> String.compare cutoff (createdAt st) = Lt)
      /\ (createdAt st = cutoff ->
          Terminal.format_status cutoff st text
          = cell (Terminal.get_status_url st) (Terminal.colour (state st))
                 false text))
  /\ (forall recent_cutoff st text recent_days,
         (Overview.format_status recent_cutoff st text recent_days
          = cell (Overview.result_url st) (Overview.colour (state st)) true text
          <-> String.compare (recent_cutoff recent_days) (createdAt st) = Lt)
         /\ (createdAt st = recent_cutoff recent_days ->
             Overview.format_status recent_cutoff st text recent_days
             = cell (Overview.result_url st) (Overview.colour (state st))
                    false text))
  /\ (forall created cutoff,
         well_formed created -> well_formed cutoff ->
         (Py.str_gt (strftime created) (strftime cutoff) = true
          <-> newer created cutoff)
         /\ (created = cutoff ->
             Py.str_gt (strftime created) (strftime cutoff) = false)).
Proof.
  assert (Hflag : forall url code text created cutoff,
             (cell url code (Py.str_gt created cutoff) text
              = cell url code true text
              <-> String.compare cutoff created = Lt)
             /\ (created = cutoff ->
                 cell url code (Py.str_gt created cutoff) text
                 = cell url code false text)).
  { intros url code text created cutoff. split.
    - rewrite <- str_gt_compare.
      destruct (Py.str_gt created cutoff); split; try reflexivity.
      + intros H. symmetry in H. now apply cell_reverse_differs in H.
      + discriminate.
    - intros ->. now rewrite str_gt_irrefl. }
  split; [|split].
  - intros cutoff st text. rewrite terminal_format_status_cell. apply Hflag.
  - intros recent_cutoff st text recent_days.
    rewrite overview_format_status_cell. apply Hflag.
  - intros created cutoff Hcreated Hcutoff. split.
    + rewrite str_gt_compare. unfold newer.
      now rewrite strftime_compare.
    + intros ->. apply str_gt_irrefl.
Qed.

Lemma recent_is_strictly_newer_witness :
  (Py.str_gt (strftime second_later) (strftime cutoff_time) = true
   <-> newer second_later cutoff_time)
  /\ (second_later = cutoff_time ->
      Py.str_gt (strftime second_later) (strftime cutoff_time) = false).
Proof.
  apply (proj2 (proj2 recent_is_strictly_newer) second_later cutoff_time);
    unfold well_formed; simpl; lia.
Defined.

(** ** The threads of the service *)

Section ServiceFacts.

Variable environ : gmap string string.
Variable generate_html : Http.Server -> string.
Variable generate_metrics : Http.Server -> string.

Abbreviation run := (Service.run environ generate_html generate_metrics).
Abbreviation step := (Service.step environ generate_html generate_metrics).
Abbreviation published := (Service.published environ generate_html generate_metrics).
Abbreviation background_step :=
  (Service.background_step environ generate_html generate_metrics).

















End ServiceFacts.




(** The background thread, run on its own to its end, does what
    [regenerate_output] does as a whole. *)
Section Regenerate.

Variable environ : gmap string string.

Abbreviation statement :=
  (Service.statement environ Http.generate_html Http.generate_metrics).

Lemma returned_stays k globals waits :
  Nat.iter k statement (globals, Service.mkBackground Service.Returned waits)
  = (globals, Service.mkBackground Service.Returned waits).
Proof.
  induction k as [|k IH]; [reflexivity|]. now rewrite Nat.iter_succ_r.
Qed.

Lemma waiting_stays k globals :
  Nat.iter k statement (globals, Service.mkBackground Service.Wait [])
  = (globals, Service.mkBackground Service.Wait []).
Proof.
  induction k as [|k IH]; [reflexivity|]. now rewrite Nat.iter_succ_r.
Qed.

Lemma refresh_statements globals waits :
  statement (statement (globals,
                        Service.mkBackground Service.AssignMetrics waits))
  = (Http.refresh globals, Service.mkBackground Service.Wait waits).
Proof. reflexivity. Qed.

Lemma refresh_loop_statements waits globals k :
  fst (Nat.iter (3 * List.length waits + 2 + k) statement
                (globals, Service.mkBackground Service.AssignMetrics waits))
  = Http.refresh_loop waits (Http.refresh globals).
Proof.
  revert globals. induction waits as [|[|] waits IH]; intros globals.
  - change (3 * List.length (@nil bool) + 2 + k)%nat with (S (S k)).
    rewrite !Nat.iter_succ_r, refresh_statements. now rewrite waiting_stays.
  - replace (3 * List.length (true :: waits) + 2 + k)%nat
      with (S (S (S (3 * List.length waits + 2 + k)))) by (simpl; lia).
    rewrite !Nat.iter_succ_r, refresh_statements.
    change (statement (Http.refresh globals,
                       Service.mkBackground Service.Wait (true :: waits)))
      with (Http.mkServer (Http.html_page (Http.refresh globals))
                          (Http.metrics_page (Http.refresh globals)) true,
            Service.mkBackground Service.Returned waits).
    now rewrite returned_stays.
  - replace (3 * List.length (false :: waits) + 2 + k)%nat
      with (S (S (S (3 * List.length waits + 2 + k)))) by (simpl; lia).
    rewrite !Nat.iter_succ_r, refresh_statements.
    change (statement (Http.refresh globals,
                       Service.mkBackground Service.Wait (false :: waits)))
      with (Http.refresh globals,
            Service.mkBackground Service.AssignMetrics waits).
    apply IH.
Qed.

Lemma background_thread_regenerates waits globals handlers k :
  Service.published environ Http.generate_html Http.generate_metrics
                    (3 * List.length waits + 3 + k)
                    (Service.mkConfig globals
                       (Service.mkBackground Service.MakeClient waits) handlers)
  = Http.regenerate_output environ waits globals.
Proof.
  unfold Service.published. cbn [Service.globals Service.background].
  replace (3 * List.length waits + 3 + k)%nat
    with (S (3 * List.length waits + 2 + k)) by lia.
  rewrite Nat.iter_succ_r.
  unfold Service.statement at 2, Service.background_step, Http.regenerate_output.
  cbn [Service.pc Service.waits fst snd].
  destruct (environ !! "GITHUB_TOKEN").
  - apply refresh_loop_statements.
  - now rewrite returned_stays.
Qed.

End Regenerate.




(** * Further properties of the code *)

(** ** The catalog of the local resolver *)

Lemma filter_spec l x :
  nonempty l && negb (contains l x) = false <-> l = [] \/ In x l.
Proof.
  split; [|apply filter_passes].
  destruct l as [|y l]; [now left|]. simpl nonempty. rewrite andb_true_l.
  rewrite negb_false_iff, contains_spec. now right.
Qed.

Lemma getitem_Ok {V : Type} (d : gmap string V) key v :
  Py.getitem d key = Py.Ok v <-> d !! key = Some v.
Proof.
  unfold Py.getitem, Py.Ok, Py.Raise. destruct (d !! key); split; congruence.
Qed.

(** What one globbed file does to the catalog when the loop body returns. *)
Lemma overview_entry_Ok tree roles containers repos checks all_checks
      name_table entry acc' :
  Overview.resolve_entry tree roles containers repos checks
                         (all_checks, name_table) entry = Py.Ok acc' ->
  (acc' = (all_checks, name_table)
   /\ forall r b n, ~ admits tree roles containers repos checks entry r b n)
  \/ (exists r b n ci,
         admits tree roles containers repos checks entry r b n
         /\ acc' = (<[(r, b) := checks_of all_checks (r, b) ++ [n]]> all_checks,
                    <[n := ci]> name_table)).
Proof.
  destruct entry as [[role docker] env]. unfold Overview.resolve_entry, admits.
  destruct (String.eqb_spec env DEFAULTENV) as [Henv|Henv].
  { intros [= <-]. left. split; [reflexivity|]. intros r b n H. tauto. }
  destruct (nonempty roles && negb (contains roles role)) eqn:Hroles.
  { intros [= <-]. left. split; [reflexivity|]. intros r b n (_ & H & _).
    apply filter_spec in H. congruence. }
  destruct (nonempty containers && negb (contains containers docker))
    eqn:Hcontainers.
  { intros [= <-]. left. split; [reflexivity|]. intros r b n (_ & _ & H & _).
    apply filter_spec in H. congruence. }
  apply filter_spec in Hroles, Hcontainers.
  set (check := Overview.resolve_check tree role docker env).
  destruct (Py.getitem check "PR_REPO") as [e|repo_] eqn:H1; [discriminate|].
  destruct (Py.getitem check "PR_BRANCH") as [e|branch] eqn:H2; [discriminate|].
  destruct (Py.getitem check "CHECK_NAME") as [e|name_] eqn:H3; [discriminate|].
  apply getitem_Ok in H1, H2, H3. simpl.
  destruct (nonempty repos && negb (contains repos repo_)) eqn:Hrepos.
  { intros [= <-]. left. split; [reflexivity|].
    intros r b n (_ & _ & _ & Hr & _ & _ & H & _).
    apply filter_spec in H. assert (r = repo_) by congruence. congruence. }
  destruct (nonempty checks && negb (contains checks name_)) eqn:Hchecks.
  { intros [= <-]. left. split; [reflexivity|].
    intros r b n (_ & _ & _ & _ & _ & Hn & _ & H).
    apply filter_spec in H. assert (n = name_) by congruence. congruence. }
  apply filter_spec in Hrepos, Hchecks.
  destruct (Py.getitem check "CI_NAME") as [e|ci] eqn:H4; [discriminate|].
  simpl. intros [= <-]. right. exists repo_, branch, name_, ci.
  split; [|reflexivity]. repeat split; assumption.
Qed.

Lemma admits_functional tree roles containers repos checks entry r b n r' b' n' :
  admits tree roles containers repos checks entry r b n ->
  admits tree roles containers repos checks entry r' b' n' ->
  r = r' /\ b = b' /\ n = n'.
Proof.
  destruct entry as [[role docker] env]. unfold admits.
  intros (_ & _ & _ & H1 & H2 & H3 & _) (_ & _ & _ & H1' & H2' & H3' & _).
  repeat split; congruence.
Qed.

Lemma checks_of_insert all_checks key l key' :
  checks_of (<[key := l]> all_checks) key'
  = if decide (key = key') then l else checks_of all_checks key'.
Proof.
  unfold checks_of. rewrite lookup_insert.
  destruct (decide (key = key')); reflexivity.
Qed.

(** The catalog after the loop over some globbed files. *)
Lemma overview_loop_Ok tree roles containers repos checks entries acc acc' :
  Py.for_each (Overview.resolve_entry tree roles containers repos checks)
              entries acc = Py.Ok acc' ->
  (forall r b n,
      In n (checks_of (fst acc') (r, b))
      <-> In n (checks_of (fst acc) (r, b))
          \/ exists entry,
              In entry entries
              /\ admits tree roles containers repos checks entry r b n)
  /\ (names_cover acc -> names_cover acc').
Proof.
  revert acc. induction entries as [|entry entries IH]; intros acc; simpl.
  - intros [= <-]. split; [|trivial]. intros r b n. split; [now left|].
    intros [H|(entry & [] & _)]. exact H.
  - destruct (Overview.resolve_entry tree roles containers repos checks acc entry)
      as [e|acc1] eqn:Hentry; simpl; [discriminate|].
    intros Hrest. destruct (IH _ Hrest) as [Hmem Hcover].
    destruct acc as [all_checks name_table].
    apply overview_entry_Ok in Hentry.
    destruct Hentry as [[-> Hnone]|(r0 & b0 & n0 & ci & Hadm & ->)].
    + split; [|exact Hcover]. intros r b n. rewrite Hmem. split.
      * intros [H|(entry' & Hin & H)]; [now left|].
        right. exists entry'. split; [now right|assumption].
      * intros [H|(entry' & [<-|Hin] & H)]; [now left| |].
        -- now apply Hnone in H.
        -- right. now exists entry'.
    + split.
      * intros r b n. rewrite Hmem. simpl fst. rewrite checks_of_insert.
        destruct (decide ((r0, b0) = (r, b))) as [[= -> ->]|Hne].
        -- rewrite in_app_iff. simpl. split.
           ++ intros [[H|[<-|[]]]|(entry' & Hin & H)].
              ** now left.
              ** right. exists entry. split; [now left|assumption].
              ** right. exists entry'. split; [now right|assumption].
           ++ intros [H|(entry' & [<-|Hin] & H)].
              ** left. now left.
              ** left. right. left.
                 now destruct (admits_functional _ _ _ _ _ _ _ _ _ _ _ _ Hadm H)
                   as (_ & _ & ->).
              ** right. now exists entry'.
        -- split.
           ++ intros [H|(entry' & Hin & H)]; [now left|].
              right. exists entry'. split; [now right|assumption].
           ++ intros [H|(entry' & [<-|Hin] & H)]; [now left| |].
              ** destruct (admits_functional _ _ _ _ _ _ _ _ _ _ _ _ Hadm H)
                   as (-> & -> & _). now contradiction Hne.
              ** right. now exists entry'.
      * intros Hnames. apply Hcover. intros key n. simpl.
        rewrite checks_of_insert. rewrite lookup_insert.
        destruct (decide (n0 = n)) as [_|Hn]; [now eexists|].
        destruct (decide ((r0, b0) = key)) as [<-|_].
        -- rewrite in_app_iff. simpl. intros [H|[H|[]]]; [|contradiction].
           now apply (Hnames (r0, b0)).
        -- apply Hnames.
Qed.

(** X1.  When the local resolver returns, a check is listed under a
    repository and branch exactly when some globbed file yields it: a file
    that is not [DEFAULTS.env], that every one of the four filters lets
    through (an empty filter letting everything through), and whose merged
    variables name that repository, branch and check. *)
Theorem catalog_membership tree roles containers repos checks all_checks
        name_table repo_ branch name_ :
  Overview.get_all_checks tree roles containers repos checks
  = Py.Ok (all_checks, name_table) ->
  In name_ (checks_of all_checks (repo_, branch))
  <-> exists entry,
      In entry (Overview.glob_env tree)
      /\ admits tree roles containers repos checks entry repo_ branch name_.
Proof.
  intros Hrun. apply overview_loop_Ok in Hrun. destruct Hrun as [Hmem _].
  rewrite (Hmem repo_ branch name_). simpl. unfold checks_of at 1.
  rewrite lookup_empty. simpl. tauto.
Qed.

Lemma catalog_membership_witness :
  In "unit-gcc" (checks_of {[ ("acme/widgets", "main") := ["unit-gcc"] ]}
                           ("acme/widgets", "main"))
  <-> exists entry,
      In entry (Overview.glob_env scenario_tree)
      /\ admits scenario_tree [] [] [] [] entry "acme/widgets" "main" "unit-gcc".
Proof.
  apply (catalog_membership scenario_tree [] [] [] []
           {[ ("acme/widgets", "main") := ["unit-gcc"] ]}
           {[ "unit-gcc" := "unit-gcc-ci" ]}).
  reflexivity.
Defined.

(** No check, no name to cover. *)
Lemma names_cover_empty : names_cover (∅, ∅).
Proof.
  intros key n. simpl. unfold checks_of. rewrite lookup_empty. intros [].
Qed.

(** X2.  When the local resolver returns, the name table has an internal
    name for every check of the catalog. *)
Theorem name_table_covers_catalog tree roles containers repos checks catalog :
  Overview.get_all_checks tree roles containers repos checks = Py.Ok catalog ->
  names_cover catalog.
Proof.
  intros Hrun. unfold Overview.get_all_checks in Hrun.
  apply overview_loop_Ok in Hrun. destruct Hrun as [_ Hcover].
  apply Hcover. exact names_cover_empty.
Qed.

Lemma name_table_covers_catalog_witness :
  names_cover ({[ ("acme/widgets", "main") := ["unit-gcc"] ]},
               {[ "unit-gcc" := "unit-gcc-ci" ]}).
Proof.
  apply (name_table_covers_catalog scenario_tree [] [] [] []). reflexivity.
Defined.

(** X3.  The statuses of a repository of the catalog can be fetched with its
    name table: when the repository has a slash and every classified pull
    request has a commit, [get_check_statuses] returns for the checks of
    the catalog, and it never raises [KeyError]. *)
Theorem catalog_checks_classify now client tree roles containers repos checks
        all_checks name_table repo_ branch :
  Overview.get_all_checks tree roles containers repos checks
  = Py.Ok (all_checks, name_table) ->
  (forall key,
      snd (get_check_statuses now client repo_ branch
             (checks_of all_checks (repo_, branch)) name_table)
      <> Py.Raise (Py.KeyError key))
  /\ (In "/"%char (chars repo_) ->
      (forall pull, In pull (eligible (fetched client repo_ branch)) ->
                    commits pull <> []) ->
      exists statuses,
        snd (get_check_statuses now client repo_ branch
               (checks_of all_checks (repo_, branch)) name_table)
        = Py.Ok statuses).
Proof.
  intros Hrun. unfold Overview.get_all_checks in Hrun.
  apply overview_loop_Ok in Hrun. destruct Hrun as [_ Hcover].
  pose proof (Hcover names_cover_empty) as Hrun. clear Hcover.
  assert (Hnames : forall c, In c (checks_of all_checks (repo_, branch)) ->
                             is_Some (name_table !! c)).
  { intros c Hc. exact (Hrun (repo_, branch) c Hc). }
  split.
  - intros key Hraise.
    destruct (in_dec ascii_dec "/"%char (chars repo_)) as [Hin|Hno].
    + destruct (get_check_statuses_valid now client repo_ branch
                  (checks_of all_checks (repo_, branch)) name_table Hin)
        as (o & r & _ & _ & _ & Heq).
      rewrite Heq in Hraise. simpl in Hraise.
      apply for_each_raise in Hraise. destruct Hraise as (s1 & pull & _ & H).
      unfold classify_pull in H. destruct (skipped pull); [discriminate|].
      destruct (commits pull) as [|commit rest]; simpl in H; [discriminate|].
      apply for_each_raise in H. destruct H as (s2 & c & Hc & H).
      unfold classify_check in H. destruct (Hnames c Hc) as [ci Hci].
      unfold Py.getitem in H. rewrite Hci in H. discriminate H.
    + rewrite get_check_statuses_invalid in Hraise by assumption.
      discriminate Hraise.
  - intros Hin Hcommits.
    destruct (get_check_statuses_valid now client repo_ branch
                (checks_of all_checks (repo_, branch)) name_table Hin)
      as (o & r & _ & _ & _ & Heq).
    rewrite Heq. cbn [snd].
    now apply classify_pulls_total.
Qed.

(** ** The rows of a table *)

Lemma groupby_adjacent {A K : Type} `{EqDecision K} (key : A -> K) l :
  Sorted (fun g1 g2 => fst g1 <> fst g2) (groupby key l).
Proof.
  induction l as [|x l IH]; [constructor|]. simpl.
  destruct (groupby key l) as [|[k run] groups]; simpl in *.
  - repeat constructor.
  - apply Sorted_inv in IH. destruct IH as [IH Hhd].
    destruct (decide (key x = k)) as [Hk|Hk].
    + constructor; [assumption|].
      destruct groups; constructor. now apply HdRel_inv in Hhd.
    + constructor; [now constructor|]. now constructor.
Qed.

Lemma enumerate_from_split {A : Type} (i : Z) (l : list A) a b :
  enumerate_from i l = a ++ b ->
  a = enumerate_from i (map snd a)
  /\ b = enumerate_from (i + Z.of_nat (List.length a)) (map snd b)
  /\ l = map snd a ++ map snd b.
Proof.
  intros H.
  assert (Hl : l = map snd a ++ map snd b).
  { rewrite <- (enumerate_from_map_snd i l), H. now rewrite map_app. }
  split; [|split; [|exact Hl]].
  - apply (enumerate_segment i l [] a b) in H. simpl in H.
    now rewrite Z.add_0_r in H.
  - apply (enumerate_segment i l a b []). now rewrite app_nil_r.
Qed.

Lemma chunks_fuel_step {A : Type} (fuel n : nat) (l : list A) :
  l <> [] ->
  chunks_fuel (S fuel) n l = firstn n l :: chunks_fuel fuel n (skipn n l).
Proof. destruct l; [contradiction|reflexivity]. Qed.

(** Runs of equal quotient that start at a multiple of [n] are the pieces
    of [n] items. *)
Lemma runs_are_chunks {A : Type} (n : Z) (groups : list (Z * list (Z * A))) :
  0 < n ->
  forall (i : Z) (l : list A) (fuel : nat),
    i mod n = 0 ->
    (List.length l <= fuel)%nat ->
    List.concat (map snd groups) = enumerate_from i l ->
    Forall (fun group => snd group <> []
                         /\ Forall (fun tpl => fst tpl / n = fst group)
                                   (snd group)) groups ->
    Sorted (fun g1 g2 => fst g1 <> fst g2) groups ->
    map (fun group => map snd (snd group)) groups
    = chunks_fuel fuel (Z.to_nat n) l.
Proof.
  intros Hn. induction groups as [|[k run] groups IH];
    intros i l fuel Hi Hfuel Hcat Hruns Hadj.
  - simpl in Hcat. destruct l; [|discriminate]. now destruct fuel.
  - simpl in Hcat. symmetry in Hcat. apply enumerate_from_split in Hcat.
    destruct Hcat as (Hrun & Hrest & Hl).
    apply Forall_cons_iff in Hruns. destruct Hruns as [[Hne Hkeys] Hruns].
    apply Sorted_inv in Hadj. destruct Hadj as [Hadj Hhd].
    simpl in Hne, Hkeys.
    set (r := map snd run) in *. set (rest := map snd (List.concat (map snd groups))) in *.
    assert (Hlen : Z.of_nat (List.length r) <= n).
    { rewrite Hrun in Hkeys. now apply same_quotient_length in Hkeys. }
    assert (Hpos : (0 < List.length r)%nat).
    { unfold r. rewrite length_map. destruct run; [contradiction|simpl; lia]. }
    assert (Hk : i / n = k).
    { rewrite Hrun in Hkeys. destruct r; [simpl in Hpos; lia|].
      exact (Forall_inv Hkeys). }
    subst l. destruct fuel as [|fuel].
    { rewrite length_app in Hfuel. lia. }
    rewrite chunks_fuel_step
      by (intros Hrx; apply app_eq_nil in Hrx; destruct Hrx as [Hr _];
          rewrite Hr in Hpos; simpl in Hpos; lia).
    cbn [map snd]. fold r.
    rewrite length_app in Hfuel.
    destruct groups as [|[k' run'] groups'].
    + simpl in rest. subst rest. rewrite app_nil_r.
      rewrite firstn_all2 by lia. rewrite skipn_all2 by lia.
      f_equal. now destruct fuel.
    + assert (Hfull : Z.of_nat (List.length r) = n).
      { apply HdRel_inv in Hhd. simpl in Hhd.
        apply Forall_inv in Hruns. destruct Hruns as [Hne' Hkeys'].
        simpl in Hne', Hkeys'. simpl in Hrest.
        symmetry in Hrest.
        apply enumerate_from_split in Hrest. destruct Hrest as (Hrun' & _ & _).
        rewrite Hrun' in Hkeys'.
        destruct (map snd run') as [|y ys] eqn:Hy.
        { destruct run'; [contradiction|discriminate]. }
        pose proof (Forall_inv Hkeys') as Hk'. simpl in Hk'.
        replace (Z.of_nat (List.length run)) with (Z.of_nat (List.length r)) in Hk'
          by (unfold r; now rewrite length_map).
        pose proof (Z.div_mod i n ltac:(lia)) as Hdiv.
        rewrite Hi, Hk in Hdiv.
        pose proof (Z.mul_div_le (i + Z.of_nat (List.length r)) n Hn) as Hle.
        assert (k <= (i + Z.of_nat (List.length r)) / n).
        { rewrite <- Hk. apply Z.div_le_mono; lia. }
        nia. }
      assert (Hn' : Z.to_nat n = List.length r) by lia.
      assert (Hfirst : firstn (Z.to_nat n) (r ++ rest) = r).
      { rewrite Hn', firstn_app, Nat.sub_diag, firstn_all. simpl.
        apply app_nil_r. }
      assert (Hskip : skipn (Z.to_nat n) (r ++ rest) = rest).
      { rewrite Hn', skipn_app, Nat.sub_diag, skipn_all. reflexivity. }
      rewrite Hfirst, Hskip.
      f_equal. apply (IH (i + Z.of_nat (List.length run))).
      * replace (Z.of_nat (List.length run)) with n
          by (rewrite <- Hfull; unfold r; now rewrite length_map).
        rewrite <- (Z.mul_1_l n) at 1. rewrite Z.mod_add by lia. exact Hi.
      * lia.
      * unfold rest in Hrest. rewrite Hrest at 1. f_equal.
      * assumption.
      * assumption.
Qed.

(** X4.  With a positive number of items per row, the rows of a table are
    the list cut into consecutive pieces of that many items, the last piece
    possibly shorter. *)
Theorem table_rows_chunks {A : Type} (per_row : Z) (l : list A) :
  0 < per_row ->
  table_rows per_row l = Py.Ok (chunks (Z.to_nat per_row) l).
Proof.
  intros Hpos. unfold table_rows, chunks. destruct l as [|x l]; [reflexivity|].
  destruct (Z.eqb_spec per_row 0) as [->|_]; [lia|]. f_equal.
  apply (runs_are_chunks per_row _ Hpos 0).
  - apply Z.mod_0_l. lia.
  - reflexivity.
  - apply groupby_concat.
  - apply groupby_runs.
  - apply groupby_adjacent.
Qed.

Lemma table_rows_chunks_witness :
  table_rows 2 ["a"; "b"; "c"; "d"; "e"]
  = Py.Ok (chunks (Z.to_nat 2) ["a"; "b"; "c"; "d"; "e"]).
Proof. apply (table_rows_chunks 2). lia. Defined.

(** ** What [output_check_table] prints and raises *)

Lemma collect_numbers_Ok (l : list CheckStatus) seen :
  Forall (fun c => is_Some (pr c)) l ->
  Py.for_each (fun seen c =>
                 match pr c with
                 | Some n => Py.Ok (seen ++ [n])
                 | None => Py.Raise (Py.KeyError "pr")
                 end) l seen
  = Py.Ok (seen ++ map (fun c => default 0 (pr c)) l).
Proof.
  intros Hall. revert seen. induction Hall as [|c l [n Hn] _ IH]; intros seen.
  - simpl. now rewrite app_nil_r.
  - simpl. rewrite Hn. simpl. rewrite IH. now rewrite <- app_assoc.
Qed.

Lemma collect_numbers_KeyError (l : list CheckStatus) seen :
  Exists (fun c => pr c = None) l ->
  Py.for_each (fun seen c =>
                 match pr c with
                 | Some n => Py.Ok (seen ++ [n])
                 | None => Py.Raise (Py.KeyError "pr")
                 end) l seen
  = Py.Raise (Py.KeyError "pr").
Proof.
  intros Hex. revert seen. induction l as [|c l IH]; intros seen.
  - inversion Hex.
  - simpl. destruct (pr c) as [n|] eqn:Hc; [|reflexivity]. simpl.
    apply IH. apply Exists_cons in Hex. destruct Hex as [Hex|Hex];
      [congruence|assumption].
Qed.

Lemma fold_left_max_spec (l : list Z) n :
  In (fold_left Z.max l n) (n :: l)
  /\ n <= fold_left Z.max l n
  /\ Forall (fun x => x <= fold_left Z.max l n) l.
Proof.
  revert n. induction l as [|x l IH]; intros n; simpl.
  - repeat split; [now left|lia|constructor].
  - destruct (IH (Z.max n x)) as (Hin & Hge & Hall). repeat split.
    + destruct Hin as [Hin|Hin]; [|now right; right].
      rewrite <- Hin. destruct (Z.max_spec n x) as [[_ ->]|[_ ->]]; tauto.
    + lia.
    + constructor; [lia|assumption].
Qed.

(** The largest number of a list of statuses that all have one. *)
Lemma max_pr_Ok (l : list CheckStatus) :
  l <> [] -> Forall (fun c => is_Some (pr c)) l ->
  exists largest,
    Overview.max_pr l = Py.Ok largest
    /\ (exists c, In c l /\ pr c = Some largest)
    /\ (forall c n, In c l -> pr c = Some n -> n <= largest).
Proof.
  intros Hne Hall. unfold Overview.max_pr.
  rewrite (collect_numbers_Ok l [] Hall). simpl.
  destruct l as [|c0 l]; [contradiction|]. simpl.
  set (numbers := map (fun c => default 0 (pr c)) l).
  destruct (fold_left_max_spec numbers (default 0 (pr c0))) as (Hin & Hge & Hle).
  eexists. split; [reflexivity|]. split.
  - change (default 0 (pr c0) :: numbers)
      with (map (fun c => default 0 (pr c)) (c0 :: l)) in Hin.
    apply in_map_iff in Hin. destruct Hin as (c & Hc & Hin).
    exists c. split; [assumption|].
    rewrite List.Forall_forall in Hall. destruct (Hall c Hin) as [n Hn].
    rewrite Hn in Hc. simpl in Hc. congruence.
  - intros c n [<-|Hc] Hn.
    + rewrite Hn in Hge. simpl in Hge. rewrite Hn. exact Hge.
    + rewrite List.Forall_forall in Hle. apply Hle. unfold numbers.
      apply in_map_iff. exists c. rewrite Hn. now split.
Qed.

Lemma digits_positive n :
  0 < n -> exists width, Overview.digits n = Py.Ok width /\ 1 <= width.
Proof.
  intros Hn. destruct n as [|p|p]; try lia. simpl.
  eexists. split; [reflexivity|].
  pose proof (DecimalPos.Unsigned.to_uint_nonnil p) as Hnil.
  destruct (Decimal.nb_digits (Pos.to_uint p)) eqn:Hd; [|lia].
  now apply DecimalFacts.nb_digits_0 in Hd.
Qed.

Lemma digits_not_positive n :
  n <= 0 -> Overview.digits n = Py.Raise (Py.ValueError "math domain error").
Proof. intros Hn. destruct n; try reflexivity. lia. Qed.

Lemma cells_Ok (width : Z) (row : list CheckStatus) cells :
  Forall (fun c => is_Some (pr c)) row ->
  Py.for_each (fun cells status_ =>
                 match pr status_ with
                 | Some n => Py.Ok (cells ++ [(status_, "#" +:+ format_d width n)])
                 | None => Py.Raise (Py.KeyError "pr")
                 end) row cells
  = Py.Ok (cells ++ labelled width row).
Proof.
  intros Hall. revert cells. induction Hall as [|c l [n Hn] _ IH]; intros cells.
  - simpl. now rewrite app_nil_r.
  - simpl. rewrite Hn. simpl. rewrite IH. unfold labelled. simpl.
    rewrite ?Hn. simpl. now rewrite <- app_assoc.
Qed.

Lemma print_rows_Ok recent_cutoff (width recent_days : Z)
      (rows : list (list CheckStatus)) printed :
  Forall (Forall (fun c => is_Some (pr c))) rows ->
  Py.for_each
    (fun printed row =>
       try! cells := Py.for_each
                       (fun cells status_ =>
                          match pr status_ with
                          | Some n =>
                              Py.Ok (cells ++ [(status_, "#" +:+ format_d width n)])
                          | None => Py.Raise (Py.KeyError "pr")
                          end) row [] in
       Py.Ok (printed ++ [Overview.format_table_row recent_cutoff cells recent_days]))
    rows printed
  = Py.Ok (printed
           ++ map (fun row => Overview.format_table_row recent_cutoff
                                (labelled width row) recent_days) rows).
Proof.
  intros Hall. revert printed. induction Hall as [|row rows Hrow _ IH];
    intros printed.
  - simpl. now rewrite app_nil_r.
  - simpl. rewrite (cells_Ok width row [] Hrow). simpl. rewrite IH.
    now rewrite <- app_assoc.
Qed.

Lemma Forall_concat_inv {A : Type} (P : A -> Prop) (rows : list (list A)) :
  Forall P (List.concat rows) -> Forall (Forall P) rows.
Proof.
  induction rows as [|row rows IH]; simpl; intros H; [constructor|].
  apply Forall_app in H. destruct H as [Hrow Hrest].
  constructor; [assumption|now apply IH].
Qed.

Lemma label_width_eq l largest width :
  Overview.max_pr l = Py.Ok largest -> Overview.digits largest = Py.Ok width ->
  label_width l = width.
Proof.
  intros Hm Hd. unfold label_width. rewrite Hm. unfold Py.Ok at 1.
  cbv beta iota. now rewrite Hd.
Qed.

Lemma sort_desc_nil l : sort_desc l = [] -> l = [].
Proof.
  intros Hnil. pose proof (sort_desc_perm l) as Hperm. rewrite Hnil in Hperm.
  apply Permutation_sym in Hperm. now apply Permutation_nil in Hperm.
Qed.

(** X5.  The exceptions of [output_check_table]: [ValueError] for an empty
    list, [KeyError] when a status has no pull request number, [ValueError]
    again when all numbers are there and none is positive, and
    [ZeroDivisionError] when the numbers are there, one is positive, and
    the terminal is too narrow for one item per row. *)
Theorem output_check_table_raises recent_cutoff terminal_width pr_statuses
        recent_days :
  let result :=
    snd (Overview.output_check_table recent_cutoff terminal_width pr_statuses
                                     recent_days) in
  (pr_statuses = [] ->
   result = Py.Raise (Py.ValueError "max() arg is an empty sequence"))
  /\ (Exists (fun c => pr c = None) pr_statuses ->
      result = Py.Raise (Py.KeyError "pr"))
  /\ (pr_statuses <> [] ->
      Forall (fun c => exists n, pr c = Some n /\ n <= 0) pr_statuses ->
      result = Py.Raise (Py.ValueError "math domain error"))
  /\ (Forall (fun c => is_Some (pr c)) pr_statuses ->
      Exists (fun c => exists n, pr c = Some n /\ 0 < n) pr_statuses ->
      items_per_row terminal_width (label_width (sort_desc pr_statuses)) = 0 ->
      result = Py.Raise Py.ZeroDivisionError).
Proof.
  unfold Overview.output_check_table. cbn [snd].
  pose proof (sort_desc_perm pr_statuses) as Hperm.
  split; [intros ->; reflexivity|]. split; [|split].
  - intros Hex. unfold Overview.max_pr at 1.
    rewrite collect_numbers_KeyError; [reflexivity|].
    apply List.Exists_exists in Hex. destruct Hex as (c & Hin & Hc).
    apply List.Exists_exists. exists c. split; [|assumption].
    now apply (Permutation_in _ Hperm).
  - intros Hne Hall.
    assert (Hne' : sort_desc pr_statuses <> []).
    { intros Hnil. now apply sort_desc_nil in Hnil. }
    assert (Hall' : Forall (fun c => exists n, pr c = Some n /\ n <= 0)
                           (sort_desc pr_statuses))
      by (eapply Permutation_Forall; eassumption).
    destruct (max_pr_Ok (sort_desc pr_statuses) Hne') as (m & -> & (c & Hin & Hc) & _).
    { eapply List.Forall_impl; [|exact Hall']. intros a (n & -> & _). now eexists. }
    simpl. rewrite List.Forall_forall in Hall'.
    destruct (Hall' c Hin) as (n & Hn & Hle).
    rewrite digits_not_positive by congruence. reflexivity.
  - intros Hall Hex Hzero.
    assert (Hall' : Forall (fun c => is_Some (pr c)) (sort_desc pr_statuses))
      by (eapply Permutation_Forall; eassumption).
    assert (Hne' : sort_desc pr_statuses <> []).
    { intros Hnil. apply sort_desc_nil in Hnil. subst. inversion Hex. }
    destruct (max_pr_Ok (sort_desc pr_statuses) Hne' Hall')
      as (m & Hm & _ & Hmax).
    assert (Hpos : 0 < m).
    { apply List.Exists_exists in Hex. destruct Hex as (c & Hin & n & Hn & Hlt).
      apply (Permutation_in _ Hperm) in Hin.
      specialize (Hmax c n Hin Hn). lia. }
    destruct (digits_positive m Hpos) as (width & Hw & _).
    rewrite (label_width_eq _ _ _ Hm Hw) in Hzero.
    rewrite Hm. simpl. rewrite Hw. simpl. rewrite Hzero. unfold table_rows.
    destruct (sort_desc pr_statuses); [contradiction|]. reflexivity.
Qed.

(** ** Decimal numerals *)

Lemma usize_nb_digits d :
  DecimalPos.Unsigned.usize d = N.of_nat (Decimal.nb_digits d).
Proof.
  induction d; cbn [DecimalPos.Unsigned.usize Decimal.nb_digits];
    rewrite ?IHd, ?Nat2N.inj_succ; reflexivity.
Qed.

(** A numeral of [k] digits is below [10^k]. *)
Lemma of_lu_upper d :
  (DecimalPos.Unsigned.of_lu d < 10 ^ DecimalPos.Unsigned.usize d)%N.
Proof.
  induction d; cbn [DecimalPos.Unsigned.of_lu DecimalPos.Unsigned.usize];
    rewrite ?N.pow_succ_r'; [rewrite N.pow_0_r|..]; lia.
Qed.

Lemma to_uint_value p :
  DecimalPos.Unsigned.of_lu (Decimal.rev (Pos.to_uint p)) = Npos p.
Proof.
  rewrite <- DecimalPos.Unsigned.of_uint_alt. apply DecimalPos.Unsigned.of_to.
Qed.

Lemma digits_upper p :
  Zpos p < 10 ^ Z.of_nat (Decimal.nb_digits (Pos.to_uint p)).
Proof.
  pose proof (of_lu_upper (Decimal.rev (Pos.to_uint p))) as H.
  rewrite to_uint_value, usize_nb_digits, DecimalFacts.nb_digits_rev in H.
  apply N2Z.inj_lt in H. rewrite N2Z.inj_pow in H.
  now rewrite nat_N_Z in H.
Qed.

Lemma to_uint_unorm p : Decimal.unorm (Pos.to_uint p) = Pos.to_uint p.
Proof.
  rewrite <- DecimalPos.Unsigned.to_of, DecimalPos.Unsigned.of_to. reflexivity.
Qed.

(** A numeral whose first digit is not zero is at least [10^(k-1)]. *)
Lemma of_lu_lower d :
  Decimal.unorm d = d -> d <> Decimal.zero ->
  (10 ^ DecimalPos.Unsigned.usize d
   <= 10 * DecimalPos.Unsigned.of_lu (Decimal.rev d))%N.
Proof.
  intros Hnorm Hzero.
  destruct d as [|d|d|d|d|d|d|d|d|d|d];
    try (unfold Decimal.rev; cbn [Decimal.revapp];
         rewrite DecimalPos.Unsigned.of_lu_revapp;
         cbn [DecimalPos.Unsigned.of_lu DecimalPos.Unsigned.usize];
         rewrite N.pow_succ_r'; lia).
  - discriminate Hnorm.
  - exfalso. rewrite DecimalFacts.unorm_D0 in Hnorm.
    destruct d as [|d|d|d|d|d|d|d|d|d|d]; try (now apply Hzero);
      match type of Hnorm with
      | Decimal.unorm ?u = _ =>
          pose proof (DecimalFacts.nb_digits_unorm u ltac:(discriminate)) as Hlen;
          rewrite Hnorm in Hlen; cbn [Decimal.nb_digits] in Hlen; lia
      end.
Qed.

Lemma digits_lower p :
  10 ^ (Z.of_nat (Decimal.nb_digits (Pos.to_uint p)) - 1) <= Zpos p.
Proof.
  pose proof (of_lu_lower (Pos.to_uint p) (to_uint_unorm p)
                (DecimalPos.Unsigned.to_uint_nonzero p)) as H.
  rewrite to_uint_value, usize_nb_digits in H.
  apply N2Z.inj_le in H. rewrite N2Z.inj_mul, N2Z.inj_pow, nat_N_Z in H.
  pose proof (DecimalPos.Unsigned.to_uint_nonnil p) as Hnil.
  destruct (Decimal.nb_digits (Pos.to_uint p)) as [|k] eqn:Hk.
  - now apply DecimalFacts.nb_digits_0 in Hk.
  - replace (Z.of_nat (S k) - 1) with (Z.of_nat k) by lia.
    rewrite Nat2Z.inj_succ, Z.pow_succ_r in H by lia.
    change (Z.of_N 10) with 10 in H. change (Z.of_N (N.pos p)) with (Z.pos p) in H.
    lia.
Qed.

(** The number of digits is the one exponent [w] with
    [10^(w-1) <= n < 10^w]. *)
Lemma digits_unique n w w' :
  10 ^ (w - 1) <= n < 10 ^ w -> 10 ^ (w' - 1) <= n < 10 ^ w' ->
  0 < n -> w = w'.
Proof.
  intros [Hl Hu] [Hl' Hu'] Hn.
  assert (Hw : 0 <= w).
  { destruct (Z_lt_le_dec w 0) as [Hneg|]; [|assumption].
    rewrite Z.pow_neg_r in Hu by assumption. lia. }
  assert (Hw' : 0 <= w').
  { destruct (Z_lt_le_dec w' 0) as [Hneg|]; [|assumption].
    rewrite Z.pow_neg_r in Hu' by assumption. lia. }
  destruct (Z.lt_trichotomy w w') as [Hlt|[Heq|Hgt]]; [|assumption|].
  - pose proof (Z.pow_le_mono_r 10 w (w' - 1) ltac:(lia) ltac:(lia)). lia.
  - pose proof (Z.pow_le_mono_r 10 w' (w - 1) ltac:(lia) ltac:(lia)). lia.
Qed.

Lemma digits_spec n w :
  0 < n -> 10 ^ (w - 1) <= n < 10 ^ w ->
  Overview.digits n = Py.Ok w.
Proof.
  intros Hn Hw. destruct n as [|p|p]; try lia. simpl. f_equal.
  apply (digits_unique (Zpos p)); [|exact Hw|exact Hn].
  split; [apply digits_lower|apply digits_upper].
Qed.

Lemma string_of_uint_length d :
  d <> Decimal.Nil ->
  String.length (NilZero.string_of_uint d) = Decimal.nb_digits d.
Proof.
  assert (H : forall u, String.length (NilEmpty.string_of_uint u)
                        = Decimal.nb_digits u).
  { induction u; simpl; rewrite ?IHu; reflexivity. }
  intros Hd. destruct d; [contradiction|..]; apply H.
Qed.

(** The numeral of a positive number not above [largest] has no more
    digits than [largest]. *)
Lemma str_of_int_length n largest w :
  0 < n <= largest -> 10 ^ (w - 1) <= largest < 10 ^ w ->
  (1 <= String.length (str_of_int n) <= Z.to_nat w)%nat.
Proof.
  intros [Hn Hle] [Hl Hu]. destruct n as [|p|p]; try lia.
  unfold str_of_int. cbn [Z.to_int NilZero.string_of_int].
  pose proof (DecimalPos.Unsigned.to_uint_nonnil p) as Hnil.
  rewrite string_of_uint_length by assumption.
  pose proof (digits_lower p) as Hlow.
  destruct (Decimal.nb_digits (Pos.to_uint p)) as [|k] eqn:Hk.
  { now apply DecimalFacts.nb_digits_0 in Hk. }
  split; [lia|].
  assert (Hw : 0 <= w).
  { destruct (Z_lt_le_dec w 0) as [Hneg|]; [|assumption].
    rewrite Z.pow_neg_r in Hu by assumption. lia. }
  destruct (Z_lt_le_dec (Z.of_nat k) w) as [Hlt|Hge]; [lia|].
  replace (Z.of_nat (S k) - 1) with (Z.of_nat k) in Hlow by lia.
  pose proof (Z.pow_le_mono_r 10 w (Z.of_nat k) ltac:(lia) ltac:(lia)). lia.
Qed.

Lemma spaces_length k : String.length (spaces k) = k.
Proof. induction k as [|k IH]; simpl; [reflexivity|]. now rewrite IH. Qed.

(** X6.  What [output_check_table] prints for statuses with positive pull
    request numbers, the largest of them with [w] decimal digits, on a
    terminal with room for one item per row: one line per piece of
    [(terminal_width - 2) // (w + 3)] statuses of the list sorted newest
    first; a line is two indents and the cells of its statuses joined by
    the separator, and the text of a cell is the hash sign, spaces, and the
    decimal numeral of the number of the status.  All these texts are
    [1 + w] characters long, so the numerals are right-aligned to the width
    of the largest.  (The numbers are below [10^14], where the
    floating-point logarithm of line 146 gives the number of digits.) *)
Theorem output_check_table_prints recent_cutoff terminal_width pr_statuses
        recent_days largest w :
  (forall c, In c pr_statuses -> exists n, pr c = Some n /\ 0 < n <= largest) ->
  (exists c, In c pr_statuses /\ pr c = Some largest) ->
  largest < 10 ^ 14 ->
  10 ^ (w - 1) <= largest < 10 ^ w ->
  w + 5 <= terminal_width ->
  let text := fun c =>
    "#" +:+ spaces (Z.to_nat w - String.length (str_of_int (pr_number c)))
        +:+ str_of_int (pr_number c) in
  snd (Overview.output_check_table recent_cutoff terminal_width pr_statuses
                                   recent_days)
  = Py.Ok (map (fun row =>
                  INDENT +:+ INDENT +:+
                  String.concat SEPARATOR
                    (map (fun c => Overview.format_status recent_cutoff c
                                     (text c) recent_days) row))
               (chunks (Z.to_nat ((terminal_width - 2) / (w + 3)))
                       (sort_desc pr_statuses)))
  /\ (forall c, In c pr_statuses ->
                pr c = Some (pr_number c) /\ len (text c) = 1 + w).
Proof.
  intros Hnumbers (c0 & Hc0 & Hlargest) _ Hw Hwidth text.
  pose proof (sort_desc_perm pr_statuses) as Hperm.
  assert (Hall : Forall (fun c => is_Some (pr c)) pr_statuses).
  { apply List.Forall_forall. intros c Hc.
    destruct (Hnumbers c Hc) as (n & -> & _). now eexists. }
  assert (Hall' : Forall (fun c => is_Some (pr c)) (sort_desc pr_statuses))
    by (eapply Permutation_Forall; eassumption).
  assert (Hne' : sort_desc pr_statuses <> []).
  { intros Hnil. apply sort_desc_nil in Hnil. subst. destruct Hc0. }
  assert (Hpos : 0 < largest).
  { destruct (Hnumbers c0 Hc0) as (n & Hn & Hbound). lia. }
  assert (Hw1 : 1 <= w).
  { destruct (Z_lt_le_dec w 1) as [Hlt|]; [|assumption]. exfalso.
    destruct (Z.eq_dec w 0) as [->|Hnz]; [simpl in Hw; lia|].
    rewrite (Z.pow_neg_r 10 w) in Hw by lia. lia. }
  split.
  - unfold Overview.output_check_table. cbn [snd].
    destruct (max_pr_Ok (sort_desc pr_statuses) Hne' Hall')
      as (m & Hm & (c & Hc & Hcm) & Hmax).
    assert (Heq : m = largest).
    { apply Z.le_antisymm.
      - apply (Permutation_in _ (Permutation_sym Hperm)) in Hc.
        destruct (Hnumbers c Hc) as (n & Hn & Hbound). rewrite Hcm in Hn.
        injection Hn as <-. lia.
      - apply (Hmax c0); [now apply (Permutation_in _ Hperm)|assumption]. }
    subst m. rewrite Hm. simpl. rewrite (digits_spec largest w Hpos Hw). simpl.
    rewrite items_per_row_eq.
    assert (Hrows : 0 < (terminal_width - 2) / (w + 3)).
    { apply Z.div_str_pos. lia. }
    destruct (table_rows_positive _ (sort_desc pr_statuses) Hrows)
      as (rows & Hrows_eq & Hcat & _).
    assert (Hchunks : table_rows ((terminal_width - 2) / (w + 3))
                                 (sort_desc pr_statuses)
                      = Py.Ok (chunks (Z.to_nat ((terminal_width - 2) / (w + 3)))
                                      (sort_desc pr_statuses))).
    { unfold table_rows, chunks.
      destruct (sort_desc pr_statuses) as [|x l]; [reflexivity|].
      destruct (Z.eqb_spec ((terminal_width - 2) / (w + 3)) 0) as [Hz|_]; [lia|].
      f_equal. apply (runs_are_chunks _ _ Hrows 0).
      - apply Z.mod_0_l. lia.
      - reflexivity.
      - apply groupby_concat.
      - apply groupby_runs.
      - apply groupby_adjacent. }
    rewrite Hchunks in *. injection Hrows_eq as <-. simpl.
    rewrite print_rows_Ok by (apply Forall_concat_inv; now rewrite Hcat).
    simpl. f_equal. apply List.map_ext. intros row.
    unfold Overview.format_table_row, labelled. rewrite List.map_map.
    reflexivity.
  - intros c Hc. destruct (Hnumbers c Hc) as (n & Hn & Hbound).
    unfold text, pr_number. rewrite Hn. cbn [default]. split; [reflexivity|].
    pose proof (str_of_int_length n largest w Hbound Hw) as Hlen.
    unfold len. rewrite !length_append, spaces_length. simpl. lia.
Qed.

Lemma output_check_table_prints_witness :
  snd (Overview.output_check_table example_cutoff 80
                                   [older_status; newer_status] 1)
  = Py.Ok [INDENT +:+ INDENT +:+
           String.concat SEPARATOR
             [Overview.format_status example_cutoff newer_status "#12" 1;
              Overview.format_status example_cutoff older_status "# 7" 1]]
  /\ (forall c, In c [older_status; newer_status] ->
                pr c = Some (pr_number c)
                /\ len ("#" +:+ spaces (Z.to_nat 2
                                        - String.length (str_of_int (pr_number c)))
                            +:+ str_of_int (pr_number c)) = 3).
Proof.
  apply (output_check_table_prints example_cutoff 80
           [older_status; newer_status] 1 12 2).
  - intros c [<-|[<-|[]]]; eexists; (split; [reflexivity|lia]).
  - exists newer_status. split; [right; left; reflexivity|reflexivity].
  - reflexivity.
  - simpl. lia.
  - lia.
Defined.

(** ** The links of classified statuses *)

(** Every record a call returns is the record of a classified pull request
    for a requested check. *)
Lemma records_are_status_records now client repo_ branch checks names_table
      statuses check st :
  snd (get_check_statuses now client repo_ branch checks names_table)
  = Py.Ok statuses ->
  In st (records statuses check) ->
  exists pull,
    In pull (eligible (fetched client repo_ branch))
    /\ In check checks
    /\ st = status_record now repo_ names_table pull check.
Proof.
  intros Hok Hst. apply get_check_statuses_Ok in Hok.
  apply classify_pulls_inv in Hok. destruct Hok as [Hrec _].
  rewrite Hrec in Hst. simpl in Hst. apply in_flat_map in Hst.
  destruct Hst as (pull & Hpull & Hrep).
  exists pull. split; [assumption|].
  destruct (count_occ string_dec checks check) eqn:Hcount; [destruct Hrep|].
  split.
  - apply (count_occ_In string_dec). lia.
  - rewrite <- Hcount in Hrep. now apply repeat_spec in Hrep.
Qed.

(** X7.  [get_status_url] never fails on a classified status: the link is
    the target the context reported when that is not empty, and the page of
    the pull request otherwise. *)
Theorem classified_status_url now client repo_ branch checks names_table
        statuses check st :
  snd (get_check_statuses now client repo_ branch checks names_table)
  = Py.Ok statuses ->
  In st (records statuses check) ->
  exists n,
    pr st = Some n
    /\ Terminal.get_status_url st
       = Some (match targetUrl st with
               | Some (String c target) => String c target
               | _ => "https://github.com/" +:+ repo_ +:+ "/pull/"
                      +:+ str_of_int n
               end).
Proof.
  intros Hok Hst.
  destruct (records_are_status_records _ _ _ _ _ _ _ _ _ Hok Hst)
    as (pull & _ & _ & ->).
  exists (number pull). split; [reflexivity|].
  unfold Terminal.get_status_url, status_record, with_pr. simpl.
  destruct (ctx_targetUrl _) as [[|c target]|]; reflexivity.
Qed.

Lemma classified_status_url_witness :
  exists n,
    pr (status_record "2024-05-02T00:00:00Z" "acme/widgets" example_names
                      open_pull "build") = Some n
    /\ Terminal.get_status_url
         (status_record "2024-05-02T00:00:00Z" "acme/widgets" example_names
                        open_pull "build")
       = Some (match targetUrl (status_record "2024-05-02T00:00:00Z"
                                  "acme/widgets" example_names open_pull "build") with
               | Some (String c target) => String c target
               | _ => "https://github.com/" +:+ "acme/widgets" +:+ "/pull/"
                      +:+ str_of_int n
               end).
Proof.
  apply (classified_status_url "2024-05-02T00:00:00Z" example_client
           "acme/widgets" "main" ["build"; "test"] example_names
           example_statuses "build").
  - reflexivity.
  - left. reflexivity.
Defined.

(** X8.  The script links a classified status to its build log exactly
    when the check has finished: [SUCCESS], [FAILURE] and [ERROR] get the
    page named after repository, pull request, commit and internal check
    name, [EXPECTED] and [PENDING] get no link. *)
Theorem classified_result_url now client repo_ branch checks names_table
        statuses check st :
  snd (get_check_statuses now client repo_ branch checks names_table)
  = Py.Ok statuses ->
  In st (records statuses check) ->
  exists n sha ci,
    pr st = Some n /\ commit_sha st = Some sha /\ ci_name st = Some ci
    /\ names_table !! check = Some ci
    /\ Overview.result_url st
       = match state st with
         | SUCCESS | FAILURE | ERROR =>
             Some ("https://ali-ci.cern.ch/alice-build-logs/" +:+ repo_ +:+ "/"
                   +:+ str_of_int n +:+ "/" +:+ sha +:+ "/" +:+ ci
                   +:+ "/pretty.html")
         | EXPECTED | PENDING => None
         end.
Proof.
  intros Hok Hst.
  assert (Hci : exists ci, names_table !! check = Some ci).
  { destruct (records_are_status_records _ _ _ _ _ _ _ _ _ Hok Hst)
      as (pull & Hpull & Hcheck & _).
    destruct (names_table !! check) as [ci|] eqn:Hnone; [now exists ci|].
    exfalso. apply get_check_statuses_Ok in Hok.
    apply eligible_In in Hpull. destruct Hpull as [Hpull Hskip].
    apply in_split in Hpull. destruct Hpull as (before & after & Hsplit).
    rewrite Hsplit, for_each_app in Hok.
    destruct (Py.for_each _ before ∅) as [e|s1]; [discriminate|].
    simpl in Hok. unfold classify_pull at 1 in Hok. rewrite Hskip in Hok.
    destruct (commits pull) as [|commit rest]; [discriminate|]. simpl in Hok.
    apply in_split in Hcheck. destruct Hcheck as (cb & ca & Hcs).
    rewrite Hcs, for_each_app in Hok.
    destruct (Py.for_each _ cb s1) as [e|s2]; [discriminate|].
    simpl in Hok. unfold classify_check at 1 in Hok.
    unfold Py.getitem in Hok. rewrite Hnone in Hok. discriminate Hok. }
  destruct Hci as [ci Hci].
  destruct (records_are_status_records _ _ _ _ _ _ _ _ _ Hok Hst)
    as (pull & _ & _ & ->).
  exists (number pull), (oid (head_commit pull)), ci.
  unfold status_record, with_pr, Overview.result_url. rewrite Hci. simpl.
  repeat split.
Qed.

Lemma classified_result_url_witness :
  exists n sha ci,
    pr (status_record "2024-05-02T00:00:00Z" "acme/widgets" example_names
                      open_pull "build") = Some n
    /\ commit_sha (status_record "2024-05-02T00:00:00Z" "acme/widgets"
                                 example_names open_pull "build") = Some sha
    /\ ci_name (status_record "2024-05-02T00:00:00Z" "acme/widgets"
                              example_names open_pull "build") = Some ci
    /\ example_names !! "build" = Some ci
    /\ Overview.result_url
         (status_record "2024-05-02T00:00:00Z" "acme/widgets" example_names
                        open_pull "build")
       = match state (status_record "2024-05-02T00:00:00Z" "acme/widgets"
                                    example_names open_pull "build") with
         | SUCCESS | FAILURE | ERROR =>
             Some ("https://ali-ci.cern.ch/alice-build-logs/" +:+ "acme/widgets"
                   +:+ "/" +:+ str_of_int n +:+ "/" +:+ sha +:+ "/" +:+ ci
                   +:+ "/pretty.html")
         | EXPECTED | PENDING => None
         end.
Proof.
  apply (classified_result_url "2024-05-02T00:00:00Z" example_client
           "acme/widgets" "main" ["build"; "test"] example_names
           example_statuses "build").
  - reflexivity.
  - left. reflexivity.
Defined.

(** ** The file parser and the directory walk of [checks.py] *)

Lemma partition_build sep (a b : string) :
  ~ In sep (chars a) ->
  Py.partition sep (a +:+ String sep b) = (a, String sep "", b).
Proof.
  induction a as [|c a IH]; intros Hno.
  - rewrite append_nil_l. simpl. now rewrite Ascii.eqb_refl.
  - rewrite append_cons. simpl.
    destruct (Ascii.eqb_spec c sep) as [->|Hne].
    + exfalso. apply Hno. now left.
    + rewrite IH; [reflexivity|]. intros Hin. apply Hno. now right.
Qed.

Lemma chars_app (a b : string) : chars (a +:+ b) = chars a ++ chars b.
Proof.
  induction a as [|c a IH]; [reflexivity|].
  rewrite append_cons. unfold chars in *. simpl. now rewrite IH.
Qed.

Lemma partition_assignment (var value : string) :
  ~ In "="%char (chars var) ->
  Py.partition "=" (var +:+ "=" +:+ value) = (var, "=", value).
Proof. apply partition_build. Qed.

(** What one token does to the variables read so far. *)
Lemma assign_lookup result token var :
  ChecksTree.assign result token !! var
  = match Py.partition "=" token with
    | (v, String _ _, value) => if decide (v = var) then Some value
                                else result !! var
    | (_, EmptyString, _) => result !! var
    end.
Proof.
  unfold ChecksTree.assign.
  destruct (Py.partition "=" token) as [[v [|c sep]] value]; simpl;
    [reflexivity|].
  rewrite lookup_insert. destruct (decide (v = var)); reflexivity.
Qed.

Lemma snoc_split {A : Type} (l : list A) t before x after :
  l ++ [t] = before ++ x :: after ->
  (after = [] /\ x = t /\ before = l)
  \/ exists after', after = after' ++ [t] /\ l = before ++ x :: after'.
Proof.
  intros H.
  assert (Hcases : after = [] \/ exists after' y, after = after' ++ [y]).
  { destruct after as [|a after]; [now left|]. right.
    destruct (exists_last (l := a :: after) ltac:(discriminate))
      as (after' & y & Hy).
    now exists after', y. }
  destruct Hcases as [->|(after' & y & ->)].
  - left. apply app_inj_tail in H. destruct H as [-> ->]. now repeat split.
  - right. exists after'.
    change (before ++ x :: after' ++ [y]) with (before ++ (x :: after') ++ [y]) in H.
    rewrite app_assoc in H. apply app_inj_tail in H. destruct H as [-> ->].
    now split.
Qed.

(** The variables of a list of tokens: the last assignment to a variable
    decides. *)
Lemma tokens_last_wins tokens var value :
  fold_left ChecksTree.assign tokens ∅ !! var = Some value
  <-> ~ In "="%char (chars var)
      /\ exists before after,
          tokens = before ++ (var +:+ "=" +:+ value) :: after
          /\ forall token v, In token after -> token <> var +:+ "=" +:+ v.
Proof.
  revert value. induction tokens as [|t tokens IH] using rev_ind; intros value.
  - simpl. rewrite lookup_empty. split; [discriminate|].
    intros (_ & before & after & H & _). now destruct before.
  - rewrite fold_left_app. simpl. rewrite assign_lookup.
    destruct (in_dec ascii_dec "="%char (chars t)) as [Hin|Hno].
    + destruct (partition_present _ _ Hin) as (v & val & Hp & Ht & Hv).
      rewrite Hp. destruct (decide (v = var)) as [->|Hne].
      * split.
        -- intros [= ->]. split; [assumption|].
           exists tokens, []. split; [now rewrite Ht|]. intros token v' [].
        -- intros (_ & before & after & H & Hafter).
           apply snoc_split in H.
           destruct H as [(-> & Hx & ->)|(after' & -> & ->)].
           ++ assert (Hpart : Py.partition "=" (var +:+ "=" +:+ value)
                              = Py.partition "=" t) by now rewrite Hx.
              rewrite Hp, partition_assignment in Hpart by assumption.
              congruence.
           ++ exfalso. apply (Hafter t val); [|exact Ht].
              apply in_app_iff. right. now left.
      * rewrite IH. split.
        -- intros (Hvar & before & after & -> & Hafter). split; [assumption|].
           exists before, (after ++ [t]). split.
           ++ now rewrite <- app_assoc.
           ++ intros token v' Htoken. apply in_app_iff in Htoken.
              destruct Htoken as [Htoken|[<-|[]]]; [now apply Hafter|].
              intros Heq. apply Hne.
              assert (Hpart : Py.partition "=" t
                              = Py.partition "=" (var +:+ "=" +:+ v'))
                by now rewrite Heq.
              rewrite Hp, partition_assignment in Hpart by assumption.
              congruence.
        -- intros (Hvar & before & after & H & Hafter). split; [assumption|].
           apply snoc_split in H.
           destruct H as [(-> & Hx & ->)|(after' & -> & ->)].
           ++ exfalso. apply Hne.
              assert (Hpart : Py.partition "=" t
                              = Py.partition "=" (var +:+ "=" +:+ value))
                by now rewrite <- Hx.
              rewrite Hp, partition_assignment in Hpart by assumption.
              congruence.
           ++ exists before, after'. split; [reflexivity|].
              intros token v' Htoken. apply Hafter. apply in_app_iff. now left.
    + rewrite (partition_absent _ _ Hno). rewrite IH. split.
      * intros (Hvar & before & after & -> & Hafter). split; [assumption|].
        exists before, (after ++ [t]). split.
        -- now rewrite <- app_assoc.
        -- intros token v' Htoken. apply in_app_iff in Htoken.
           destruct Htoken as [Htoken|[<-|[]]]; [now apply Hafter|].
           intros Heq. apply Hno. rewrite Heq. rewrite chars_app. apply in_app_iff. right. now left.
      * intros (Hvar & before & after & H & Hafter). split; [assumption|].
        apply snoc_split in H.
        destruct H as [(-> & Hx & ->)|(after' & -> & ->)].
        -- exfalso. apply Hno. rewrite <- Hx. rewrite chars_app. apply in_app_iff. right. now left.
        -- exists before, after'. split; [reflexivity|].
           intros token v' Htoken. apply Hafter. apply in_app_iff. now left.
Qed.

(** X9.  [parse_env_file] returns for every text that splits into shell
    words; a variable has the value of the last token of the form
    variable=value, the first equals sign of a token ending the name, and
    tokens without an equals sign bind nothing. *)
Theorem parse_env_file_last_wins shlex_split contents tokens var value :
  shlex_split contents = Py.Ok tokens ->
  exists variables,
    ChecksTree.parse_env_file shlex_split contents = Py.Ok variables
    /\ (variables !! var = Some value
        <-> ~ In "="%char (chars var)
            /\ exists before after,
                tokens = before ++ (var +:+ "=" +:+ value) :: after
                /\ forall token v, In token after -> token <> var +:+ "=" +:+ v).
Proof.
  intros Hsplit. unfold ChecksTree.parse_env_file. rewrite Hsplit. simpl.
  eexists. split; [reflexivity|]. apply tokens_last_wins.
Qed.

Section WalkFacts.

Variable shlex_split : string -> Py.result (list string).

Lemma process_entries_inr common_path entries yielded listing :
  ChecksTree.process_entries shlex_split common_path entries yielded
  = inr listing ->
  Forall (intact_file shlex_split) entries
  /\ map fst listing
     = map fst yielded
       ++ map (fun entry =>
                 split "/" (ChecksTree.removeprefix (ChecksTree.path entry)
                                                     common_path)) entries.
Proof.
  revert yielded. induction entries as [|entry entries IH]; intros yielded; simpl.
  - intros [= <-]. split; [constructor|]. now rewrite app_nil_r.
  - unfold ChecksTree.process_entry at 1.
    destruct (ChecksTree.object entry) as [text [|]|sub] eqn:Hobj;
      try discriminate.
    unfold ChecksTree.parse_env_file.
    destruct (shlex_split text) as [e|tokens] eqn:Htokens; simpl;
      [discriminate|].
    intros Hrest. destruct (IH _ Hrest) as [Hall Hpaths]. split.
    + constructor; [|assumption]. now exists text, tokens.
    + rewrite Hpaths, map_app. simpl. now rewrite <- app_assoc.
Qed.

Lemma process_entries_intact common_path entries yielded :
  Forall (intact_file shlex_split) entries ->
  exists listing,
    ChecksTree.process_entries shlex_split common_path entries yielded
    = inr listing.
Proof.
  intros Hall. revert yielded.
  induction Hall as [|entry entries (text & tokens & Hobj & Htokens) _ IH];
    intros yielded; simpl.
  - now exists yielded.
  - unfold ChecksTree.process_entry, ChecksTree.parse_env_file.
    rewrite Hobj, Htokens. simpl. apply IH.
Qed.

(** X10.  The directory walk returns exactly for a directory whose entries
    are all files that are not truncated and split into shell words; it
    then lists them in their order, each under its path behind the common
    path cut at the slashes.  A subdirectory among the entries makes it
    raise. *)
Theorem walk_returns_for_flat_directory entries common_path :
  ((exists listing,
       ChecksTree.process_gql_directory shlex_split entries common_path
       = inr listing)
   <-> Forall (intact_file shlex_split) entries)
  /\ (forall listing,
         ChecksTree.process_gql_directory shlex_split entries common_path
         = inr listing ->
         map fst listing
         = map (fun entry =>
                  split "/" (ChecksTree.removeprefix
                               (ChecksTree.path entry)
                               (ChecksTree.strip "/" common_path +:+ "/")))
               entries)
  /\ (Exists (fun entry => exists sub,
                  ChecksTree.object entry = ChecksTree.Tree sub) entries ->
      exists e,
        ChecksTree.process_gql_directory shlex_split entries common_path
        = inl e).
Proof.
  unfold ChecksTree.process_gql_directory. split; [split|split].
  - intros [listing H]. now apply process_entries_inr in H.
  - apply process_entries_intact.
  - intros listing H. now apply process_entries_inr in H.
  - intros Hex.
    destruct (ChecksTree.process_entries shlex_split _ entries [])
      as [e|listing] eqn:H; [now exists e|].
    exfalso. apply process_entries_inr in H. destruct H as [Hall _].
    apply List.Exists_exists in Hex. destruct Hex as (entry & Hin & sub & Hsub).
    rewrite List.Forall_forall in Hall.
    destruct (Hall entry Hin) as (text & tokens & Hblob & _). congruence.
Qed.

End WalkFacts.

(** ** The checks of the remote resolver *)

Lemma substring_prefix (base rest : string) :
  substring 0 (String.length base) (base +:+ rest) = base.
Proof.
  induction base as [|c base IH].
  - rewrite append_nil_l. simpl. now destruct rest.
  - rewrite append_cons. simpl. now rewrite IH.
Qed.

Lemma substring_all (s : string) : substring 0 (String.length s) s = s.
Proof. induction s as [|c s IH]; simpl; [reflexivity|]. now rewrite IH. Qed.

Lemma substring_suffix (base rest : string) :
  substring (String.length base) (String.length rest) (base +:+ rest) = rest.
Proof.
  induction base as [|c base IH].
  - rewrite append_nil_l. apply substring_all.
  - rewrite append_cons. simpl. exact IH.
Qed.

(** Taking a suffix off gives back what it was put behind. *)
Lemma removesuffix_app (base suffix : string) :
  removesuffix (base +:+ suffix) suffix = base.
Proof.
  unfold removesuffix, endswith. rewrite length_append.
  replace (String.length base + String.length suffix - String.length suffix)%nat
    with (String.length base) by lia.
  rewrite substring_suffix, String.eqb_refl.
  replace (String.length suffix <=? String.length base + String.length suffix)%nat
    with true by (symmetry; apply Nat.leb_le; lia).
  simpl. destruct suffix as [|c suffix]; simpl.
  - clear. induction base as [|c base IH]; [reflexivity|].
    rewrite append_cons. f_equal. exact IH.
  - apply substring_prefix.
Qed.

Lemma checks_loop_inv defaults (env_files : Checks.EnvFiles) checks0 checks :
  Py.for_each (Checks.resolve_entry defaults) env_files checks0 = Py.Ok checks ->
  exists made,
    checks = checks0 ++ made
    /\ Forall2 (check_of defaults) (check_files env_files) made.
Proof.
  revert checks0. induction env_files as [|[path variables] env_files IH];
    intros checks0; simpl.
  - intros [= <-]. exists []. split; [now rewrite app_nil_r|constructor].
  - unfold Checks.resolve_entry at 1. unfold Checks.last_component.
    unfold check_files, is_defaults in *. simpl.
    destruct (last path) as [file|] eqn:Hlast; simpl; [|discriminate].
    destruct (String.eqb file "DEFAULTS.env") eqn:Hfile; simpl.
    + apply IH.
    + destruct path as [|role [|container [|filename [|extra path]]]];
        try discriminate.
      simpl in Hlast. injection Hlast as <-.
      unfold Py.getitem.
      destruct (Checks.apply_defaults defaults role container variables
                !! "CHECK_NAME") as [n|] eqn:Hn; simpl; [|discriminate].
      destruct (Checks.apply_defaults defaults role container variables
                !! "PR_REPO") as [r|] eqn:Hr; simpl; [|discriminate].
      destruct (Checks.apply_defaults defaults role container variables
                !! "PR_BRANCH") as [b|] eqn:Hb; simpl; [|discriminate].
      intros Hrest. destruct (IH _ Hrest) as (made & -> & Hmade).
      eexists. split; [now rewrite <- app_assoc|].
      simpl. constructor; [|exact Hmade].
      exists role, container, filename. simpl. repeat split; try assumption.
      intros base ->. apply removesuffix_app.
Qed.

(** X11.  Lines 104-123 of [get_all_checks] in [checks.py], for a list
    [env_files] of files with their variables: when these lines return,
    they return one check for every listed file that is not named
    [DEFAULTS.env], in the order of the list; every such file lies exactly
    two directories deep, and its check has the file name without [.env]
    as short name and the merged [CHECK_NAME], [PR_REPO] and [PR_BRANCH]
    as name, repository and branch.  (The function itself raises before
    it gets to these lines, as line 100 calls the directory walk without
    its second argument.) *)
Theorem remote_checks_follow_listing env_files checks :
  Checks.resolve_env_files env_files = Py.Ok checks ->
  exists defaults,
    Checks.collect_defaults env_files = Py.Ok defaults
    /\ Forall2 (check_of defaults) (check_files env_files) checks.
Proof.
  unfold Checks.resolve_env_files.
  destruct (Checks.collect_defaults env_files) as [e|defaults];
    simpl; [discriminate|].
  intros H. exists defaults. split; [reflexivity|].
  apply checks_loop_inv in H. destruct H as (made & -> & Hmade). exact Hmade.
Qed.

Lemma remote_checks_follow_listing_witness :
  exists defaults,
    Checks.collect_defaults scenario_listing = Py.Ok defaults
    /\ Forall2 (check_of defaults) (check_files scenario_listing)
               [Checks.mkCheck "unit" "unit-gcc" "acme/widgets" "main"].
Proof.
  apply (remote_checks_follow_listing scenario_listing). reflexivity.
Defined.

(** X16.  [get_all_checks] of [checks.py] returns for no input.  For a
    repository without a slash it raises [ValueError] and sends no query.
    For one with a slash it sends exactly one query, for the owner before
    the first slash, the name behind it and the object [branch:directory]
    with the slashes around the directory stripped; it then raises what the
    query raises, and when the query answers it raises the [TypeError] of
    the call of line 100, which passes the directory walk one argument of
    two. *)
Theorem remote_resolver_never_returns client defs_repo defs_branch defs_dir :
  let run := ChecksTree.get_all_checks client defs_repo defs_branch defs_dir in
  (forall checks, snd run <> inr checks)
  /\ (~ In "/"%char (chars defs_repo) ->
      fst run = []
      /\ exists msg, snd run = inl (ChecksTree.Raised (Py.ValueError msg)))
  /\ (In "/"%char (chars defs_repo) ->
      exists owner name_,
        defs_repo = owner +:+ "/" +:+ name_
        /\ ~ In "/"%char (chars owner)
        /\ let query :=
             ChecksTree.mkQuery owner name_
               (defs_branch +:+ ":" +:+ ChecksTree.strip "/" defs_dir) in
           fst run = [query]
           /\ (forall e, client query = inl e -> snd run = inl e)
           /\ (forall directory,
                  client query = inr directory ->
                  exists msg, snd run = inl (ChecksTree.TypeError msg))).
Proof.
  intros run. split; [|split].
  - intros checks Hrun.
    destruct (remote_resolver_raises client defs_repo defs_branch defs_dir)
      as [e He].
    unfold run in Hrun. rewrite He in Hrun. discriminate.
  - intros Hno. unfold run, ChecksTree.get_all_checks.
    rewrite (partition_absent _ _ Hno). simpl. split; [reflexivity|].
    eexists. reflexivity.
  - intros Hin. destruct (partition_present _ _ Hin) as (owner & name_ & Hp & Hrepo & Howner).
    exists owner, name_. split; [exact Hrepo|]. split; [exact Howner|].
    unfold run, ChecksTree.get_all_checks. rewrite Hp. simpl.
    split; [reflexivity|]. split.
    + intros e He. now rewrite He.
    + intros directory Hd. rewrite Hd. eexists. reflexivity.
Qed.

Lemma remote_resolver_never_returns_witness :
  exists owner name_,
    "alisw/ali-bot" = owner +:+ "/" +:+ name_
    /\ ~ In "/"%char (chars owner)
    /\ let query :=
         ChecksTree.mkQuery owner name_
           ("master" +:+ ":" +:+ ChecksTree.strip "/" "ci/repo-config") in
       fst (ChecksTree.get_all_checks flat_client "alisw/ali-bot" "master"
                                      "ci/repo-config")
       = [query]
       /\ (forall e, flat_client query = inl e ->
                     snd (ChecksTree.get_all_checks flat_client "alisw/ali-bot"
                                                    "master" "ci/repo-config")
                     = inl e)
       /\ (forall directory,
              flat_client query = inr directory ->
              exists msg,
                snd (ChecksTree.get_all_checks flat_client "alisw/ali-bot"
                                               "master" "ci/repo-config")
                = inl (ChecksTree.TypeError msg)).
Proof.
  apply (proj2 (proj2 (remote_resolver_never_returns
                         flat_client "alisw/ali-bot" "master" "ci/repo-config"))).
  unfold chars. simpl. do 5 right. left. reflexivity.
Defined.

(** ** The main loop of the script *)

Lemma insert_asc_In x y l : In y (Script.insert_asc x l) <-> y = x \/ In y l.
Proof.
  induction l as [|z l IH]; simpl; [intuition congruence|].
  destruct (String.ltb z x); simpl; [rewrite IH|]; intuition congruence.
Qed.

Lemma sorted_In x l : In x (Script.sorted l) <-> In x l.
Proof.
  induction l as [|y l IH]; simpl; [reflexivity|].
  rewrite insert_asc_In, IH. intuition congruence.
Qed.

(** With no status under any of the checks, every check gets its header,
    the placeholder and an empty line, and the statuses stay as they
    are. *)
Lemma print_checks_empty recent_cutoff terminal_width recent_days statuses
      checks lines :
  (forall check, In check checks -> records statuses check = []) ->
  fold_left (Script.print_check recent_cutoff terminal_width recent_days) checks
            (Script.mkRun lines statuses None)
  = Script.mkRun
      (lines ++ flat_map (fun check => [Script.format_check_header check;
                                        Script.format_empty_table; ""]) checks)
      statuses None.
Proof.
  revert lines. induction checks as [|check checks IH]; intros lines Hempty.
  - simpl. now rewrite app_nil_r.
  - simpl. unfold Script.print_check at 2. simpl.
    pose proof (Hempty check (or_introl eq_refl)) as Hcheck.
    unfold records in Hcheck. rewrite Hcheck.
    rewrite IH by (intros c Hc; apply Hempty; now right).
    f_equal. rewrite <- !app_assoc. reflexivity.
Qed.

(** A requested check has no status exactly when no fetched pull request is
    classified. *)
Lemma records_empty_iff now client repo_ branch checks names_table statuses check :
  snd (get_check_statuses now client repo_ branch checks names_table)
  = Py.Ok statuses ->
  In check checks ->
  records statuses check = [] <-> eligible (fetched client repo_ branch) = [].
Proof.
  intros Hok Hcheck. apply get_check_statuses_Ok in Hok.
  apply classify_pulls_inv in Hok. destruct Hok as [Hrec _].
  rewrite Hrec. simpl.
  destruct (eligible (fetched client repo_ branch)) as [|pull pulls].
  - split; reflexivity.
  - split; [|discriminate]. simpl.
    destruct (count_occ string_dec checks check) eqn:Hcount.
    + exfalso. apply (count_occ_not_In string_dec) in Hcount. contradiction.
    + discriminate.
Qed.

(** X12.  A repository all of whose pull requests are drafts or [[WIP]] (or
    that has none) is shown as its header followed, for each of its checks
    in sorted order, by the header of the check, the placeholder and an
    empty line; nothing is raised.  When the request itself raises, the
    header of the repository is all that is printed. *)
Theorem print_repo_placeholders recent_cutoff terminal_width now client
        recent_days names repo_ branch checks :
  (forall statuses,
      snd (get_check_statuses now client repo_ branch checks names)
      = Py.Ok statuses ->
      eligible (fetched client repo_ branch) = [] ->
      snd (Script.print_repo recent_cutoff terminal_width now client
                             recent_days names repo_ branch checks)
      = Script.mkRun
          (Script.format_repo_header repo_ branch
           :: flat_map (fun check => [Script.format_check_header check;
                                      Script.format_empty_table; ""])
                       (Script.sorted checks))
          statuses None)
  /\ (forall e,
         snd (get_check_statuses now client repo_ branch checks names)
         = Py.Raise e ->
         snd (Script.print_repo recent_cutoff terminal_width now client
                                recent_days names repo_ branch checks)
         = Script.mkRun [Script.format_repo_header repo_ branch] ∅ (Some e)).
Proof.
  split.
  - intros statuses Hok Hnone. unfold Script.print_repo.
    destruct (get_check_statuses now client repo_ branch checks names)
      as [requests result] eqn:Hrun.
    simpl in Hok. subst result. simpl.
    apply (print_checks_empty recent_cutoff terminal_width recent_days statuses
             (Script.sorted checks) [Script.format_repo_header repo_ branch]).
    intros check Hcheck. apply (proj1 (sorted_In _ _)) in Hcheck.
    apply (records_empty_iff now client repo_ branch checks names statuses check);
      [now rewrite Hrun|assumption|assumption].
  - intros e Hraise. unfold Script.print_repo.
    destruct (get_check_statuses now client repo_ branch checks names)
      as [requests result].
    simpl in Hraise. subst result. reflexivity.
Qed.

(** ** The defaults of the remote resolver *)

Lemma last_app_removelast (p : Path) file :
  last p = Some file -> p = removelast p ++ [file].
Proof.
  intros Hlast. destruct p as [|x p]; [discriminate|].
  destruct (exists_last (l := x :: p) ltac:(discriminate)) as (front & y & Hy).
  rewrite Hy in *. rewrite last_snoc in Hlast. injection Hlast as ->.
  now rewrite removelast_last.
Qed.

Lemma collect_defaults_loop (listing : Checks.EnvFiles) defaults0 :
  (Forall (fun entry => fst entry <> []) listing ->
   exists defaults,
     Py.for_each (fun defaults entry =>
                    try! file := Checks.last_component (fst entry) in
                    if String.eqb file "DEFAULTS.env"
                    then Py.Ok (<[Checks.parent (fst entry) := snd entry]> defaults)
                    else Py.Ok defaults) listing defaults0 = Py.Ok defaults)
  /\ (forall defaults,
         Py.for_each (fun (defaults : gmap Path (gmap string string)) entry =>
                        try! file := Checks.last_component (fst entry) in
                        if String.eqb file "DEFAULTS.env"
                        then Py.Ok (<[Checks.parent (fst entry) := snd entry]> defaults)
                        else Py.Ok defaults) listing defaults0 = Py.Ok defaults ->
         Forall (fun entry => fst entry <> []) listing
         /\ forall dir,
             defaults !! dir
             = match last (defaults_of listing dir) with
               | Some variables => Some variables
               | None => defaults0 !! dir
               end).
Proof.
  revert defaults0. induction listing as [|[p variables] listing IH];
    intros defaults0; simpl.
  - split; [intros _; now exists defaults0|].
    intros defaults [= <-]. split; [constructor|]. reflexivity.
  - unfold Checks.last_component at 1 3. simpl.
    destruct (last p) as [file|] eqn:Hlast; simpl.
    + assert (Hp : p <> []) by (intros ->; discriminate).
      pose proof (last_app_removelast p file Hlast) as Hsplit.
      destruct (String.eqb_spec file "DEFAULTS.env") as [->|Hfile].
      * destruct (IH (<[Checks.parent p := variables]> defaults0)) as [Htot Hinv].
        split.
        -- intros Hall. apply Htot. now apply Forall_inv_tail in Hall.
        -- intros defaults H. destruct (Hinv _ H) as [Hall Hlook].
           split; [now constructor|]. intros dir. rewrite Hlook.
           unfold defaults_of. simpl. unfold Checks.parent.
           destruct (decide (p = dir ++ ["DEFAULTS.env"])) as [Heq|Hne].
           ++ rewrite bool_decide_eq_true_2 by assumption. simpl.
              assert (removelast p = dir)
                by (rewrite Heq; apply removelast_last).
              subst dir. rewrite lookup_insert_eq.
              fold (defaults_of listing (removelast p)).
              destruct (defaults_of listing (removelast p)) as [|d ds] eqn:Hd;
                [reflexivity|].
              change (last (variables :: d :: ds)) with (last (d :: ds)).
              destruct (last (d :: ds)) eqn:Hl; [reflexivity|].
              apply last_None in Hl. discriminate Hl.
           ++ rewrite bool_decide_eq_false_2 by assumption.
              rewrite lookup_insert_ne; [reflexivity|].
              intros Heq. apply Hne. rewrite Hsplit. now rewrite Heq.
      * destruct (IH defaults0) as [Htot Hinv]. split.
        -- intros Hall. apply Htot. now apply Forall_inv_tail in Hall.
        -- intros defaults H. destruct (Hinv _ H) as [Hall Hlook].
           split; [now constructor|]. intros dir. rewrite Hlook.
           unfold defaults_of. simpl.
           rewrite bool_decide_eq_false_2; [reflexivity|].
           intros Heq. rewrite Heq, last_snoc in Hlast. congruence.
    + split.
      * intros Hall. apply Forall_inv in Hall. simpl in Hall.
        destruct p; [contradiction|]. simpl in Hlast.
        exfalso. revert Hlast. clear. revert s.
        induction p as [|y p IHp]; intros s; [discriminate|]. apply IHp.
      * discriminate.
Qed.

(** X13.  The defaults of the remote resolver are collected whenever no
    listed path is empty; a directory then has the variables of the last
    [DEFAULTS.env] listed for it, wherever in the listing that file stands,
    and none when no such file is listed. *)
Theorem collected_defaults (listing : Checks.EnvFiles) :
  ((exists defaults, Checks.collect_defaults listing = Py.Ok defaults)
   <-> Forall (fun entry => fst entry <> []) listing)
  /\ (forall defaults dir,
         Checks.collect_defaults listing = Py.Ok defaults ->
         defaults !! dir = last (defaults_of listing dir)).
Proof.
  unfold Checks.collect_defaults.
  destruct (collect_defaults_loop listing ∅) as [Htot Hinv]. split; [split|].
  - intros [defaults H]. now apply Hinv in H.
  - exact Htot.
  - intros defaults dir H. destruct (Hinv _ H) as [_ Hlook].
    rewrite Hlook, lookup_empty. now destruct (last (defaults_of listing dir)).
Qed.

(** ** The HTML renderer and the server *)

Lemma html_format_status_cell cutoff st text :
  Http.format_status cutoff st text
  = html_cell (Terminal.get_status_url st) (state st)
              (Py.str_gt (createdAt st) cutoff) (createdAt st) text.
Proof.
  unfold Http.format_status, html_cell.
  assert (Hurl : forall u, Terminal.get_status_url st = Some u -> u <> "").
  { unfold Terminal.get_status_url. intros u.
    destruct (targetUrl st) as [[|c t]|], (repo st), (pr st);
      intros [= <-]; discriminate. }
  destruct (Terminal.get_status_url st) as [[|c u]|].
  - now destruct (Hurl "" eq_refl).
  - reflexivity.
  - reflexivity.
Qed.

Lemma html_cell_recent_differs url s created text :
  html_cell url s true created text <> html_cell url s false created text.
Proof.
  unfold html_cell. intros H.
  do 5 apply append_cancel_l in H.
  rewrite !append_cons in H. discriminate H.
Qed.

(** X14.  The HTML renderer and the text renderer agree on what is recent:
    for one cutoff a status has the class [recent] in the document exactly
    when the terminal shows it in reverse video, and the class [old]
    otherwise; both link it to the same address. *)
Theorem html_and_text_agree cutoff st text :
  (Http.format_status cutoff st text
   = html_cell (Terminal.get_status_url st) (state st) true (createdAt st) text
   <-> Terminal.format_status cutoff st text
       = cell (Terminal.get_status_url st) (Terminal.colour (state st)) true text)
  /\ (Http.format_status cutoff st text
      = html_cell (Terminal.get_status_url st) (state st) false (createdAt st) text
      <-> Terminal.format_status cutoff st text
          = cell (Terminal.get_status_url st) (Terminal.colour (state st))
                 false text).
Proof.
  rewrite html_format_status_cell, terminal_format_status_cell.
  destruct (Py.str_gt (createdAt st) cutoff); split; split; intros H;
    try reflexivity; exfalso;
    first [ now apply cell_reverse_differs in H
          | now apply html_cell_recent_differs in H
          | symmetry in H; now apply cell_reverse_differs in H
          | symmetry in H; now apply html_cell_recent_differs in H ].
Qed.

Lemma refresh_same server : Http.refresh server = server.
Proof. now destruct server. Qed.

Lemma refresh_loop_pages waits server :
  Http.html_page (Http.refresh_loop waits server) = Http.html_page server
  /\ Http.metrics_page (Http.refresh_loop waits server)
     = Http.metrics_page server.
Proof.
  revert server. induction waits as [|[|] waits IH]; intros server; simpl.
  - now split.
  - now split.
  - rewrite refresh_same. apply IH.
Qed.

(** X15.  The refresh worker never changes what is served: whatever the
    environment and however many times it refreshes, both pages are what
    they were when it started, so every request is answered as before; and
    without a [GITHUB_TOKEN] it sets the exit event. *)
Theorem refresh_keeps_pages environ waits server :
  Http.html_page (Http.regenerate_output environ waits server)
  = Http.html_page server
  /\ Http.metrics_page (Http.regenerate_output environ waits server)
     = Http.metrics_page server
  /\ (forall path,
         Http.do_GET (Http.regenerate_output environ waits server) path
         = Http.do_GET server path)
  /\ (environ !! "GITHUB_TOKEN" = None ->
      Http.exit_event (Http.regenerate_output environ waits server) = true).
Proof.
  assert (Hpages :
            Http.html_page (Http.regenerate_output environ waits server)
            = Http.html_page server
            /\ Http.metrics_page (Http.regenerate_output environ waits server)
               = Http.metrics_page server).
  { unfold Http.regenerate_output.
    destruct (environ !! "GITHUB_TOKEN"); [|now split].
    rewrite <- (refresh_same server) at 2 4. apply refresh_loop_pages. }
  destruct Hpages as [Hhtml Hmetrics]. repeat split; try assumption.
  - intros path. unfold Http.do_GET. now rewrite Hhtml, Hmetrics.
  - intros Hnone. unfold Http.regenerate_output. now rewrite Hnone.
Qed.

(** ** Instances *)

Lemma catalog_checks_classify_witness :
  exists statuses,
    snd (get_check_statuses "2024-05-02T00:00:00Z" example_client
           "acme/widgets" "main"
           (checks_of {[ ("acme/widgets", "main") := ["unit-gcc"] ]}
                      ("acme/widgets", "main"))
           {[ "unit-gcc" := "unit-gcc-ci" ]})
    = Py.Ok statuses.
Proof.
  apply (proj2 (catalog_checks_classify "2024-05-02T00:00:00Z" example_client
                  scenario_tree [] [] [] []
                  {[ ("acme/widgets", "main") := ["unit-gcc"] ]}
                  {[ "unit-gcc" := "unit-gcc-ci" ]} "acme/widgets" "main"
                  eq_refl)).
  - simpl. do 4 right. left. reflexivity.
  - intros pull [<-|[]]. discriminate.
Defined.

Lemma output_check_table_raises_narrow_witness :
  snd (Overview.output_check_table example_cutoff 3
                                   [older_status; newer_status] 1)
  = Py.Raise Py.ZeroDivisionError.
Proof.
  apply (proj2 (proj2 (proj2 (output_check_table_raises example_cutoff 3
                                [older_status; newer_status] 1)))).
  - repeat constructor; eexists; reflexivity.
  - left. exists 7. split; [reflexivity|lia].
  - reflexivity.
Defined.

Lemma parse_env_file_last_wins_witness :
  exists variables,
    ChecksTree.parse_env_file space_split
      "CHECK_NAME=first PR_BRANCH=main CHECK_NAME=second" = Py.Ok variables
    /\ (variables !! "CHECK_NAME" = Some "second"
        <-> ~ In "="%char (chars "CHECK_NAME")
            /\ exists before after,
                ["CHECK_NAME=first"; "PR_BRANCH=main"; "CHECK_NAME=second"]
                = before ++ ("CHECK_NAME" +:+ "=" +:+ "second") :: after
                /\ forall token v,
                    In token after -> token <> "CHECK_NAME" +:+ "=" +:+ v).
Proof.
  apply (parse_env_file_last_wins space_split
           "CHECK_NAME=first PR_BRANCH=main CHECK_NAME=second"
           ["CHECK_NAME=first"; "PR_BRANCH=main"; "CHECK_NAME=second"]
           "CHECK_NAME" "second").
  reflexivity.
Defined.

Lemma walk_raises_at_subdirectory_witness :
  exists e,
    ChecksTree.process_gql_directory space_split nested_directory
                                     "ci/repo-config" = inl e.
Proof.
  apply (proj2 (proj2 (walk_returns_for_flat_directory space_split
                         nested_directory "ci/repo-config"))).
  right. left. eexists. reflexivity.
Defined.

Lemma print_repo_placeholders_witness :
  snd (Script.print_repo example_cutoff 80 "2024-05-02T00:00:00Z" quiet_client
                         1 example_names "acme/widgets" "main" ["test"; "build"])
  = Script.mkRun
      (Script.format_repo_header "acme/widgets" "main"
       :: flat_map (fun check => [Script.format_check_header check;
                                  Script.format_empty_table; ""])
                   (Script.sorted ["test"; "build"]))
      ∅ None.
Proof.
  apply (proj1 (print_repo_placeholders example_cutoff 80
                  "2024-05-02T00:00:00Z" quiet_client 1 example_names
                  "acme/widgets" "main" ["test"; "build"])).
  - reflexivity.
  - reflexivity.
Defined.

Lemma collected_defaults_witness :
  ({[ [] := {[ "PR_REPO" := "acme/widgets" ]} ]}
     : gmap Path (gmap string string)) !! []
  = last (defaults_of scenario_tree []).
Proof.
  apply (proj2 (collected_defaults scenario_tree)
           {[ [] := {[ "PR_REPO" := "acme/widgets" ]} ]} []).
  reflexivity.
Defined.

Lemma refresh_keeps_pages_witness :
  Http.exit_event (Http.regenerate_output ∅ [false; false] initial_server)
  = true.
Proof.
  apply (proj2 (proj2 (proj2 (refresh_keeps_pages ∅ [false; false]
                                initial_server)))).
  reflexivity.
Defined.
